(** * plugin-auth-mfa: the MFA model and controller, embedded and verified

    The development follows [webapp/model/mfaAuth.js] (class
    [MfaAuthModel]) and [webapp/controller/mfaAuth.js] (class
    [MfaAuthController]).

    - JavaScript strings are sequences of UTF-16 code units ([list N]).
    - Node [Buffer]s are [list byte].
    - [Date] values are milliseconds since the epoch ([Z]); a [null] or
      absent date is [None].
    - The user store ([global.UserModel]) is a finite map from user ids to
      user documents, threaded through a state-and-exception monad.
    - Calls to the logger ([LogController], [console.error]) have no effect
      on any value the program computes and are left out. *)

From Stdlib Require Import ZArith NArith Lia List.
From Stdlib.Strings Require Import Ascii String Byte.
From stdpp Require Import base option list gmap.

Local Open Scope N_scope.

Ltac Zify.zify_post_hook ::= Z.to_euclidean_division_equations.

(** ** JavaScript strings and Node buffers *)

Abbreviation jsstring := (list N).
Abbreviation buffer := (list byte).

(** A string literal of the source, as code units. *)
Definition js (s : string) : jsstring :=
  map N_of_ascii (list_ascii_of_string s).

(** [!s] for a string: only the empty string is falsy. *)
Definition falsy (s : jsstring) : bool :=
  match s with [] => true | _ => false end.

#[global] Instance byte_eq_decision : EqDecision byte := Byte.byte_eq_dec.

Definition byte_of_N (n : N) : byte :=
  match Byte.of_N (n mod 256) with Some b => b | None => x00 end.

(** ** UTF-8, as [Buffer.from(s, 'utf8')] and [buf.toString('utf8')] do it

    Encoding turns a surrogate pair into one four-byte sequence and a lone
    surrogate into U+FFFD (EF BF BD). Decoding replaces every ill-formed
    sequence by U+FFFD. A number above 0xFFFF is no code unit and occurs
    in no JavaScript string; the encoder gives it the bytes of U+FFFD
    too. *)
Module Utf8.

Definition is_high (u : N) : bool := (0xD800 <=? u) && (u <=? 0xDBFF).
Definition is_low (u : N) : bool := (0xDC00 <=? u) && (u <=? 0xDFFF).

Definition replacement : buffer := [byte_of_N 0xEF; byte_of_N 0xBF; byte_of_N 0xBD].

Definition encode2 (u : N) : buffer :=
  [byte_of_N (0xC0 + u / 64); byte_of_N (0x80 + u mod 64)].

Definition encode3 (u : N) : buffer :=
  [byte_of_N (0xE0 + u / 4096); byte_of_N (0x80 + (u / 64) mod 64);
   byte_of_N (0x80 + u mod 64)].

Definition encode4 (cp : N) : buffer :=
  [byte_of_N (0xF0 + cp / 262144); byte_of_N (0x80 + (cp / 4096) mod 64);
   byte_of_N (0x80 + (cp / 64) mod 64); byte_of_N (0x80 + cp mod 64)].

Definition code_point (hi lo : N) : N :=
  0x10000 + (hi - 0xD800) * 1024 + (lo - 0xDC00).

Fixpoint encode (s : jsstring) : buffer :=
  match s with
  | [] => []
  | u :: rest =>
    if u <? 0x80 then byte_of_N u :: encode rest
    else if u <? 0x800 then encode2 u ++ encode rest
    else if is_high u then
      match rest with
      | v :: rest' =>
        if is_low v then encode4 (code_point u v) ++ encode rest'
        else replacement ++ encode rest
      | [] => replacement
      end
    else if is_low u then replacement ++ encode rest
    else if u <? 0x10000 then encode3 u ++ encode rest
    else replacement ++ encode rest
  end.

Definition between (lo hi n : N) : bool := (lo <=? n) && (n <=? hi).
Definition continuation (n : N) : bool := between 0x80 0xBF n.

(** The admissible range of the second byte after lead byte [n0]. *)
Definition second_lo (n0 : N) : N :=
  if n0 =? 0xE0 then 0xA0 else if n0 =? 0xF0 then 0x90 else 0x80.
Definition second_hi (n0 : N) : N :=
  if n0 =? 0xED then 0x9F else if n0 =? 0xF4 then 0x8F else 0xBF.

Definition units_of (cp : N) : jsstring :=
  if cp <? 0x10000 then [cp]
  else [0xD800 + (cp - 0x10000) / 1024; 0xDC00 + (cp - 0x10000) mod 1024].

(** One step of the decoder at lead byte [b0] with [t0] behind it; [decode]
    is the decoder itself, called on what remains. *)
Definition decodeAt (decode : buffer -> jsstring) (b0 : byte) (t0 : buffer)
    : jsstring :=
  let n0 := Byte.to_N b0 in
  if n0 <? 0x80 then n0 :: decode t0
  else if between 0xC2 0xDF n0 then
    match t0 with
    | b1 :: t1 =>
      let n1 := Byte.to_N b1 in
      if continuation n1
      then ((n0 - 0xC0) * 64 + (n1 - 0x80)) :: decode t1
      else 0xFFFD :: decode t0
    | [] => [0xFFFD]
    end
  else if between 0xE0 0xEF n0 then
    match t0 with
    | b1 :: t1 =>
      let n1 := Byte.to_N b1 in
      if between (second_lo n0) (second_hi n0) n1 then
        match t1 with
        | b2 :: t2 =>
          let n2 := Byte.to_N b2 in
          if continuation n2
          then ((n0 - 0xE0) * 4096 + (n1 - 0x80) * 64 + (n2 - 0x80)) :: decode t2
          else 0xFFFD :: decode t1
        | [] => [0xFFFD]
        end
      else 0xFFFD :: decode t0
    | [] => [0xFFFD]
    end
  else if between 0xF0 0xF4 n0 then
    match t0 with
    | b1 :: t1 =>
      let n1 := Byte.to_N b1 in
      if between (second_lo n0) (second_hi n0) n1 then
        match t1 with
        | b2 :: t2 =>
          let n2 := Byte.to_N b2 in
          if continuation n2 then
            match t2 with
            | b3 :: t3 =>
              let n3 := Byte.to_N b3 in
              if continuation n3
              then units_of ((n0 - 0xF0) * 262144 + (n1 - 0x80) * 4096
                             + (n2 - 0x80) * 64 + (n3 - 0x80)) ++ decode t3
              else 0xFFFD :: decode t2
            | [] => [0xFFFD]
            end
          else 0xFFFD :: decode t1
        | [] => [0xFFFD]
        end
      else 0xFFFD :: decode t0
    | [] => [0xFFFD]
    end
  else 0xFFFD :: decode t0.

Fixpoint decode (bs : buffer) : jsstring :=
  match bs with
  | [] => []
  | b0 :: t0 => decodeAt decode b0 t0
  end.

(** [String.prototype.isWellFormed]: every code unit fits 16 bits and
    every surrogate is half of a pair. *)
Fixpoint isWellFormed (s : jsstring) : bool :=
  match s with
  | [] => true
  | u :: rest =>
    if is_high u then
      match rest with
      | v :: rest' => is_low v && isWellFormed rest'
      | [] => false
      end
    else negb (is_low u) && (u <? 0x10000) && isWellFormed rest
  end.

End Utf8.

(** ** Base64, as [buf.toString('base64')] and [Buffer.from(s, 'base64')]

    The decoder is Node's lenient one: it accepts both the standard and the
    URL-safe alphabet, skips every other character, and stops at the first
    ['=']. *)
Module Base64.

Definition char (n : N) : N :=
  if n <? 26 then 65 + n
  else if n <? 52 then 71 + n
  else if n <? 62 then n - 4
  else if n =? 62 then 43
  else 47.

Definition unbase64 (c : N) : option N :=
  if Utf8.between 65 90 c then Some (c - 65)
  else if Utf8.between 97 122 c then Some (c - 71)
  else if Utf8.between 48 57 c then Some (c + 4)
  else if (c =? 43) || (c =? 45) then Some 62
  else if (c =? 47) || (c =? 95) then Some 63
  else None.

Definition pad : N := 61.

Fixpoint encode (bs : buffer) : jsstring :=
  match bs with
  | [] => []
  | b0 :: [] =>
    let n0 := Byte.to_N b0 in
    [char (n0 / 4); char ((n0 mod 4) * 16); pad; pad]
  | b0 :: b1 :: [] =>
    let n0 := Byte.to_N b0 in
    let n1 := Byte.to_N b1 in
    [char (n0 / 4); char ((n0 mod 4) * 16 + n1 / 16); char ((n1 mod 16) * 4); pad]
  | b0 :: b1 :: b2 :: rest =>
    let n0 := Byte.to_N b0 in
    let n1 := Byte.to_N b1 in
    let n2 := Byte.to_N b2 in
    char (n0 / 4) :: char ((n0 mod 4) * 16 + n1 / 16)
      :: char ((n1 mod 16) * 4 + n2 / 64) :: char (n2 mod 64) :: encode rest
  end.

(** The six-bit values of the characters that count, up to the first pad. *)
Fixpoint sextets (s : jsstring) : list N :=
  match s with
  | [] => []
  | c :: rest =>
    if c =? pad then []
    else match unbase64 c with
         | Some v => v :: sextets rest
         | None => sextets rest
         end
  end.

Fixpoint of_sextets (l : list N) : buffer :=
  match l with
  | a :: b :: c :: d :: rest =>
    byte_of_N (a * 4 + b / 16) :: byte_of_N ((b mod 16) * 16 + c / 4)
      :: byte_of_N ((c mod 4) * 64 + d) :: of_sextets rest
  | a :: b :: c :: [] =>
    [byte_of_N (a * 4 + b / 16); byte_of_N ((b mod 16) * 16 + c / 4)]
  | a :: b :: [] => [byte_of_N (a * 4 + b / 16)]
  | _ => []
  end.

Definition decode (s : jsstring) : buffer := of_sextets (sextets s).

End Base64.

(** ** Hexadecimal, as [digest('hex')] *)
Module Hex.

Definition digit (n : N) : N := if n <? 10 then 48 + n else 87 + n.

Definition of_byte (b : byte) : jsstring :=
  let n := Byte.to_N b in [digit (n / 16); digit (n mod 16)].

Definition encode (bs : buffer) : jsstring := flat_map of_byte bs.

End Hex.

(** ** SHA-256 (FIPS 180-4), as [crypto.createHash('sha256')] *)
Module Sha256.

Definition w32 (x : N) : N := x mod 4294967296.
Definition add (x y : N) : N := w32 (x + y).
Definition rotr (n x : N) : N :=
  N.lor (N.shiftr x n) (w32 (N.shiftl x (32 - n))).
Definition shr (n x : N) : N := N.shiftr x n.
Definition not32 (x : N) : N := N.lxor x 0xFFFFFFFF.

Definition Ch (x y z : N) : N := N.lxor (N.land x y) (N.land (not32 x) z).
Definition Maj (x y z : N) : N :=
  N.lxor (N.lxor (N.land x y) (N.land x z)) (N.land y z).
Definition Sigma0 (x : N) : N := N.lxor (N.lxor (rotr 2 x) (rotr 13 x)) (rotr 22 x).
Definition Sigma1 (x : N) : N := N.lxor (N.lxor (rotr 6 x) (rotr 11 x)) (rotr 25 x).
Definition sigma0 (x : N) : N := N.lxor (N.lxor (rotr 7 x) (rotr 18 x)) (shr 3 x).
Definition sigma1 (x : N) : N := N.lxor (N.lxor (rotr 17 x) (rotr 19 x)) (shr 10 x).

(** The first 64 primes. *)
Definition isPrime (n : N) : bool :=
  forallb (fun d => negb (n mod N.of_nat d =? 0)) (seq 2 (N.to_nat n - 2)).
Definition primes : list N :=
  Eval vm_compute in filter (fun n => isPrime n = true) (map N.of_nat (seq 2 310)).

(** The integer cube root, bit by bit from bit [i] down. *)
Fixpoint cubeRootFrom (i : nat) (n x : N) : N :=
  match i with
  | O => x
  | S i' =>
    let x' := x + 2 ^ N.of_nat i' in
    cubeRootFrom i' n (if x' * x' * x' <=? n then x' else x)
  end.

(** The round constants: the first 32 bits of the fractional parts of the
    cube roots of the first 64 primes. *)
Definition K : list N :=
  Eval vm_compute in map (fun p => w32 (cubeRootFrom 40 (p * 2 ^ 96) 0)) primes.

Record state := State { ha : N; hb : N; hc : N; hd : N; he : N; hf : N; hg : N; hh : N }.

(** The initial hash value: the first 32 bits of the fractional parts of
    the square roots of the first 8 primes. *)
Definition initial (i : nat) : N := w32 (N.sqrt (nth i primes 0 * 2 ^ 64)).
Definition H0 : state :=
  Eval vm_compute in
    State (initial 0) (initial 1) (initial 2) (initial 3)
          (initial 4) (initial 5) (initial 6) (initial 7).

(** Message padding: a one bit, zeros up to 56 mod 64, the bit length on
    eight bytes. *)
Definition be_bytes (n : nat) (x : N) : buffer :=
  map (fun i => byte_of_N (N.shiftr x (8 * N.of_nat i))) (rev (seq 0 n)).

Definition padding (msg : buffer) : buffer :=
  let len := N.of_nat (length msg) in
  let zeros := N.to_nat ((119 - len mod 64) mod 64) in
  msg ++ byte_of_N 0x80 :: repeat x00 zeros ++ be_bytes 8 (8 * len).

Definition be_word (b0 b1 b2 b3 : byte) : N :=
  Byte.to_N b0 * 16777216 + Byte.to_N b1 * 65536 + Byte.to_N b2 * 256 + Byte.to_N b3.

Fixpoint words (bs : buffer) : list N :=
  match bs with
  | b0 :: b1 :: b2 :: b3 :: rest => be_word b0 b1 b2 b3 :: words rest
  | _ => []
  end.

(** The message schedule, most recent word first while it is built. *)
Fixpoint schedule (n : nat) (w : list N) : list N :=
  match n with
  | O => w
  | S n' =>
    let x := add (add (sigma1 (nth 1 w 0)) (nth 6 w 0))
                 (add (sigma0 (nth 14 w 0)) (nth 15 w 0)) in
    schedule n' (x :: w)
  end.

Definition round (s : state) (kw : N * N) : state :=
  let t1 := add (add (add (hh s) (Sigma1 (he s))) (Ch (he s) (hf s) (hg s)))
                (add (fst kw) (snd kw)) in
  let t2 := add (Sigma0 (ha s)) (Maj (ha s) (hb s) (hc s)) in
  State (add t1 t2) (ha s) (hb s) (hc s) (add (hd s) t1) (he s) (hf s) (hg s).

Definition compress (h : state) (block : list N) : state :=
  let w := rev (schedule 48 (rev block)) in
  let s := fold_left round (combine K w) h in
  State (add (ha h) (ha s)) (add (hb h) (hb s)) (add (hc h) (hc s))
        (add (hd h) (hd s)) (add (he h) (he s)) (add (hf h) (hf s))
        (add (hg h) (hg s)) (add (hh h) (hh s)).

Fixpoint blocks (n : nat) (ws : list N) (h : state) : state :=
  match n with
  | O => h
  | S n' =>
    match ws with
    | [] => h
    | _ => blocks n' (skipn 16 ws) (compress h (firstn 16 ws))
    end
  end.

Definition word_bytes (x : N) : buffer :=
  [byte_of_N (x / 16777216); byte_of_N (x / 65536); byte_of_N (x / 256); byte_of_N x].

Definition digest (msg : buffer) : buffer :=
  let ws := words (padding msg) in
  let h := blocks (length ws) ws H0 in
  word_bytes (ha h) ++ word_bytes (hb h) ++ word_bytes (hc h) ++ word_bytes (hd h)
    ++ word_bytes (he h) ++ word_bytes (hf h) ++ word_bytes (hg h) ++ word_bytes (hh h).

End Sha256.

(** ** String methods used by the source *)

(** [s.toUpperCase()]. Backup codes and the policy names are ASCII; the
    Unicode case tables beyond ASCII are not part of this model, which
    leaves every other code unit as it is. *)
Definition toUpperCaseUnit (u : N) : N :=
  if Utf8.between 97 122 u then u - 32 else u.
Definition toUpperCase (s : jsstring) : jsstring := map toUpperCaseUnit s.

Definition dash : N := 45.

(** The class [\s] of JavaScript regular expressions. *)
Definition isWhiteSpace (u : N) : bool :=
  Utf8.between 9 13 u || (u =? 32) || (u =? 0xA0) || (u =? 0x1680)
  || Utf8.between 0x2000 0x200A u || (u =? 0x2028) || (u =? 0x2029)
  || (u =? 0x202F) || (u =? 0x205F) || (u =? 0x3000) || (u =? 0xFEFF).

(** [s.replace(/-/g, '')], [s.replace(/\s/g, '')] and
    [s.replace(/[\s-]/g, '')]. *)
Definition removeDashes (s : jsstring) : jsstring :=
  filter (fun u => u ≠ dash) s.
Definition removeWhiteSpace (s : jsstring) : jsstring :=
  filter (fun u => isWhiteSpace u = false) s.
Definition removeWhiteSpaceAndDashes (s : jsstring) : jsstring :=
  filter (fun u => isWhiteSpace u = false ∧ u ≠ dash) s.

(** [arr.includes(x)] and [arr.some(p)]. *)
Definition includes (arr : list jsstring) (x : jsstring) : bool :=
  existsb (fun y => bool_decide (y = x)) arr.
Definition some {A} (p : A -> bool) (arr : list A) : bool := existsb p arr.

(** ** Completions: a value, or a thrown exception *)

Inductive JsError := Error | TypeError | RangeError.

Inductive Completion (A : Type) :=
  | Return (a : A)
  | Throw (e : JsError).
Arguments Return {A} a.
Arguments Throw {A} e.

(** [crypto.timingSafeEqual(a, b)]: throws a [RangeError] when the two
    buffers differ in byte length. *)
Definition timingSafeEqual (a b : buffer) : Completion bool :=
  if bool_decide (length a = length b)
  then Return (bool_decide (a = b))
  else Throw RangeError.

(** ** External collaborators *)

(** Node's [crypto] module: [scryptSync(password, salt, keylen)], and
    AES-256-GCM through [createCipheriv] / [createDecipheriv]. Sealing
    takes key, IV and plaintext and gives ciphertext and tag
    ([cipher.update], [cipher.final], [cipher.getAuthTag]); opening takes
    key, IV, tag and ciphertext and is [None] when any of
    [createDecipheriv], [setAuthTag], [update], [final] throws. *)
Class NodeCrypto := {
  scryptSync : buffer -> buffer -> nat -> buffer;
  aes256gcm_seal : buffer -> buffer -> buffer -> buffer * buffer;
  aes256gcm_open : buffer -> buffer -> buffer -> buffer -> option buffer
}.

(** What the source relies on: the derived key has the requested length,
    the tag has 16 bytes, and opening what was sealed under the same key
    and IV gives the plaintext back. *)
Class NodeCryptoContract (C : NodeCrypto) : Prop := {
  scryptSync_length : forall password salt n,
    length (scryptSync password salt n) = n;
  seal_tag_length : forall key iv pt,
    length key = 32%nat -> length iv = 16%nat ->
    length (snd (aes256gcm_seal key iv pt)) = 16%nat;
  open_seal : forall key iv pt,
    length key = 32%nat -> length iv = 16%nat ->
    aes256gcm_open key iv (snd (aes256gcm_seal key iv pt))
                   (fst (aes256gcm_seal key iv pt)) = Some pt
}.

(** [authenticator.verify({ token, secret })] of otplib at a given time, and
    [global.UserModel.verifyPassword(password, passwordHash)]. *)
Class Host := {
  authenticator_verify : Z -> jsstring -> jsstring -> bool;
  verifyPassword : jsstring -> jsstring -> bool
}.

(** ** Data model *)

(** The [mfa] sub-document of a user (the schema extension of
    [registerSchemaExtension]). *)
Record Mfa := {
  enabled : bool;
  method : jsstring;
  secret : jsstring;
  backupCodes : list jsstring;
  enrolledAt : option Z;
  lastUsedAt : option Z;
  failedAttempts : Z;
  lockedUntil : option Z;
  gracePeriodUntil : option Z
}.

(** The schema defaults. *)
Definition defaultMfa : Mfa := {|
  enabled := false; method := js "totp"; secret := []; backupCodes := [];
  enrolledAt := None; lastUsedAt := None; failedAttempts := 0%Z;
  lockedUntil := None; gracePeriodUntil := None |}.

Record User := {
  _id : jsstring;
  username : jsstring;
  roles : option (list jsstring);
  passwordHash : jsstring;
  mfa : option Mfa
}.

(** The configuration after the defaults were merged in. [requiredRoles]
    is an array, so that [config.requiredRoles || []] is the array. *)
Record Config := {
  mfaPolicy : jsstring;
  requiredRoles : list jsstring;
  gracePeriodDays : Z;
  issuerName : jsstring;
  maxFailedAttempts : Z;
  lockoutDuration : Z;
  backupCodeCount : Z
}.

(** The [config] object of the plugin document: any field may be absent. *)
Record PluginConfig := {
  cfg_mfaPolicy : option jsstring;
  cfg_requiredRoles : option (list jsstring);
  cfg_gracePeriodDays : option Z;
  cfg_issuerName : option jsstring;
  cfg_maxFailedAttempts : option Z;
  cfg_lockoutDuration : option Z;
  cfg_backupCodeCount : option Z
}.

(** One assignment ['mfa.<field>': value] of an update document. *)
Inductive MfaUpdate :=
  | set_enabled (b : bool)
  | set_method (s : jsstring)
  | set_secret (s : jsstring)
  | set_backupCodes (l : list jsstring)
  | set_enrolledAt (d : option Z)
  | set_lastUsedAt (d : option Z)
  | set_failedAttempts (n : Z)
  | set_lockedUntil (d : option Z).

Definition applyUpdate (m : Mfa) (u : MfaUpdate) : Mfa :=
  match u with
  | set_enabled b =>
    {| enabled := b; method := method m; secret := secret m;
       backupCodes := backupCodes m; enrolledAt := enrolledAt m;
       lastUsedAt := lastUsedAt m; failedAttempts := failedAttempts m;
       lockedUntil := lockedUntil m; gracePeriodUntil := gracePeriodUntil m |}
  | set_method s =>
    {| enabled := enabled m; method := s; secret := secret m;
       backupCodes := backupCodes m; enrolledAt := enrolledAt m;
       lastUsedAt := lastUsedAt m; failedAttempts := failedAttempts m;
       lockedUntil := lockedUntil m; gracePeriodUntil := gracePeriodUntil m |}
  | set_secret s =>
    {| enabled := enabled m; method := method m; secret := s;
       backupCodes := backupCodes m; enrolledAt := enrolledAt m;
       lastUsedAt := lastUsedAt m; failedAttempts := failedAttempts m;
       lockedUntil := lockedUntil m; gracePeriodUntil := gracePeriodUntil m |}
  | set_backupCodes l =>
    {| enabled := enabled m; method := method m; secret := secret m;
       backupCodes := l; enrolledAt := enrolledAt m;
       lastUsedAt := lastUsedAt m; failedAttempts := failedAttempts m;
       lockedUntil := lockedUntil m; gracePeriodUntil := gracePeriodUntil m |}
  | set_enrolledAt d =>
    {| enabled := enabled m; method := method m; secret := secret m;
       backupCodes := backupCodes m; enrolledAt := d;
       lastUsedAt := lastUsedAt m; failedAttempts := failedAttempts m;
       lockedUntil := lockedUntil m; gracePeriodUntil := gracePeriodUntil m |}
  | set_lastUsedAt d =>
    {| enabled := enabled m; method := method m; secret := secret m;
       backupCodes := backupCodes m; enrolledAt := enrolledAt m;
       lastUsedAt := d; failedAttempts := failedAttempts m;
       lockedUntil := lockedUntil m; gracePeriodUntil := gracePeriodUntil m |}
  | set_failedAttempts n =>
    {| enabled := enabled m; method := method m; secret := secret m;
       backupCodes := backupCodes m; enrolledAt := enrolledAt m;
       lastUsedAt := lastUsedAt m; failedAttempts := n;
       lockedUntil := lockedUntil m; gracePeriodUntil := gracePeriodUntil m |}
  | set_lockedUntil d =>
    {| enabled := enabled m; method := method m; secret := secret m;
       backupCodes := backupCodes m; enrolledAt := enrolledAt m;
       lastUsedAt := lastUsedAt m; failedAttempts := failedAttempts m;
       lockedUntil := d; gracePeriodUntil := gracePeriodUntil m |}
  end.

(** An update document applied to a user: the assignments in order; a
    user without an [mfa] sub-document gets one, absent fields reading as
    their defaults. *)
Definition applyUpdates (updates : list MfaUpdate) (u : User) : User :=
  {| _id := _id u; username := username u; roles := roles u;
     passwordHash := passwordHash u;
     mfa := Some (fold_left applyUpdate updates (default defaultMfa (mfa u))) |}.

(** ** The world the code runs in, and its monad *)

(** [UserModel] is [global.UserModel] ([None] before bootstrap), holding
    the user documents by id. [PluginModel] is the module-level variable
    of the model ([None] when the import failed); inside it, the [config]
    of the ['auth-mfa'] plugin document, [None] when the document or its
    [config] is missing or [getByName] throws. [sessionSecret] is
    [global.appConfig?.security?.sessionSecret]. [now] is the clock: one
    operation runs at one instant, consecutive operations each at their
    own. *)
Record World := {
  UserModel : option (gmap jsstring User);
  PluginModel : option (option PluginConfig);
  sessionSecret : option jsstring;
  now : Z
}.

Definition M (A : Type) : Type := World -> Completion A * World.

Definition ret {A} (a : A) : M A := fun w => (Return a, w).
Definition throw {A} (e : JsError) : M A := fun w => (Throw e, w).
Definition bind {A B} (m : M A) (k : A -> M B) : M B :=
  fun w => match m w with
           | (Return a, w') => k a w'
           | (Throw e, w') => (Throw e, w')
           end.
Definition tryCatch {A} (body : M A) (handler : JsError -> M A) : M A :=
  fun w => match body w with
           | (Return a, w') => (Return a, w')
           | (Throw e, w') => handler e w'
           end.
Definition lift {A} (c : Completion A) : M A := fun w => (c, w).

Notation "'let!' x ':=' c 'in' k" := (bind c (fun x => k))
  (at level 10, x name, c at level 100, k at level 200).

(** [new Date()] / [Date.now()]. *)
Definition Date_now : M Z := fun w => (Return (now w), w).

(** [!global.UserModel] *)
Definition noUserModel : M bool :=
  fun w => (Return (bool_decide (UserModel w = None)), w).

Definition setUsers (users : gmap jsstring User) (w : World) : World :=
  {| UserModel := Some users; PluginModel := PluginModel w;
     sessionSecret := sessionSecret w; now := now w |}.

(** [global.UserModel.findById(userId)]; a [TypeError] without a store. *)
Definition findById (userId : jsstring) : M (option User) :=
  fun w => match UserModel w with
           | Some users => (Return (users !! userId), w)
           | None => (Throw TypeError, w)
           end.

(** [global.UserModel.updateById(userId, updates)] *)
Definition updateById (userId : jsstring) (updates : list MfaUpdate) : M unit :=
  fun w => match UserModel w with
           | Some users =>
             (Return tt, setUsers (alter (applyUpdates updates) userId users) w)
           | None => (Throw TypeError, w)
           end.

(** ** [webapp/model/mfaAuth.js]: class [MfaAuthModel] *)
Module MfaAuthModel.

Definition getDefaultConfig : Config := {|
  mfaPolicy := js "optional";
  requiredRoles := [js "root"];
  gracePeriodDays := 7;
  issuerName := js "jPulse";
  maxFailedAttempts := 5;
  lockoutDuration := 15;
  backupCodeCount := 10 |}.

(** [{ ...this.getDefaultConfig(), ...config }] *)
Definition mergeConfig (d : Config) (c : PluginConfig) : Config := {|
  mfaPolicy := default (mfaPolicy d) (cfg_mfaPolicy c);
  requiredRoles := default (requiredRoles d) (cfg_requiredRoles c);
  gracePeriodDays := default (gracePeriodDays d) (cfg_gracePeriodDays c);
  issuerName := default (issuerName d) (cfg_issuerName c);
  maxFailedAttempts := default (maxFailedAttempts d) (cfg_maxFailedAttempts c);
  lockoutDuration := default (lockoutDuration d) (cfg_lockoutDuration c);
  backupCodeCount := default (backupCodeCount d) (cfg_backupCodeCount c) |}.

Definition getConfig : M Config :=
  fun w => match PluginModel w with
           | None => (Return getDefaultConfig, w)
           | Some None => (Return getDefaultConfig, w)
           | Some (Some config) => (Return (mergeConfig getDefaultConfig config), w)
           end.

(** *** Encryption / decryption *)
Section Crypto.
Context `{NodeCrypto}.

Definition getEncryptionKey (sessionSecret : option jsstring) : buffer :=
  let secret := default (js "jpulse-default-secret-change-me")
                        (match sessionSecret with
                         | Some s => if falsy s then None else Some s
                         | None => None
                         end) in
  scryptSync (Utf8.encode secret) (Utf8.encode (js "mfa-salt")) 32.

(** [encrypt(text)]; [iv] is the value of [crypto.randomBytes(16)].
    [cipher.update(text, 'utf8', 'base64') + cipher.final('base64')] is
    the base64 text of the whole ciphertext. *)
Definition encrypt (sessionSecret : option jsstring) (iv : buffer)
    (text : jsstring) : jsstring :=
  if falsy text then []
  else
    let key := getEncryptionKey sessionSecret in
    let sealed := aes256gcm_seal key iv (Utf8.encode text) in
    let encrypted := Base64.encode (fst sealed) in
    let authTag := snd sealed in
    Base64.encode (iv ++ authTag ++ Base64.decode encrypted).

(** [data.subarray(start, end)] and [data.subarray(start)] *)
Definition subarray (start stop : nat) (data : buffer) : buffer :=
  take (stop - start) (drop start data).
Definition subarrayFrom (start : nat) (data : buffer) : buffer :=
  drop start data.

(** The body of the [try] block of [decrypt];
    [decipher.update(encrypted, null, 'utf8') + decipher.final('utf8')] is
    the UTF-8 decoding of the whole plaintext, and is reached only when
    the tag verifies. *)
Definition decryptBody (sessionSecret : option jsstring)
    (encryptedText : jsstring) : Completion jsstring :=
  let key := getEncryptionKey sessionSecret in
  let data := Base64.decode encryptedText in
  let iv := subarray 0 16 data in
  let authTag := subarray 16 32 data in
  let encrypted := subarrayFrom 32 data in
  match aes256gcm_open key iv authTag encrypted with
  | Some decrypted => Return (Utf8.decode decrypted)
  | None => Throw Error
  end.

Definition decrypt (sessionSecret : option jsstring)
    (encryptedText : jsstring) : jsstring :=
  if falsy encryptedText then []
  else match decryptBody sessionSecret encryptedText with
       | Return decrypted => decrypted
       | Throw _ => []
       end.

(** [getDecryptedSecret(user)] *)
Definition getDecryptedSecret (user : User) : M jsstring :=
  fun w =>
    match mfa user with
    | Some m =>
      if falsy (secret m) then (Return [], w)
      else (Return (decrypt (sessionSecret w) (secret m)), w)
    | None => (Return [], w)
    end.

End Crypto.

(** *** Backup codes *)

Definition hashBackupCode (code : jsstring) : jsstring :=
  let normalized := toUpperCase (removeDashes code) in
  Hex.encode (Sha256.digest (Utf8.encode (normalized ++ js "mfa-backup-salt"))).

(** The [for] loop of [verifyBackupCode], from index [i] on. *)
Fixpoint verifyBackupCodeFrom (inputHash : jsstring) (hashes : list jsstring)
    (i : Z) : Completion Z :=
  match hashes with
  | [] => Return (-1)%Z
  | h :: rest =>
    match timingSafeEqual (Utf8.encode inputHash) (Utf8.encode h) with
    | Throw e => Throw e
    | Return true => Return i
    | Return false => verifyBackupCodeFrom inputHash rest (i + 1)%Z
    end
  end.

Definition verifyBackupCode (code : jsstring) (hashes : list jsstring)
    : Completion Z :=
  let inputHash := hashBackupCode code in
  verifyBackupCodeFrom inputHash hashes 0%Z.

(** *** User MFA operations *)

Inductive Reason :=
  | Enabled | PolicyRequired | RoleRequired | GracePeriod | Optional.

Record MfaRequired := { required : bool; reason : Reason }.

(** [user.mfa?.enabled] *)
Definition mfaEnabled (user : User) : bool :=
  match mfa user with Some m => enabled m | None => false end.

(** [user.mfa?.gracePeriodUntil && new Date() < new Date(user.mfa.gracePeriodUntil)] *)
Definition inGracePeriod (user : User) : M bool :=
  match mfa user with
  | Some m =>
    match gracePeriodUntil m with
    | Some until => let! date := Date_now in ret (date <? until)%Z
    | None => ret false
    end
  | None => ret false
  end.

Definition isMfaRequired (user : User) : M MfaRequired :=
  let! config := getConfig in
  if mfaEnabled user then ret {| required := true; reason := Enabled |}
  else if bool_decide (mfaPolicy config = js "required") then
    let! grace := inGracePeriod user in
    if grace then ret {| required := false; reason := GracePeriod |}
    else ret {| required := true; reason := PolicyRequired |}
  else if bool_decide (mfaPolicy config = js "required-for-roles") then
    let userRoles := default [js "user"] (roles user) in
    let requiredRoles := requiredRoles config in
    let hasRequiredRole := some (fun role => includes requiredRoles role) userRoles in
    if hasRequiredRole then
      let! grace := inGracePeriod user in
      if grace then ret {| required := false; reason := GracePeriod |}
      else ret {| required := true; reason := RoleRequired |}
    else ret {| required := false; reason := Optional |}
  else ret {| required := false; reason := Optional |}.

Definition disableMfa (userId : jsstring) : M bool :=
  tryCatch
    (let! missing := noUserModel in
     if missing then throw Error
     else
       let! _ := updateById userId
         [set_enabled false; set_secret []; set_backupCodes [];
          set_enrolledAt None; set_failedAttempts 0; set_lockedUntil None] in
       ret true)
    (fun _ => throw Error).

Definition recordSuccess (userId : jsstring) : M unit :=
  let! missing := noUserModel in
  if missing then ret tt
  else
    let! date := Date_now in
    updateById userId
      [set_lastUsedAt (Some date); set_failedAttempts 0; set_lockedUntil None].

Record FailureResult := {
  fr_locked : bool;
  fr_lockedUntil : option Z;
  fr_attempts : Z
}.

(** [user?.mfa?.failedAttempts || 0] *)
Definition failedAttemptsOf (user : option User) : Z :=
  match user with
  | Some u => match mfa u with Some m => failedAttempts m | None => 0 end
  | None => 0
  end.

Definition recordFailure (userId : jsstring) : M FailureResult :=
  let! missing := noUserModel in
  if missing then ret {| fr_locked := false; fr_lockedUntil := None; fr_attempts := 0 |}
  else
    let! config := getConfig in
    let! user := findById userId in
    let currentAttempts := (failedAttemptsOf user + 1)%Z in
    let updates := [set_failedAttempts currentAttempts] in
    (* [locked] and [lockedUntil] go together: a date when locked, null
       otherwise; so do the update document and the date *)
    let! lockedUntil :=
      if (maxFailedAttempts config <=? currentAttempts)%Z then
        let! date := Date_now in
        ret (Some (date + lockoutDuration config * 60 * 1000)%Z)
      else ret None in
    let updates :=
      match lockedUntil with
      | Some _ => updates ++ [set_lockedUntil lockedUntil]
      | None => updates
      end in
    let! _ := updateById userId updates in
    ret {| fr_locked := bool_decide (lockedUntil <> None);
           fr_lockedUntil := lockedUntil;
           fr_attempts := currentAttempts |}.

Record LockStatus := {
  locked : bool;
  ls_lockedUntil : option Z;
  remainingMinutes : option Z
}.

(** [Math.ceil(a / b)] for a positive divisor. *)
Definition ceilDiv (a b : Z) : Z := (- ((- a) / b))%Z.

(** [user?.mfa?.lockedUntil] *)
Definition lockedUntilOf (user : option User) : option Z :=
  match user with
  | Some u => match mfa u with Some m => lockedUntil m | None => None end
  | None => None
  end.

Definition isLocked (user : option User) : M LockStatus :=
  match lockedUntilOf user with
  | None => ret {| locked := false; ls_lockedUntil := None; remainingMinutes := None |}
  | Some lockDate =>
    let! date := Date_now in
    if (lockDate <=? date)%Z
    then ret {| locked := false; ls_lockedUntil := None; remainingMinutes := None |}
    else
      let remainingMs := (lockDate - date)%Z in
      let remainingMinutes := ceilDiv remainingMs 60000 in
      ret {| locked := true; ls_lockedUntil := Some lockDate;
             remainingMinutes := Some remainingMinutes |}
  end.

(** [user?.mfa?.backupCodes || []] *)
Definition backupCodesOf (user : option User) : list jsstring :=
  match user with
  | Some u => match mfa u with Some m => backupCodes m | None => [] end
  | None => []
  end.

Definition useBackupCode (userId code : jsstring) : M bool :=
  let! missing := noUserModel in
  if missing then ret false
  else
    let! user := findById userId in
    let hashes := backupCodesOf user in
    let! index := lift (verifyBackupCode code hashes) in
    if (index =? -1)%Z then ret false
    else
      (* hashes.splice(index, 1) *)
      let hashes := delete (Z.to_nat index) hashes in
      let! date := Date_now in
      let! _ := updateById userId
        [set_backupCodes hashes; set_lastUsedAt (Some date);
         set_failedAttempts 0; set_lockedUntil None] in
      ret true.

(** *** Backup code generation *)

(** [crypto.randomBytes(n)]: the next [n] bytes of the entropy source,
    read from position [pos]. *)
Definition randomBytes (entropy : nat -> byte) (pos n : nat) : buffer :=
  map entropy (seq pos n).

(** The [for] loop of [generateBackupCodes], from iteration [i] on, with
    [n] iterations to go; every iteration reads four bytes of entropy. *)
Fixpoint generateBackupCodesFrom (entropy : nat -> byte) (i n : nat)
    : list jsstring * list jsstring :=
  match n with
  | O => ([], [])
  | S n' =>
    let part1 := toUpperCase (Hex.encode (randomBytes entropy (4 * i) 2)) in
    let part2 := toUpperCase (Hex.encode (randomBytes entropy (4 * i + 2) 2)) in
    let code := part1 ++ dash :: part2 in
    let (codes, hashes) := generateBackupCodesFrom entropy (S i) n' in
    (code :: codes, hashBackupCode code :: hashes)
  end.

(** [generateBackupCodes(count)], for an integer [count]. *)
Definition generateBackupCodes (entropy : nat -> byte) (count : Z)
    : list jsstring * list jsstring :=
  generateBackupCodesFrom entropy 0 (Z.to_nat count).

(** *** Status, enrollment and regeneration *)




Record EnableResult := { er_success : bool; er_backupCodes : list jsstring }.

Section Enrollment.
Context `{NodeCrypto}.

(** [enableMfa(userId, secret)]; [iv] is the value of
    [crypto.randomBytes(16)] inside [encrypt], [entropy] feeds
    [generateBackupCodes]. *)
Definition enableMfa (iv : buffer) (entropy : nat -> byte)
    (userId secret : jsstring) : M EnableResult :=
  tryCatch
    (let! missing := noUserModel in
     if missing then throw Error
     else
       let! config := getConfig in
       let (codes, hashes) := generateBackupCodes entropy (backupCodeCount config) in
       let! encrypted := (fun w => (Return (encrypt (sessionSecret w) iv secret), w)) in
       let! date := Date_now in
       let! _ := updateById userId
         [set_enabled true; set_method (js "totp"); set_secret encrypted;
          set_backupCodes hashes; set_enrolledAt (Some date);
          set_failedAttempts 0; set_lockedUntil None] in
       ret {| er_success := true; er_backupCodes := codes |})
    (fun _ => throw Error).

End Enrollment.

Definition regenerateBackupCodes (entropy : nat -> byte) (userId : jsstring)
    : M (list jsstring) :=
  tryCatch
    (let! missing := noUserModel in
     if missing then throw Error
     else
       let! config := getConfig in
       let (codes, hashes) := generateBackupCodes entropy (backupCodeCount config) in
       let! _ := updateById userId [set_backupCodes hashes] in
       ret codes)
    (fun _ => throw Error).


End MfaAuthModel.

(** ** [webapp/controller/mfaAuth.js]: class [MfaAuthController] *)
Module MfaAuthController.
Import MfaAuthModel.

(** The messages the validation step puts in [context.error]:
    - [MfaCodeRequired]: 'MFA code required'
    - [BackupCodeRequired]: 'Backup code required'
    - [UserNotFound]: 'User not found'
    - [AccountLocked m]: 'Account is temporarily locked. Try again in m minute(s).'
    - [InvalidBackupCode]: 'Invalid or already used backup code'
    - [MfaNotConfigured]: 'MFA not configured'
    - [InvalidMfaCode]: 'Invalid MFA code'
    - [MfaVerificationFailed]: 'MFA verification failed' *)
Inductive StepError :=
  | MfaCodeRequired
  | BackupCodeRequired
  | UserNotFound
  | AccountLocked (minutes : option Z)
  | InvalidBackupCode
  | MfaNotConfigured
  | InvalidMfaCode
  | MfaVerificationFailed.

Record StepData := { code : option jsstring }.

Record Pending := { pending_userId : jsstring; pending_username : jsstring }.

Record Context := {
  step : jsstring;
  stepData : option StepData;
  pending : Pending;
  user : option User;
  valid : option bool;
  error : option StepError
}.

(** [context.valid = false; context.error = e] *)
Definition reject (context : Context) (e : StepError) : Context :=
  {| step := step context; stepData := stepData context;
     pending := pending context; user := user context;
     valid := Some false; error := Some e |}.

(** [context.valid = true] *)
Definition accept (context : Context) : Context :=
  {| step := step context; stepData := stepData context;
     pending := pending context; user := user context;
     valid := Some true; error := error context |}.

(** [!code] *)
Definition noCode (code : option jsstring) : bool :=
  match code with Some c => falsy c | None => true end.

Section Hooks.
Context `{NodeCrypto} `{Host}.

Definition onAuthValidateStep (context : Context) : M Context :=
  if negb (bool_decide (step context = js "mfa"))
     && negb (bool_decide (step context = js "mfa-backup"))
  then ret context
  else
    tryCatch
      (match stepData context with
       | None => throw TypeError
       | Some data =>
         if noCode (code data) then
           ret (reject context
                  (if bool_decide (step context = js "mfa")
                   then MfaCodeRequired else BackupCodeRequired))
         else
           let code := default [] (code data) in
           match user context with
           | None => ret (reject context UserNotFound)
           | Some user =>
             let! lockStatus := isLocked (Some user) in
             if locked lockStatus then
               ret (reject context (AccountLocked (remainingMinutes lockStatus)))
             else if bool_decide (step context = js "mfa-backup") then
               let cleanCode := toUpperCase (removeWhiteSpaceAndDashes code) in
               let! isValid := useBackupCode (pending_userId (pending context)) cleanCode in
               if isValid then
                 let! _ := recordSuccess (_id user) in
                 ret (accept context)
               else
                 let! _ := recordFailure (_id user) in
                 ret (reject context InvalidBackupCode)
             else
               let! secret := getDecryptedSecret user in
               if falsy secret then ret (reject context MfaNotConfigured)
               else
                 let cleanCode := removeWhiteSpace code in
                 let! date := Date_now in
                 let isValid := authenticator_verify date cleanCode secret in
                 if isValid then
                   let! _ := recordSuccess (_id user) in
                   ret (accept context)
                 else
                   let! _ := recordFailure (_id user) in
                   ret (reject context InvalidMfaCode)
           end
       end)
      (fun _ => ret (reject context MfaVerificationFailed)).

End Hooks.

(** *** API endpoints *)

Record Request := { req_user : option User; body_password : option jsstring }.

(** [res.status(s).json({ success, error | message })]; a bare
    [res.json] has status 200. *)
Record Response := { status : Z; success : bool; message : string }.

Definition NotAuthenticated : Response :=
  {| status := 401; success := false; message := "Not authenticated" |}.
Definition PasswordRequired : Response :=
  {| status := 400; success := false;
     message := "Password is required to disable MFA" |}.
Definition PolicyForbidsDisable : Response :=
  {| status := 400; success := false;
     message := "MFA is required by policy and cannot be disabled" |}.
Definition InvalidPassword : Response :=
  {| status := 400; success := false; message := "Invalid password" |}.
Definition DisableSucceeded : Response :=
  {| status := 200; success := true; message := "MFA disabled successfully" |}.
Definition DisableFailed : Response :=
  {| status := 500; success := false; message := "Failed to disable MFA" |}.

#[global] Instance Reason_eq_decision : EqDecision Reason.
Proof. solve_decision. Defined.

Section Api.
Context `{Host}.

Definition apiDisable (req : Request) : M Response :=
  tryCatch
    (match req_user req with
     | None => ret NotAuthenticated
     | Some user =>
       let userId := _id user in
       if noCode (body_password req) then ret PasswordRequired
       else
         let password := default [] (body_password req) in
         let! mfaRequired := isMfaRequired user in
         if required mfaRequired && negb (bool_decide (reason mfaRequired = Enabled))
         then ret PolicyForbidsDisable
         else
           let! missing := noUserModel in
           if missing then throw TypeError
           else
             let isPasswordValid := verifyPassword password (passwordHash user) in
             if negb isPasswordValid then ret InvalidPassword
             else
               let! _ := disableMfa userId in
               ret DisableSucceeded
     end)
    (fun _ => ret DisableFailed).

End Api.

(** *** The other login hooks *)

(** The [data] of the step this plugin pushes. *)
Record MfaStepData := {
  mfaMethod : jsstring;
  sd_isLocked : bool;
  lockoutMinutes : Z
}.

(** An entry of [requiredSteps]; the entries of other plugins carry no
    MFA data. *)
Record RequiredStep := {
  rs_step : jsstring;
  rs_priority : Z;
  rs_data : option MfaStepData
}.

Record StepsContext := {
  sc_user : option User;
  requiredSteps : list RequiredStep
}.

Definition onAuthGetSteps (context : StepsContext) : M StepsContext :=
  tryCatch
    (match sc_user context with
     | None => ret context
     | Some user =>
       if mfaEnabled user then
         let! lockStatus := isLocked (Some user) in
         let method := match mfa user with Some m => method m | None => [] end in
         (* requiredSteps.push({ ... }) *)
         ret {| sc_user := sc_user context;
                requiredSteps := requiredSteps context ++
                  [{| rs_step := js "mfa";
                      rs_priority := 100;
                      rs_data := Some {|
                        mfaMethod := if falsy method then js "totp" else method;
                        sd_isLocked := locked lockStatus;
                        lockoutMinutes := default 0%Z (remainingMinutes lockStatus) |} |}] |}
       else ret context
     end)
    (fun _ => ret context).

(** An entry of [warnings]. *)
Record Warning := {
  wn_type : string;
  wn_toastType : string;
  wn_message : string;
  wn_link : string;
  wn_linkText : string
}.

Definition warnRequiredByPolicy : Warning := {|
  wn_type := "mfa-not-enabled";
  wn_toastType := "error";
  wn_message := "Two-factor authentication is required. Please set up 2FA in your profile.";
  wn_link := "/jpulse-plugins/auth-mfa.shtml";
  wn_linkText := "Set up 2FA" |}.
Definition warnRequiredForRole : Warning := {|
  wn_type := "mfa-not-enabled";
  wn_toastType := "error";
  wn_message := "Two-factor authentication is required for your role. Please set up 2FA in your profile.";
  wn_link := "/jpulse-plugins/auth-mfa.shtml";
  wn_linkText := "Set up 2FA" |}.
Definition warnRecommended : Warning := {|
  wn_type := "mfa-recommended";
  wn_toastType := "error";
  wn_message := "Secure your account with two-factor authentication.";
  wn_link := "/jpulse-plugins/auth-mfa.shtml";
  wn_linkText := "Enable 2FA" |}.

Record WarningsContext := {
  wc_user : option User;
  warnings : list Warning
}.

Definition onAuthGetWarnings (context : WarningsContext) : M WarningsContext :=
  tryCatch
    (match wc_user context with
     | None => ret context
     | Some user =>
       let mfaEnabled := mfaEnabled user in
       if negb mfaEnabled then
         let! mfaRequired := isMfaRequired user in
         if required mfaRequired then
           ret {| wc_user := wc_user context;
                  warnings := warnings context ++
                    [if bool_decide (reason mfaRequired = PolicyRequired)
                     then warnRequiredByPolicy else warnRequiredForRole] |}
         else if bool_decide (reason mfaRequired = Optional) then
           ret {| wc_user := wc_user context;
                  warnings := warnings context ++ [warnRecommended] |}
         else ret context
       else ret context
     end)
    (fun _ => ret context).

(** *** The other API endpoints *)

(** [req.session]: the secret of a pending setup, when there is one. *)
Record Session := { mfaPendingSecret : option jsstring }.

(** otplib's [authenticator.keyuri(account, issuer, secret)] and
    [qrcode.toDataURL(otpauth)], which may throw. *)
Class EnrollmentHost := {
  keyuri : jsstring -> jsstring -> jsstring -> jsstring;
  toDataURL : jsstring -> Completion jsstring
}.

(** A request of [apiSetup]: [req.user], its [email] (which the user
    document above does not carry) and [req.session]. *)
Record SetupRequest := {
  su_user : option User;
  su_email : option jsstring;
  su_session : Session
}.

(** [res.status(s).json({ success: false, error })], or the [data] of a
    successful setup. *)
Inductive SetupResponse :=
  | SetupError (status : Z) (error : string)
  | SetupData (secret qrCode otpauth issuer : jsstring).

(** [a || b] on strings. *)
Definition orElse (a : option jsstring) (b : jsstring) : jsstring :=
  match a with
  | Some s => if falsy s then b else s
  | None => b
  end.

Section Setup.
Context `{EnrollmentHost}.

(** [apiSetup(req, res)]; [secret] is the value of
    [authenticator.generateSecret()]. The result is the response and the
    session as the handler leaves it. *)
Definition apiSetup (secret : jsstring) (req : SetupRequest)
    : M (SetupResponse * Session) :=
  tryCatch
    (match su_user req with
     | None => ret (SetupError 401 "Not authenticated", su_session req)
     | Some user =>
       if mfaEnabled user
       then ret (SetupError 400 "MFA is already enabled", su_session req)
       else
         let! config := getConfig in
         let issuer := orElse (Some (issuerName config)) (js "jPulse") in
         let otpauth := keyuri (orElse (su_email req) (username user)) issuer secret in
         let! qrCodeDataUrl := lift (toDataURL otpauth) in
         (* req.session.mfaPendingSecret = secret *)
         ret (SetupData secret qrCodeDataUrl otpauth issuer,
              {| mfaPendingSecret := Some secret |})
     end)
    (fun _ => ret (SetupError 500 "Failed to setup MFA", su_session req)).

End Setup.

Record VerifySetupRequest := {
  vs_user : option User;
  vs_code : option jsstring;
  vs_session : Session
}.

(** The error responses, or [data: { backupCodes }]. *)
Inductive CodesResponse :=
  | CodesError (status : Z) (error : string)
  | CodesData (backupCodes : list jsstring).

Section VerifySetup.
Context `{NodeCrypto} `{Host}.

(** [apiVerifySetup(req, res)]; [iv] and [entropy] are the random values
    [enableMfa] draws. *)
Definition apiVerifySetup (iv : buffer) (entropy : nat -> byte)
    (req : VerifySetupRequest) : M (CodesResponse * Session) :=
  tryCatch
    (match vs_user req with
     | None => ret (CodesError 401 "Not authenticated", vs_session req)
     | Some user =>
       let userId := _id user in
       if noCode (vs_code req)
       then ret (CodesError 400 "Verification code is required", vs_session req)
       else
         let code := default [] (vs_code req) in
         match mfaPendingSecret (vs_session req) with
         | None =>
           ret (CodesError 400 "No pending MFA setup. Please start setup again.",
                vs_session req)
         | Some secret =>
           if falsy secret
           then ret (CodesError 400 "No pending MFA setup. Please start setup again.",
                     vs_session req)
           else
             let! date := Date_now in
             let isValid := authenticator_verify date (removeWhiteSpace code) secret in
             if negb isValid
             then ret (CodesError 400 "Invalid verification code. Please try again.",
                       vs_session req)
             else
               let! result := enableMfa iv entropy userId secret in
               (* delete req.session.mfaPendingSecret *)
               ret (CodesData (er_backupCodes result), {| mfaPendingSecret := None |})
         end
     end)
    (fun _ => ret (CodesError 500 "Failed to enable MFA", vs_session req)).

End VerifySetup.

Definition apiBackupCodes (entropy : nat -> byte) (user : option User)
    : M CodesResponse :=
  tryCatch
    (match user with
     | None => ret (CodesError 401 "Not authenticated")
     | Some user =>
       let userId := _id user in
       if negb (mfaEnabled user)
       then ret (CodesError 400 "MFA is not enabled")
       else
         let! codes := regenerateBackupCodes entropy userId in
         ret (CodesData codes)
     end)
    (fun _ => ret (CodesError 500 "Failed to generate backup codes")).


End MfaAuthController.

(** ** [webapp/view/jpulse-common.js]: [window.jPulse.plugins.authMfa.utils] *)
Module AuthMfaUtils.

(** The complement of the class [[^A-Za-z0-9]]. *)
Definition isAlphaNumeric (u : N) : bool :=
  Utf8.between 48 57 u || Utf8.between 65 90 u || Utf8.between 97 122 u.

Definition formatBackupCode (code : jsstring) : jsstring :=
  let clean := toUpperCase (filter (fun u => isAlphaNumeric u = true) code) in
  if bool_decide (length clean = 8%nat)
  then take 4 clean ++ dash :: drop 4 clean
  else code.

End AuthMfaUtils.


(** ** Vocabulary of the statements *)

Definition isAscii (s : jsstring) : Prop := Forall (fun u => u < 0x80) s.

(** The byte length of a string, as [Buffer.from(s).length]. *)
Definition byteLength (s : jsstring) : nat := length (Utf8.encode s).

(** Two code units that are equal, or the two cases of one ASCII letter. *)
Definition sameLetter (u v : N) : Prop :=
  u = v \/ (97 <= u <= 122 /\ v = u - 32) \/ (97 <= v <= 122 /\ u = v - 32).

(** Two codes that differ only in the case of ASCII letters and in where
    dashes stand. *)
Inductive sameCode : jsstring -> jsstring -> Prop :=
  | sameCode_nil : sameCode [] []
  | sameCode_dash_l c c' : sameCode c c' -> sameCode (dash :: c) c'
  | sameCode_dash_r c c' : sameCode c c' -> sameCode c (dash :: c')
  | sameCode_unit u v c c' :
      sameLetter u v -> sameCode c c' -> sameCode (u :: c) (v :: c').

(** The entries the loop passes over: of the right byte length, and not
    the input hash. *)
Definition passedOver (inputHash : jsstring) (hashes : list jsstring) : Prop :=
  Forall (fun h => byteLength h = byteLength inputHash /\ h <> inputHash) hashes.

(** The configuration [getConfig] yields in a world. *)
Definition configOf (w : World) : Config :=
  match PluginModel w with
  | Some (Some config) => MfaAuthModel.mergeConfig MfaAuthModel.getDefaultConfig config
  | _ => MfaAuthModel.getDefaultConfig
  end.

(** The grace period of a user is set and not over yet. *)
Definition graceActive (user : User) (w : World) : Prop :=
  exists m until,
    mfa user = Some m /\ gracePeriodUntil m = Some until /\ (now w < until)%Z.

(** The roles of a user, [user] when none are recorded, share a role
    with the configured required roles. *)
Definition rolesIntersect (user : User) (config : Config) : Prop :=
  exists role,
    In role (default [js "user"] (roles user)) /\ In role (requiredRoles config).

(** The world at another time. *)
Definition atTime (t : Z) (w : World) : World :=
  {| UserModel := UserModel w; PluginModel := PluginModel w;
     sessionSecret := sessionSecret w; now := t |}.

(** Consecutive calls of [recordFailure], one at each of the given times. *)
Fixpoint recordFailures (userId : jsstring) (times : list Z) (w : World)
    : list (Completion MfaAuthModel.FailureResult) * World :=
  match times with
  | [] => ([], w)
  | t :: rest =>
    let (r, w') := MfaAuthModel.recordFailure userId (atTime t w) in
    let (rs, w'') := recordFailures userId rest w' in
    (r :: rs, w'')
  end.

(** The backup code hashes stored for a user id. *)
Definition storedBackupCodes (w : World) (userId : jsstring) : list jsstring :=
  match UserModel w with
  | Some users => MfaAuthModel.backupCodesOf (users !! userId)
  | None => []
  end.

(** The [mfa] sub-document stored for a user id. *)
Definition storedMfa (w : World) (userId : jsstring) : option Mfa :=
  match UserModel w with
  | Some users =>
    match users !! userId with
    | Some u => mfa u
    | None => None
    end
  | None => None
  end.

(** *** Vocabulary for the rest of the code *)

(** An upper-case hexadecimal digit, and the format [XXXX-XXXX]. *)
Definition isUpperHexDigit (u : N) : Prop := 48 <= u <= 57 \/ 65 <= u <= 70.

Definition isBackupCodeFormat (code : jsstring) : Prop :=
  exists a b,
    code = a ++ dash :: b /\ length a = 4%nat /\ length b = 4%nat
    /\ Forall isUpperHexDigit a /\ Forall isUpperHexDigit b.

(** A code made of ASCII letters, digits and dashes. *)
Definition isAlphaNumericOrDash (code : jsstring) : Prop :=
  Forall (fun u => AuthMfaUtils.isAlphaNumeric u = true \/ u = dash) code.

(** What a user typed for a code: white space and dashes anywhere, dashes
    of the code left out, ASCII letters in either case. *)
Inductive typedAs : jsstring -> jsstring -> Prop :=
  | typedAs_nil : typedAs [] []
  | typedAs_space u typed code :
      isWhiteSpace u = true -> typedAs typed code -> typedAs (u :: typed) code
  | typedAs_dash typed code : typedAs typed code -> typedAs (dash :: typed) code
  | typedAs_no_dash typed code : typedAs typed code -> typedAs typed (dash :: code)
  | typedAs_unit u v typed code :
      sameLetter u v -> isWhiteSpace v = false ->
      typedAs typed code -> typedAs (u :: typed) (v :: code).

(** The document stored for a user id. *)
Definition storedUser (w : World) (userId : jsstring) : option User :=
  match UserModel w with
  | Some users => users !! userId
  | None => None
  end.

(** Two worlds that differ at most in the [mfa] sub-document of one
    user: same clock, configuration and secret, same users, every other
    document and the other fields of that user untouched. *)
Definition sameExceptMfaOf (userId : jsstring) (w w' : World) : Prop :=
  now w' = now w /\ PluginModel w' = PluginModel w
  /\ sessionSecret w' = sessionSecret w
  /\ (UserModel w = None <-> UserModel w' = None)
  /\ (forall other, other <> userId -> storedUser w' other = storedUser w other)
  /\ (storedUser w userId = None -> storedUser w' userId = None)
  /\ (forall u, storedUser w userId = Some u ->
        exists u', storedUser w' userId = Some u'
                   /\ _id u' = _id u /\ username u' = username u
                   /\ roles u' = roles u /\ passwordHash u' = passwordHash u).

(** A counter that is not negative, and a lock only at or above the
    threshold. *)
Definition lockConsistent (config : Config) (m : Mfa) : Prop :=
  (0 <= failedAttempts m)%Z
  /\ (lockedUntil m <> None -> (maxFailedAttempts config <= failedAttempts m)%Z).


(** ** Stand-ins for the external collaborators

    They meet the contracts the source relies on and let the code run on
    concrete inputs. *)

(** The derived key is the password cut or zero-padded to the requested
    length; the ciphertext is the plaintext reversed; the tag is the first
    16 bytes of key and IV, and opening checks it. *)
Definition standInTag (key iv : buffer) : buffer :=
  take 16 (key ++ iv ++ repeat x00 16).

Definition standInCrypto : NodeCrypto := {|
  scryptSync password salt n := take n (password ++ repeat x00 n);
  aes256gcm_seal key iv pt := (rev pt, standInTag key iv);
  aes256gcm_open key iv tag ct :=
    if bool_decide (tag = standInTag key iv) then Some (rev ct) else None
|}.

(** A code is accepted when it is the secret itself; a password when it
    is its stored hash. *)
Definition standInHost : Host := {|
  authenticator_verify date token secret := bool_decide (token = secret);
  verifyPassword password passwordHash := bool_decide (password = passwordHash)
|}.


(** ** Concrete scenarios *)

Definition aliceCodes : list jsstring :=
  [MfaAuthModel.hashBackupCode (js "AAAA-1111");
   MfaAuthModel.hashBackupCode (js "A1B2-C3D4");
   MfaAuthModel.hashBackupCode (js "BBBB-2222")].

Definition aliceSecret : jsstring :=
  @MfaAuthModel.encrypt standInCrypto (Some (js "s3cret")) (repeat x20 16)
    (js "JBSWY3DPEHPK3PXP").

Definition aliceMfa : Mfa := {|
  enabled := true; method := js "totp"; secret := aliceSecret;
  backupCodes := aliceCodes; enrolledAt := Some 1700000000000%Z;
  lastUsedAt := None; failedAttempts := 0%Z; lockedUntil := None;
  gracePeriodUntil := None |}.

(** A user with MFA enabled, holding the role [root], not locked. *)
Definition alice : User := {|
  _id := js "u1";
  username := js "alice";
  roles := Some [js "root"];
  passwordHash := js "correct horse";
  mfa := Some aliceMfa
|}.

Definition rolesPolicy : PluginConfig := {|
  cfg_mfaPolicy := Some (js "required-for-roles");
  cfg_requiredRoles := Some [js "root"];
  cfg_gracePeriodDays := None; cfg_issuerName := None;
  cfg_maxFailedAttempts := None; cfg_lockoutDuration := None;
  cfg_backupCodeCount := None |}.

Definition world0 : World := {|
  UserModel := Some {[ js "u1" := alice ]};
  PluginModel := Some (Some rolesPolicy);
  sessionSecret := Some (js "s3cret");
  now := 1700000600000%Z
|}.


(** A user without MFA who holds the role [root]. *)
Definition bob : User := {|
  _id := js "u2";
  username := js "bob";
  roles := Some [js "root"];
  passwordHash := js "hunter2";
  mfa := None
|}.

(** Alice, locked for another 90 seconds of [world0]. *)
Definition aliceLocked : User := {|
  _id := js "u1";
  username := js "alice";
  roles := Some [js "root"];
  passwordHash := js "correct horse";
  mfa := Some {|
    enabled := true; method := js "totp"; secret := aliceSecret;
    backupCodes := aliceCodes; enrolledAt := Some 1700000000000%Z;
    lastUsedAt := None; failedAttempts := 5%Z;
    lockedUntil := Some 1700000690000%Z;
    gracePeriodUntil := None |}
|}.


(** Alice asks to disable MFA and gives her password. *)
Definition aliceDisables : MfaAuthController.Request := {|
  MfaAuthController.req_user := Some alice;
  MfaAuthController.body_password := Some (js "correct horse")
|}.


(** Login steps for Alice: a TOTP step with the given code, and the same
    for a user whose stored secret does not decrypt. *)
Definition totpStep (user : User) (code : option jsstring)
    : MfaAuthController.Context := {|
  MfaAuthController.step := js "mfa";
  MfaAuthController.stepData := Some {| MfaAuthController.code := code |};
  MfaAuthController.pending :=
    {| MfaAuthController.pending_userId := _id user;
       MfaAuthController.pending_username := username user |};
  MfaAuthController.user := Some user;
  MfaAuthController.valid := None;
  MfaAuthController.error := None
|}.

Definition backupStep (user : User) (code : option jsstring)
    : MfaAuthController.Context := {|
  MfaAuthController.step := js "mfa-backup";
  MfaAuthController.stepData := Some {| MfaAuthController.code := code |};
  MfaAuthController.pending :=
    {| MfaAuthController.pending_userId := _id user;
       MfaAuthController.pending_username := username user |};
  MfaAuthController.user := Some user;
  MfaAuthController.valid := None;
  MfaAuthController.error := None
|}.




(** An entropy source, and the second code it yields. *)
Definition someEntropy (i : nat) : byte := byte_of_N (N.of_nat (37 * i + 11)).

(** Alice after five wrong codes, her lock over since 100 seconds. *)
Definition aliceExpiredMfa : Mfa := {|
  enabled := true; method := js "totp"; secret := aliceSecret;
  backupCodes := aliceCodes; enrolledAt := Some 1700000000000%Z;
  lastUsedAt := None; failedAttempts := 5%Z;
  lockedUntil := Some 1700000500000%Z;
  gracePeriodUntil := None |}.

Definition aliceExpired : User := {|
  _id := js "u1";
  username := js "alice";
  roles := Some [js "root"];
  passwordHash := js "correct horse";
  mfa := Some aliceExpiredMfa
|}.

Definition worldExpired : World := {|
  UserModel := Some {[ js "u1" := aliceExpired ]};
  PluginModel := Some (Some rolesPolicy);
  sessionSecret := Some (js "s3cret");
  now := 1700000600000%Z
|}.

(** The store before Bob enrolls. *)
Definition worldBob : World := {|
  UserModel := Some {[ js "u1" := alice; js "u2" := bob ]};
  PluginModel := Some (Some rolesPolicy);
  sessionSecret := Some (js "s3cret");
  now := 1700000600000%Z
|}.

(** * Part II: verification *)

(** ** Bytes *)

Lemma to_N_byte_of_N n : n < 256 -> Byte.to_N (byte_of_N n) = n.
Proof.
  intros Hn. unfold byte_of_N. rewrite N.mod_small by exact Hn.
  destruct (Byte.of_N n) as [b|] eqn:E.
  - now apply Byte.to_of_N.
  - apply Byte.of_N_None_iff in E. lia.
Qed.

Lemma byte_of_N_to_N b : byte_of_N (Byte.to_N b) = b.
Proof.
  unfold byte_of_N. pose proof (Byte.to_N_bounded b).
  rewrite N.mod_small by lia. now rewrite Byte.of_to_N.
Qed.

Lemma to_N_lt_256 b : Byte.to_N b < 256.
Proof. pose proof (Byte.to_N_bounded b). lia. Qed.



(** Case analysis on the comparisons of a goal, closing impossible
    branches by arithmetic. *)
Ltac split_cmp :=
  repeat match goal with
  | |- context [N.ltb ?a ?b] => destruct (N.ltb_spec a b); try lia
  | |- context [N.leb ?a ?b] => destruct (N.leb_spec a b); try lia
  | |- context [N.eqb ?a ?b] => destruct (N.eqb_spec a b); try lia
  end.

(** ** UTF-8 *)

Lemma between_true lo hi n : lo <= n <= hi -> Utf8.between lo hi n = true.
Proof. unfold Utf8.between. intros. split_cmp; try reflexivity. Qed.

Lemma between_false lo hi n : n < lo \/ hi < n -> Utf8.between lo hi n = false.
Proof. unfold Utf8.between. intros. split_cmp; cbn; try reflexivity; lia. Qed.

Lemma ltb_false a b : b <= a -> (a <? b) = false.
Proof. apply N.ltb_ge. Qed.

Lemma ltb_true a b : a < b -> (a <? b) = true.
Proof. apply N.ltb_lt. Qed.

Lemma sub_add_l a x : a + x - a = x.
Proof. lia. Qed.

Lemma reassemble2 u : (u / 64) * 64 + u mod 64 = u.
Proof. lia. Qed.

Lemma reassemble3 u :
  (u / 4096) * 4096 + ((u / 64) mod 64) * 64 + u mod 64 = u.
Proof. lia. Qed.

Lemma reassemble4 cp :
  (cp / 262144) * 262144 + ((cp / 4096) mod 64) * 4096
  + ((cp / 64) mod 64) * 64 + cp mod 64 = cp.
Proof. lia. Qed.

Lemma utf8_decode_1 u t :
  u < 0x80 -> Utf8.decode (byte_of_N u :: t) = u :: Utf8.decode t.
Proof.
  intros Hu. cbn [Utf8.decode]. unfold Utf8.decodeAt.
  rewrite to_N_byte_of_N by lia. now rewrite ltb_true by lia.
Qed.

Lemma utf8_decode_2 u t :
  0x80 <= u < 0x800 ->
  Utf8.decode (Utf8.encode2 u ++ t) = u :: Utf8.decode t.
Proof.
  intros Hu. unfold Utf8.encode2. cbn [app Utf8.decode]. unfold Utf8.decodeAt.
  rewrite !to_N_byte_of_N by lia.
  rewrite ltb_false by lia. rewrite between_true by lia.
  unfold Utf8.continuation. rewrite between_true by lia.
  now rewrite !sub_add_l, reassemble2.
Qed.

Lemma utf8_decode_3 u t :
  0x800 <= u < 0x10000 -> Utf8.is_high u = false -> Utf8.is_low u = false ->
  Utf8.decode (Utf8.encode3 u ++ t) = u :: Utf8.decode t.
Proof.
  unfold Utf8.is_high, Utf8.is_low. intros Hu Hh Hl.
  assert (u < 0xD800 \/ 0xDFFF < u) as Hs.
  { revert Hh Hl. split_cmp; cbn; intros; try discriminate; lia. }
  clear Hh Hl.
  unfold Utf8.encode3. cbn [app Utf8.decode]. unfold Utf8.decodeAt.
  rewrite !to_N_byte_of_N by lia.
  rewrite ltb_false by lia.
  rewrite (between_false 0xC2) by lia. rewrite (between_true 0xE0) by lia.
  assert (Utf8.between (Utf8.second_lo (0xE0 + u / 4096)) (Utf8.second_hi (0xE0 + u / 4096))
            (0x80 + (u / 64) mod 64) = true) as ->.
  { unfold Utf8.second_lo, Utf8.second_hi. split_cmp; apply between_true; lia. }
  unfold Utf8.continuation. rewrite between_true by lia.
  now rewrite !sub_add_l, reassemble3.
Qed.

Lemma utf8_decode_4 u v t :
  Utf8.is_high u = true -> Utf8.is_low v = true ->
  Utf8.decode (Utf8.encode4 (Utf8.code_point u v) ++ t) = u :: v :: Utf8.decode t.
Proof.
  unfold Utf8.is_high, Utf8.is_low. intros Hh Hl.
  assert (0xD800 <= u <= 0xDBFF /\ 0xDC00 <= v <= 0xDFFF) as [Hu Hv].
  { revert Hh Hl. split_cmp; cbn; intros; try discriminate; lia. }
  clear Hh Hl.
  assert (exists cp, cp = Utf8.code_point u v /\ 0x10000 <= cp < 0x110000
                     /\ (cp - 0x10000) / 1024 = u - 0xD800
                     /\ (cp - 0x10000) mod 1024 = v - 0xDC00) as (cp & <- & Hcp & Hq & Hr).
  { eexists; split; [reflexivity|]. unfold Utf8.code_point. lia. }
  unfold Utf8.encode4. cbn [app Utf8.decode]. unfold Utf8.decodeAt.
  rewrite !to_N_byte_of_N by lia.
  rewrite ltb_false by lia.
  rewrite (between_false 0xC2) by lia. rewrite (between_false 0xE0) by lia.
  rewrite (between_true 0xF0) by lia.
  assert (Utf8.between (Utf8.second_lo (0xF0 + cp / 262144)) (Utf8.second_hi (0xF0 + cp / 262144))
            (0x80 + (cp / 4096) mod 64) = true) as ->.
  { unfold Utf8.second_lo, Utf8.second_hi. split_cmp; apply between_true; lia. }
  unfold Utf8.continuation. rewrite !between_true by lia.
  rewrite !sub_add_l, reassemble4.
  unfold Utf8.units_of. rewrite ltb_false by lia. cbn [app].
  rewrite Hq, Hr. repeat f_equal; lia.
Qed.

(** The decoder inverts the encoder on well-formed strings. *)
Lemma utf8_decode_encode s :
  Utf8.isWellFormed s = true -> Utf8.decode (Utf8.encode s) = s.
Proof.
  remember (length s) as n eqn:Hn. revert s Hn.
  induction n as [n IH] using lt_wf_ind. intros s Hn Hwf.
  destruct s as [|u rest]; [reflexivity|].
  cbn [Utf8.encode Utf8.isWellFormed] in *.
  destruct (N.ltb_spec u 0x80) as [H1|H1].
  { rewrite utf8_decode_1 by exact H1. f_equal.
    destruct (Utf8.is_high u) eqn:Hh.
    - unfold Utf8.is_high in Hh. revert Hh. split_cmp; discriminate.
    - apply (IH (length rest)); [subst n; cbn; lia | reflexivity |].
      apply andb_prop in Hwf as [_ Hwf]. exact Hwf. }
  destruct (N.ltb_spec u 0x800) as [H2|H2].
  { rewrite utf8_decode_2 by lia. f_equal.
    destruct (Utf8.is_high u) eqn:Hh.
    - unfold Utf8.is_high in Hh. revert Hh. split_cmp; discriminate.
    - apply (IH (length rest)); [subst n; cbn; lia | reflexivity |].
      apply andb_prop in Hwf as [_ Hwf]. exact Hwf. }
  destruct (Utf8.is_high u) eqn:Hh.
  { destruct rest as [|v rest']; [discriminate|].
    apply andb_prop in Hwf as [Hl Hwf]. rewrite Hl.
    rewrite utf8_decode_4 by assumption. do 2 f_equal.
    apply (IH (length rest')); [subst n; cbn; lia | reflexivity | exact Hwf]. }
  apply andb_prop in Hwf as [Hwf Hrest]. apply andb_prop in Hwf as [Hl Hu].
  apply negb_true_iff in Hl. apply N.ltb_lt in Hu.
  rewrite Hl, ltb_true by exact Hu.
  rewrite utf8_decode_3 by (assumption || lia). f_equal.
  apply (IH (length rest)); [subst n; cbn; lia | reflexivity | exact Hrest].
Qed.

(** An ASCII string is encoded unit by unit. *)
Lemma utf8_encode_ascii s :
  isAscii s -> Utf8.encode s = map byte_of_N s.
Proof.
  induction 1 as [|u rest Hu _ IH]; [reflexivity|].
  cbn [Utf8.encode map]. rewrite ltb_true by exact Hu. now rewrite IH.
Qed.

Lemma utf8_length_ascii s : isAscii s -> length (Utf8.encode s) = length s.
Proof. intros Hs. rewrite utf8_encode_ascii by exact Hs. apply length_map. Qed.

(** Outside ASCII the first byte of an encoding is at least 0x80. *)
Lemma utf8_encode_lead u rest :
  0x80 <= u ->
  exists b t, Utf8.encode (u :: rest) = b :: t /\ 0x80 <= Byte.to_N b.
Proof.
  intros Hu. cbn [Utf8.encode]. rewrite ltb_false by exact Hu.
  destruct (N.ltb_spec u 0x800).
  { eexists _, _. split; [reflexivity|]. rewrite to_N_byte_of_N; lia. }
  assert (forall t, exists b t', Utf8.replacement ++ t = b :: t' /\ 0x80 <= Byte.to_N b) as Hrep.
  { intros t. eexists _, _. split; [reflexivity|]. vm_compute. discriminate. }
  destruct (Utf8.is_high u) eqn:Hh.
  { destruct rest as [|v rest']; [apply (Hrep [])|].
    destruct (Utf8.is_low v) eqn:Hl; [|apply Hrep].
    eexists _, _. split; [reflexivity|].
    unfold Utf8.is_high, Utf8.is_low, Utf8.code_point in *.
    assert (0xD800 <= u <= 0xDBFF /\ 0xDC00 <= v <= 0xDFFF) as [Hu' Hv].
    { revert Hh Hl. split_cmp; cbn; intros; try discriminate; lia. }
    rewrite to_N_byte_of_N; lia. }
  destruct (Utf8.is_low u); [apply Hrep|].
  destruct (N.ltb_spec u 0x10000); [|apply Hrep].
  eexists _, _. split; [reflexivity|]. rewrite to_N_byte_of_N; lia.
Qed.

(** Equal bytes as an ASCII string: the same string. *)
Lemma utf8_encode_ascii_inj a h :
  isAscii a -> Utf8.encode h = Utf8.encode a -> h = a.
Proof.
  intros Ha. revert h. induction Ha as [|x a' Hx Ha' IH]; intros h Heq.
  - destruct h as [|u h']; [reflexivity|]. exfalso.
    destruct (N.ltb_spec u 0x80) as [Hu|Hu].
    + cbn [Utf8.encode] in Heq. rewrite ltb_true in Heq by exact Hu. discriminate.
    + destruct (utf8_encode_lead u h' Hu) as (b & t & Hb & _).
      rewrite Hb in Heq. discriminate.
  - assert (Utf8.encode (x :: a') = byte_of_N x :: Utf8.encode a') as Hxa.
    { cbn [Utf8.encode]. now rewrite ltb_true by exact Hx. }
    rewrite Hxa in Heq. clear Hxa.
    destruct h as [|u h']; [discriminate|].
    destruct (N.ltb_spec u 0x80) as [Hu|Hu].
    + cbn [Utf8.encode] in Heq. rewrite ltb_true in Heq by exact Hu.
      injection Heq as Hb Ht.
      assert (u = x) as ->.
      { rewrite <- (to_N_byte_of_N u), <- (to_N_byte_of_N x) by lia. now rewrite Hb. }
      f_equal. now apply IH.
    + destruct (utf8_encode_lead u h' Hu) as (b & t & Hb & Hlead).
      rewrite Hb in Heq. injection Heq as -> _.
      rewrite to_N_byte_of_N in Hlead by lia. lia.
Qed.

(** ** Base64 *)

Lemma base64_unbase64_char n :
  n < 64 -> Base64.unbase64 (Base64.char n) = Some n.
Proof.
  intros Hn. unfold Base64.char, Base64.unbase64, Utf8.between.
  destruct (N.ltb_spec n 26).
  { split_cmp. cbn. f_equal. lia. }
  destruct (N.ltb_spec n 52).
  { split_cmp. cbn. f_equal. lia. }
  destruct (N.ltb_spec n 62).
  { split_cmp. cbn. f_equal. lia. }
  destruct (N.eqb_spec n 62) as [->|]; [reflexivity|].
  assert (n = 63) as -> by lia. reflexivity.
Qed.

Lemma base64_char_not_pad n : n < 64 -> (Base64.char n =? Base64.pad) = false.
Proof.
  intros Hn. unfold Base64.char, Base64.pad. apply N.eqb_neq. split_cmp.
Qed.

Lemma base64_sextets_char n s :
  n < 64 -> Base64.sextets (Base64.char n :: s) = n :: Base64.sextets s.
Proof.
  intros Hn. cbn [Base64.sextets].
  now rewrite base64_char_not_pad, base64_unbase64_char.
Qed.

Lemma base64_sextets_pad s : Base64.sextets (Base64.pad :: s) = [].
Proof. reflexivity. Qed.

Lemma sextet0 n0 : n0 < 256 -> n0 / 4 < 64.
Proof. lia. Qed.
Lemma sextet1 n0 n1 : n1 < 256 -> (n0 mod 4) * 16 + n1 / 16 < 64.
Proof. lia. Qed.
Lemma sextet2 n1 n2 : n2 < 256 -> (n1 mod 16) * 4 + n2 / 64 < 64.
Proof. lia. Qed.
Lemma sextet3 n2 : n2 mod 64 < 64.
Proof. lia. Qed.
Lemma sextet1_last n0 : (n0 mod 4) * 16 < 64.
Proof. lia. Qed.
Lemma sextet2_last n1 : (n1 mod 16) * 4 < 64.
Proof. lia. Qed.

Lemma octet0 n0 n1 :
  n1 < 256 -> n0 / 4 * 4 + ((n0 mod 4) * 16 + n1 / 16) / 16 = n0.
Proof. lia. Qed.
Lemma octet1 n0 n1 n2 :
  n1 < 256 -> n2 < 256 ->
  (((n0 mod 4) * 16 + n1 / 16) mod 16) * 16 + ((n1 mod 16) * 4 + n2 / 64) / 4 = n1.
Proof. lia. Qed.
Lemma octet2 n1 n2 :
  n2 < 256 -> (((n1 mod 16) * 4 + n2 / 64) mod 4) * 64 + n2 mod 64 = n2.
Proof. lia. Qed.
Lemma octet0_last n0 : n0 / 4 * 4 + ((n0 mod 4) * 16) / 16 = n0.
Proof. lia. Qed.
Lemma octet1_last n0 n1 :
  n1 < 256 ->
  (((n0 mod 4) * 16 + n1 / 16) mod 16) * 16 + ((n1 mod 16) * 4) / 4 = n1.
Proof. lia. Qed.

(** Decoding what was encoded gives the bytes back. *)
Lemma base64_decode_encode bs : Base64.decode (Base64.encode bs) = bs.
Proof.
  unfold Base64.decode.
  remember (length bs) as n eqn:Hn. revert bs Hn.
  induction n as [n IH] using lt_wf_ind. intros bs Hn.
  destruct bs as [|b0 [|b1 [|b2 rest]]]; [reflexivity| | |].
  - pose proof (to_N_lt_256 b0) as H0. cbn [Base64.encode].
    rewrite !base64_sextets_char, base64_sextets_pad
      by (first [apply sextet0 | apply sextet1_last]; try assumption).
    cbn [Base64.of_sextets].
    now rewrite octet0_last, byte_of_N_to_N.
  - pose proof (to_N_lt_256 b0) as H0. pose proof (to_N_lt_256 b1) as H1.
    cbn [Base64.encode].
    rewrite !base64_sextets_char, base64_sextets_pad
      by (first [apply sextet0 | apply sextet1 | apply sextet2_last]; try assumption).
    cbn [Base64.of_sextets].
    now rewrite octet0, octet1_last, !byte_of_N_to_N by assumption.
  - pose proof (to_N_lt_256 b0) as H0. pose proof (to_N_lt_256 b1) as H1.
    pose proof (to_N_lt_256 b2) as H2.
    cbn [Base64.encode].
    rewrite !base64_sextets_char
      by (first [apply sextet0 | apply sextet1 | apply sextet2 | apply sextet3]; try assumption).
    cbn [Base64.of_sextets].
    rewrite octet0, octet1, octet2, !byte_of_N_to_N by assumption. do 3 f_equal.
    apply (IH (length rest)); [subst n; cbn; lia | reflexivity].
Qed.

(** ** Encryption and decryption of the stored secret *)

#[local] Instance standInCrypto_contract : NodeCryptoContract standInCrypto.
Proof.
  split.
  - intros password salt n. cbn. rewrite length_take, length_app, repeat_length. lia.
  - intros key iv pt Hk Hi. cbn. unfold standInTag.
    rewrite length_take, !length_app, repeat_length. lia.
  - intros key iv pt Hk Hi. cbn.
    rewrite bool_decide_eq_true_2 by reflexivity. now rewrite rev_involutive.
Qed.

Lemma base64_encode_nonempty bs : bs <> [] -> Base64.encode bs <> [].
Proof. destruct bs as [|b0 [|b1 [|b2 rest]]]; cbn; congruence. Qed.

Section CryptoFacts.
Context {C : NodeCrypto} {CC : NodeCryptoContract C}.

Lemma getEncryptionKey_length sessionSecret :
  length (MfaAuthModel.getEncryptionKey sessionSecret) = 32%nat.
Proof. unfold MfaAuthModel.getEncryptionKey. apply scryptSync_length. Qed.

(** The blob layout IV, tag, ciphertext is split back into its parts. *)
Lemma blob_split (iv tag ct : buffer) :
  length iv = 16%nat -> length tag = 16%nat ->
  let data := iv ++ tag ++ ct in
  MfaAuthModel.subarray 0 16 data = iv
  /\ MfaAuthModel.subarray 16 32 data = tag
  /\ MfaAuthModel.subarrayFrom 32 data = ct.
Proof.
  intros Hi Ht data. unfold MfaAuthModel.subarray, MfaAuthModel.subarrayFrom, data.
  repeat split.
  - cbn [drop Nat.sub]. now apply take_app_length'.
  - rewrite drop_app_length' by (now symmetry).
    change (32 - 16)%nat with 16%nat. now apply take_app_length'.
  - change 32%nat with (16 + 16)%nat. rewrite <- drop_drop.
    rewrite drop_app_length' by (now symmetry).
    now apply drop_app_length'.
Qed.

(** Up to the text encoding, decryption inverts encryption. *)
Lemma decrypt_encrypt_utf8 sessionSecret iv x :
  length iv = 16%nat -> x <> [] ->
  MfaAuthModel.decrypt sessionSecret (MfaAuthModel.encrypt sessionSecret iv x)
  = Utf8.decode (Utf8.encode x).
Proof.
  intros Hi Hx. unfold MfaAuthModel.encrypt.
  destruct x as [|u x']; [congruence|]. cbn [falsy].
  set (x := u :: x') in *.
  set (key := MfaAuthModel.getEncryptionKey sessionSecret).
  pose proof (getEncryptionKey_length sessionSecret) as Hk. fold key in Hk.
  pose proof (seal_tag_length key iv (Utf8.encode x) Hk Hi) as Ht.
  pose proof (open_seal key iv (Utf8.encode x) Hk Hi) as Ho.
  set (sealed := aes256gcm_seal key iv (Utf8.encode x)) in *.
  rewrite base64_decode_encode.
  unfold MfaAuthModel.decrypt.
  destruct (Base64.encode (iv ++ sealed.2 ++ sealed.1)) as [|c blob] eqn:Hb.
  { exfalso. revert Hb. apply base64_encode_nonempty.
    destruct iv; [discriminate | cbn; congruence]. }
  cbn [falsy]. rewrite <- Hb.
  unfold MfaAuthModel.decryptBody. rewrite base64_decode_encode. fold key.
  destruct (blob_split iv sealed.2 sealed.1 Hi Ht) as (-> & -> & ->).
  now rewrite Ho.
Qed.

End CryptoFacts.

(** C4 (as amended). For every non-empty well-formed string (no unpaired
    surrogate) and every 16-byte IV, decrypting what [encrypt] produced
    under the same process secret gives the string back, provided
    AES-256-GCM opening inverts sealing under the same key and IV. *)
Theorem decrypt_encrypt (C : NodeCrypto) (CC : NodeCryptoContract C)
    (sessionSecret : option jsstring) (iv : buffer) (x : jsstring) :
  length iv = 16%nat -> x <> [] -> Utf8.isWellFormed x = true ->
  MfaAuthModel.decrypt sessionSecret (MfaAuthModel.encrypt sessionSecret iv x) = x.
Proof.
  intros Hi Hx Hwf. rewrite decrypt_encrypt_utf8 by assumption.
  now apply utf8_decode_encode.
Qed.

Lemma decrypt_encrypt_witness :
  let x := js "JBSWY3DPEHPK3PXP" in
  let iv := repeat x20 16 in
  @MfaAuthModel.decrypt standInCrypto (Some (js "s3cret"))
    (@MfaAuthModel.encrypt standInCrypto (Some (js "s3cret")) iv x) = x.
Proof.
  intros x iv.
  apply (decrypt_encrypt standInCrypto standInCrypto_contract);
    [reflexivity | discriminate | reflexivity].
Defined.

(** C4 (as stated) fails: a lone surrogate is a non-empty string, and it
    comes back as U+FFFD. *)
Lemma decrypt_encrypt_lone_surrogate :
  ~ (forall (C : NodeCrypto) (CC : NodeCryptoContract C)
            (sessionSecret : option jsstring) (iv : buffer) (x : jsstring),
        length iv = 16%nat -> x <> [] ->
        MfaAuthModel.decrypt sessionSecret
          (MfaAuthModel.encrypt sessionSecret iv x) = x).
Proof.
  intros claim.
  specialize (claim standInCrypto standInCrypto_contract None (repeat x00 16) [0xD800]).
  rewrite decrypt_encrypt_utf8 in claim by (reflexivity || discriminate).
  specialize (claim eq_refl). vm_compute in claim.
  assert ([65533] = [55296] :> jsstring) as Habs by (apply claim; discriminate).
  discriminate Habs.
Qed.



(** ** Backup code hashes *)

(** Known answers: FIPS 180-4 round constants and the digests of "abc"
    and of the two-block message of the standard. *)
Example sha256_constants :
  nth 0 Sha256.K 0 = 0x428a2f98 /\ nth 63 Sha256.K 0 = 0xc67178f2
  /\ Sha256.ha Sha256.H0 = 0x6a09e667 /\ Sha256.hh Sha256.H0 = 0x5be0cd19.
Proof. repeat split. Qed.

Example sha256_abc :
  Hex.encode (Sha256.digest (Utf8.encode (js "abc")))
  = js "ba7816bf8f01cfea414140de5dae2223b00361a396177a9cb410ff61f20015ad".
Proof. vm_compute. reflexivity. Qed.

Example sha256_two_blocks :
  Hex.encode (Sha256.digest
    (Utf8.encode (js "abcdbcdecdefdefgefghfghighijhijkijkljklmklmnlmnomnopnopq")))
  = js "248d6a61d20638b8e5c026930c3e6039a33ce45964ff2167f6ecedd419db06c1".
Proof. vm_compute. reflexivity. Qed.

Lemma hex_digit_ascii n : n < 16 -> Hex.digit n < 0x80.
Proof. intros Hn. unfold Hex.digit. split_cmp. Qed.

Lemma hex_encode_ascii bs : isAscii (Hex.encode bs).
Proof.
  unfold isAscii, Hex.encode. induction bs as [|b bs IH]; [constructor|].
  cbn [flat_map]. pose proof (to_N_lt_256 b).
  unfold Hex.of_byte. cbn [app].
  repeat constructor; try apply hex_digit_ascii; try lia. exact IH.
Qed.

Lemma hex_encode_length bs : length (Hex.encode bs) = (2 * length bs)%nat.
Proof.
  unfold Hex.encode. induction bs as [|b bs IH]; [reflexivity|].
  cbn [flat_map length]. rewrite length_app, IH. cbn. lia.
Qed.

Lemma sha256_digest_length msg : length (Sha256.digest msg) = 32%nat.
Proof. unfold Sha256.digest. now rewrite !length_app. Qed.

Lemma hashBackupCode_ascii code : isAscii (MfaAuthModel.hashBackupCode code).
Proof. apply hex_encode_ascii. Qed.

Lemma hashBackupCode_length code :
  length (MfaAuthModel.hashBackupCode code) = 64%nat.
Proof.
  unfold MfaAuthModel.hashBackupCode.
  now rewrite hex_encode_length, sha256_digest_length.
Qed.

Lemma hashBackupCode_byteLength code :
  byteLength (MfaAuthModel.hashBackupCode code) = 64%nat.
Proof.
  unfold byteLength. rewrite utf8_length_ascii by apply hashBackupCode_ascii.
  apply hashBackupCode_length.
Qed.

(** The comparison of one stored hash with an ASCII input hash. *)
Lemma timingSafeEqual_spec inputHash h :
  isAscii inputHash ->
  (byteLength h = byteLength inputHash /\
   timingSafeEqual (Utf8.encode inputHash) (Utf8.encode h)
   = Return (bool_decide (h = inputHash)))
  \/ (byteLength h <> byteLength inputHash /\
      timingSafeEqual (Utf8.encode inputHash) (Utf8.encode h) = Throw RangeError).
Proof.
  intros Ha. unfold timingSafeEqual, byteLength.
  destruct (decide (length (Utf8.encode inputHash) = length (Utf8.encode h))) as [Hl|Hl].
  - left. split; [congruence|].
    rewrite bool_decide_eq_true_2 by exact Hl. f_equal.
    destruct (decide (h = inputHash)) as [->|Hne].
    + now rewrite !bool_decide_eq_true_2.
    + rewrite !bool_decide_eq_false_2; [reflexivity | exact Hne |].
      intros Heq. apply Hne. symmetry in Heq. now apply utf8_encode_ascii_inj.
  - right. split; [congruence|]. now rewrite bool_decide_eq_false_2.
Qed.

(** The three ways the loop ends. *)
Lemma verifyBackupCodeFrom_spec inputHash hashes i :
  isAscii inputHash ->
  (MfaAuthModel.verifyBackupCodeFrom inputHash hashes i = Return (-1)%Z
   /\ passedOver inputHash hashes)
  \/ (exists k : nat,
        MfaAuthModel.verifyBackupCodeFrom inputHash hashes i = Return (i + Z.of_nat k)%Z
        /\ hashes !! k = Some inputHash
        /\ passedOver inputHash (take k hashes))
  \/ (exists (k : nat) h,
        MfaAuthModel.verifyBackupCodeFrom inputHash hashes i = Throw RangeError
        /\ hashes !! k = Some h
        /\ byteLength h <> byteLength inputHash
        /\ passedOver inputHash (take k hashes)).
Proof.
  intros Ha. revert i. induction hashes as [|h rest IH]; intros i.
  { left. split; [reflexivity | constructor]. }
  cbn [MfaAuthModel.verifyBackupCodeFrom].
  destruct (timingSafeEqual_spec inputHash h Ha) as [[Hlen ->]|[Hlen ->]].
  - destruct (decide (h = inputHash)) as [->|Hne].
    + rewrite bool_decide_eq_true_2 by reflexivity.
      right; left. exists 0%nat. repeat split; [f_equal; lia | constructor].
    + rewrite bool_decide_eq_false_2 by exact Hne.
      destruct (IH (i + 1)%Z) as [[-> Hall]|[(k & -> & Hk & Hall)|(k & h' & -> & Hk & Hbad & Hall)]].
      * left. split; [reflexivity|]. now constructor.
      * right; left. exists (S k). repeat split; [f_equal; lia | exact Hk |].
        cbn [take]. now constructor.
      * right; right. exists (S k), h'. repeat split; [exact Hk | exact Hbad |].
        cbn [take]. now constructor.
  - right; right. exists 0%nat, h. repeat split; [exact Hlen | constructor].
Qed.

Lemma passedOver_lookup inputHash hashes (k : nat) :
  passedOver inputHash (take k hashes) ->
  forall (j : nat) h, (j < k)%nat -> hashes !! j = Some h ->
    byteLength h = byteLength inputHash /\ h <> inputHash.
Proof.
  intros Hall j h Hj Hh. unfold passedOver in Hall.
  rewrite Forall_lookup in Hall. apply (Hall j).
  now rewrite lookup_take_lt.
Qed.

(** With stored hashes of the right byte length the loop returns: the
    first index of the input hash, or -1 when it is not among them. *)
Lemma verifyBackupCode_wellformed code hashes :
  Forall (fun h => byteLength h = 64%nat) hashes ->
  let inputHash := MfaAuthModel.hashBackupCode code in
  (MfaAuthModel.verifyBackupCode code hashes = Return (-1)%Z /\ inputHash ∉ hashes)
  \/ (exists k : nat,
        MfaAuthModel.verifyBackupCode code hashes = Return (Z.of_nat k)
        /\ hashes !! k = Some inputHash
        /\ forall j : nat, (j < k)%nat -> hashes !! j <> Some inputHash).
Proof.
  intros Hwf inputHash. unfold MfaAuthModel.verifyBackupCode. fold inputHash.
  destruct (verifyBackupCodeFrom_spec inputHash hashes 0 (hashBackupCode_ascii code))
    as [[-> Hall]|[(k & -> & Hk & Hall)|(k & h & _ & Hk & Hbad & _)]].
  - left. split; [reflexivity|]. intros Hin.
    unfold passedOver in Hall. rewrite Forall_forall in Hall.
    now destruct (Hall _ Hin).
  - right. exists k. split; [f_equal; lia | split; [exact Hk|]].
    intros j Hj Hjh. now destruct (passedOver_lookup _ _ _ Hall j _ Hj Hjh).
  - exfalso. apply Hbad. rewrite Forall_lookup in Hwf.
    rewrite (Hwf k h Hk). symmetry. apply hashBackupCode_byteLength.
Qed.

(** C10. [verifyBackupCode] returns (an index inside the list, or -1)
    whenever every stored hash has the byte length of the hex digest, 64;
    it throws exactly when an entry of another byte length is reached
    before any match; and such a list exists. *)
Theorem verifyBackupCode_throws_on_malformed_hash :
  (forall code hashes,
      Forall (fun h => byteLength h = 64%nat) hashes ->
      exists i, MfaAuthModel.verifyBackupCode code hashes = Return i
                /\ (i = -1 \/ 0 <= i < Z.of_nat (length hashes))%Z)
  /\ (forall code hashes,
      (exists e, MfaAuthModel.verifyBackupCode code hashes = Throw e)
      <-> (exists (k : nat) h,
             hashes !! k = Some h /\ byteLength h <> 64%nat
             /\ forall (j : nat) h', (j < k)%nat -> hashes !! j = Some h' ->
                  h' <> MfaAuthModel.hashBackupCode code))
  /\ MfaAuthModel.verifyBackupCode (js "A1B2-C3D4") [js "0123456789abcdef"]
     = Throw RangeError.
Proof.
  split; [|split].
  - intros code hashes Hwf.
    destruct (verifyBackupCode_wellformed code hashes Hwf)
      as [[-> _]|(k & -> & Hk & _)].
    + exists (-1)%Z. split; [reflexivity | now left].
    + exists (Z.of_nat k). split; [reflexivity | right].
      apply lookup_lt_Some in Hk. lia.
  - intros code hashes. set (inputHash := MfaAuthModel.hashBackupCode code).
    pose proof (hashBackupCode_byteLength code) as H64. fold inputHash in H64.
    unfold MfaAuthModel.verifyBackupCode. fold inputHash.
    destruct (verifyBackupCodeFrom_spec inputHash hashes 0 (hashBackupCode_ascii code))
      as [[Hr Hall]|[(k & Hr & Hk & Hall)|(k & h & Hr & Hk & Hbad & Hall)]];
      rewrite Hr; split.
    + intros [e He]. discriminate He.
    + intros (k & h & Hk & Hbad & _). exfalso. apply Hbad.
      unfold passedOver in Hall. rewrite Forall_lookup in Hall.
      destruct (Hall k h Hk) as [-> _]. exact H64.
    + intros [e He]. discriminate He.
    + intros (k' & h & Hk' & Hbad & Hno). exfalso.
      destruct (Nat.lt_trichotomy k k') as [Hlt|[->|Hgt]].
      * now apply (Hno k inputHash Hlt Hk).
      * rewrite Hk in Hk'. injection Hk' as <-. now apply Hbad.
      * destruct (passedOver_lookup _ _ _ Hall k' h Hgt Hk') as [Hlen _].
        apply Hbad. now rewrite Hlen.
    + intros _. exists k, h. split; [exact Hk|]. split; [now rewrite <- H64|].
      intros j h' Hj Hjh. now destruct (passedOver_lookup _ _ _ Hall j h' Hj Hjh).
    + intros _. now exists RangeError.
  - vm_compute. reflexivity.
Qed.

Lemma verifyBackupCode_throws_on_malformed_hash_witness :
  let code := js "A1B2-C3D4" in
  let good := MfaAuthModel.hashBackupCode (js "FFFF-0000") in
  (exists i, MfaAuthModel.verifyBackupCode code [good; MfaAuthModel.hashBackupCode code]
             = Return i /\ (i = -1 \/ 0 <= i < 2)%Z)
  /\ (exists e, MfaAuthModel.verifyBackupCode code [good; js "abc"; MfaAuthModel.hashBackupCode code]
                = Throw e).
Proof.
  intros code good.
  destruct verifyBackupCode_throws_on_malformed_hash as (Htotal & Hthrow & _).
  split.
  - apply (Htotal code [good; MfaAuthModel.hashBackupCode code]).
    repeat constructor; apply hashBackupCode_byteLength.
  - apply (Hthrow code [good; js "abc"; MfaAuthModel.hashBackupCode code]).
    exists 1%nat, (js "abc"). split; [reflexivity|]. split; [vm_compute; lia|].
    intros j h' Hj Hh. assert (j = 0%nat) as -> by lia.
    injection Hh as <-. vm_compute. discriminate.
Defined.

(** Normalisation forgets dashes and the case of ASCII letters. *)
Lemma sameLetter_dash u v : sameLetter u v -> (u = dash <-> v = dash).
Proof. unfold sameLetter, dash. lia. Qed.

Lemma sameLetter_toUpperCase u v :
  sameLetter u v -> toUpperCaseUnit u = toUpperCaseUnit v.
Proof.
  unfold sameLetter, toUpperCaseUnit, Utf8.between.
  intros [->|[[Hu ->]|[Hv ->]]]; [reflexivity| |]; split_cmp; cbn; lia.
Qed.

Lemma sameCode_normalized c c' :
  sameCode c c' ->
  toUpperCase (removeDashes c) = toUpperCase (removeDashes c').
Proof.
  unfold removeDashes. induction 1 as [|c c' _ IH|c c' _ IH|u v c c' Huv _ IH].
  - reflexivity.
  - now rewrite filter_cons_False by (intros Hne; now apply Hne).
  - now rewrite (filter_cons_False _ dash) by (intros Hne; now apply Hne).
  - destruct (decide (u = dash)) as [Hu|Hu].
    + pose proof (proj1 (sameLetter_dash u v Huv) Hu) as Hv. subst u v.
      now rewrite !filter_cons_False by (intros Hne; now apply Hne).
    + assert (v <> dash) as Hv by (now rewrite <- (sameLetter_dash u v Huv)).
      rewrite !filter_cons_True by assumption. cbn [toUpperCase map].
      f_equal; [now apply sameLetter_toUpperCase | exact IH].
Qed.

(** C6 (as amended). The hash of a backup code does not depend on the
    case of its ASCII letters nor on where dashes stand in it, and so
    neither does verification. *)
Theorem hashBackupCode_sameCode c c' :
  sameCode c c' ->
  MfaAuthModel.hashBackupCode c = MfaAuthModel.hashBackupCode c'
  /\ forall hashes,
       MfaAuthModel.verifyBackupCode c hashes = MfaAuthModel.verifyBackupCode c' hashes.
Proof.
  intros Hs.
  assert (MfaAuthModel.hashBackupCode c = MfaAuthModel.hashBackupCode c') as Hh.
  { unfold MfaAuthModel.hashBackupCode. now rewrite (sameCode_normalized c c' Hs). }
  split; [exact Hh|]. intros hashes. unfold MfaAuthModel.verifyBackupCode.
  now rewrite Hh.
Qed.

Ltac sameCode_steps :=
  repeat first
    [ apply sameCode_nil
    | apply sameCode_unit; [solve [unfold sameLetter; lia]|]
    | apply sameCode_dash_l
    | apply sameCode_dash_r ].

Lemma hashBackupCode_sameCode_witness :
  MfaAuthModel.hashBackupCode (js "a1b2c3-d4") = MfaAuthModel.hashBackupCode (js "A1B2-C3D4")
  /\ forall hashes,
       MfaAuthModel.verifyBackupCode (js "a1b2c3-d4") hashes
       = MfaAuthModel.verifyBackupCode (js "A1B2-C3D4") hashes.
Proof.
  apply (hashBackupCode_sameCode (js "a1b2c3-d4") (js "A1B2-C3D4")).
  cbv [js list_ascii_of_string map N_of_ascii N_of_digits N.add N.mul].
  fold dash. sameCode_steps.
Defined.

(** C6 (as stated) fails: a separator other than the dash changes the
    hash, and the code is then not found among the stored hashes. *)
Lemma hashBackupCode_separator_sensitive :
  MfaAuthModel.hashBackupCode (js "A1B2.C3D4") <> MfaAuthModel.hashBackupCode (js "A1B2C3D4")
  /\ MfaAuthModel.hashBackupCode (js "A1B2 C3D4") <> MfaAuthModel.hashBackupCode (js "A1B2-C3D4")
  /\ MfaAuthModel.verifyBackupCode (js "A1B2.C3D4")
       [MfaAuthModel.hashBackupCode (js "A1B2-C3D4")] = Return (-1)%Z.
Proof.
  split; [|split].
  - vm_compute. discriminate.
  - vm_compute. discriminate.
  - vm_compute. reflexivity.
Qed.

(** ** Running the monad *)

Ltac monad_simpl :=
  cbv beta iota zeta delta
    [bind ret throw lift tryCatch Date_now noUserModel findById].

(** Run as far as the store [Hw : UserModel w = Some users] allows. *)
Ltac run_in Hw :=
  repeat progress
    (monad_simpl; rewrite ?Hw; rewrite ?bool_decide_eq_false_2 by discriminate).

(** ** Verifying and consuming a backup code *)

Lemma storedMfa_inv w userId m :
  storedMfa w userId = Some m ->
  exists users u, UserModel w = Some users /\ users !! userId = Some u
                  /\ mfa u = Some m.
Proof.
  unfold storedMfa. intros Hm.
  destruct (UserModel w) as [users|]; [|discriminate].
  destruct (users !! userId) as [u|] eqn:Hu; [|discriminate].
  now exists users, u.
Qed.

Lemma storedMfa_updateById w users u userId updates :
  UserModel w = Some users -> users !! userId = Some u ->
  exists w',
    updateById userId updates w = (Return tt, w')
    /\ storedMfa w' userId
       = Some (fold_left applyUpdate updates (default defaultMfa (mfa u)))
    /\ PluginModel w' = PluginModel w /\ sessionSecret w' = sessionSecret w
    /\ now w' = now w.
Proof.
  intros Hw Hu. unfold updateById. rewrite Hw. eexists. split; [reflexivity|].
  unfold storedMfa, setUsers. cbn. rewrite lookup_alter_eq, Hu. cbn.
  repeat split.
Qed.

(** Removing the matched entry of a duplicate-free list leaves no match. *)
Lemma not_elem_of_delete_NoDup (l : list jsstring) (k : nat) x :
  NoDup l -> l !! k = Some x -> x ∉ delete k l.
Proof.
  intros Hnd Hk Hin. apply list_elem_of_lookup in Hin as [j Hj].
  destruct (decide (j < k)%nat) as [Hlt|Hge].
  - rewrite list_lookup_delete_lt in Hj by exact Hlt.
    pose proof (NoDup_lookup _ _ _ _ Hnd Hj Hk). lia.
  - rewrite list_lookup_delete_ge in Hj by lia.
    pose proof (NoDup_lookup _ _ _ _ Hnd Hj Hk). lia.
Qed.

(** C8 (as amended). With stored hashes that all have the byte length of
    a hex SHA-256 digest, [verifyBackupCode] returns the first index of
    [hashBackupCode code], or -1 when no entry equals it; and for a
    matched code and pairwise distinct stored hashes, [useBackupCode]
    stores the list without the entry at that index, exactly one entry
    shorter, against which the same code is no longer found. *)
Theorem verifyBackupCode_first_index_and_consume code hashes :
  Forall (fun h => byteLength h = 64%nat) hashes ->
  let inputHash := MfaAuthModel.hashBackupCode code in
  ((MfaAuthModel.verifyBackupCode code hashes = Return (-1)%Z /\ inputHash ∉ hashes)
   \/ (exists k : nat,
         MfaAuthModel.verifyBackupCode code hashes = Return (Z.of_nat k)
         /\ hashes !! k = Some inputHash
         /\ forall j : nat, (j < k)%nat -> hashes !! j <> Some inputHash))
  /\ (forall (k : nat) w userId,
        MfaAuthModel.verifyBackupCode code hashes = Return (Z.of_nat k) ->
        NoDup hashes ->
        backupCodes <$> storedMfa w userId = Some hashes ->
        let remaining := take k hashes ++ drop (S k) hashes in
        exists w',
          MfaAuthModel.useBackupCode userId code w = (Return true, w')
          /\ backupCodes <$> storedMfa w' userId = Some remaining
          /\ S (length remaining) = length hashes
          /\ MfaAuthModel.verifyBackupCode code remaining = Return (-1)%Z).
Proof.
  intros Hwf inputHash. split; [now apply verifyBackupCode_wellformed|].
  intros k w userId Hverify Hnd Hstored remaining.
  destruct (storedMfa w userId) as [m|] eqn:Hm; [|discriminate].
  injection Hstored as Hcodes.
  destruct (storedMfa_inv w userId m Hm) as (users & u & Hw & Hu & Hmfa).
  assert (hashes !! k = Some inputHash) as Hk.
  { destruct (verifyBackupCode_wellformed code hashes Hwf)
      as [[Hr _]|(k' & Hr & Hk' & _)]; rewrite Hr in Hverify.
    - injection Hverify as Hv. lia.
    - injection Hverify as Hv. apply Nat2Z.inj in Hv. now subst k'. }
  assert (remaining = delete k hashes) as Hrem.
  { unfold remaining. symmetry. apply delete_take_drop. }
  destruct (storedMfa_updateById w users u userId
              [set_backupCodes (delete k hashes); set_lastUsedAt (Some (now w));
               set_failedAttempts 0; set_lockedUntil None] Hw Hu)
    as (w' & Hupd & Hstored' & _).
  exists w'. split; [|split; [|split]].
  - unfold MfaAuthModel.useBackupCode. run_in Hw.
    rewrite Hu. cbn [MfaAuthModel.backupCodesOf]. rewrite Hmfa, Hcodes, Hverify.
    replace (Z.of_nat k =? -1)%Z with false by (symmetry; apply Z.eqb_neq; lia).
    rewrite Nat2Z.id, Hupd. reflexivity.
  - rewrite Hstored', Hrem. reflexivity.
  - rewrite Hrem, length_delete by (now exists inputHash).
    apply lookup_lt_Some in Hk. lia.
  - assert (Forall (fun h => byteLength h = 64%nat) remaining) as Hwf'.
    { unfold remaining. apply Forall_app. split;
        [now apply Forall_take | now apply Forall_drop]. }
    destruct (verifyBackupCode_wellformed code remaining Hwf')
      as [[Hr _]|(k' & _ & Hk' & _)]; [exact Hr|].
    exfalso. apply (not_elem_of_delete_NoDup hashes k inputHash Hnd Hk).
    rewrite <- Hrem. apply list_elem_of_lookup. now exists k'.
Qed.

Lemma aliceCodes_wellformed : Forall (fun h => byteLength h = 64%nat) aliceCodes.
Proof. repeat constructor; apply hashBackupCode_byteLength. Qed.

Lemma aliceCodes_NoDup : NoDup aliceCodes.
Proof. apply (bool_decide_unpack _). vm_compute. exact I. Qed.

Lemma verifyBackupCode_first_index_and_consume_witness :
  let code := js "A1B2-C3D4" in
  let remaining := take 1 aliceCodes ++ drop 2 aliceCodes in
  MfaAuthModel.verifyBackupCode code aliceCodes = Return 1%Z
  /\ exists w',
       MfaAuthModel.useBackupCode (js "u1") code world0 = (Return true, w')
       /\ backupCodes <$> storedMfa w' (js "u1") = Some remaining
       /\ S (length remaining) = length aliceCodes
       /\ MfaAuthModel.verifyBackupCode code remaining = Return (-1)%Z.
Proof.
  intros code remaining.
  assert (MfaAuthModel.verifyBackupCode code aliceCodes = Return (Z.of_nat 1)) as Hv
    by (vm_compute; reflexivity).
  split; [exact Hv|].
  destruct (verifyBackupCode_first_index_and_consume code aliceCodes
              aliceCodes_wellformed) as [_ Hconsume].
  apply (Hconsume 1%nat world0 (js "u1") Hv aliceCodes_NoDup).
  vm_compute. reflexivity.
Defined.

(** C8 (as stated) fails: against a stored entry that is no digest, no
    entry matches and yet the not-found sentinel is not returned. *)
Lemma verifyBackupCode_not_found_throws :
  let code := js "A1B2-C3D4" in
  let hashes := [js "a1b2c3d4"] in
  ~ In (MfaAuthModel.hashBackupCode code) hashes
  /\ MfaAuthModel.verifyBackupCode code hashes <> Return (-1)%Z
  /\ MfaAuthModel.verifyBackupCode code hashes = Throw RangeError.
Proof.
  intros code hashes. split; [|split].
  - intros [Hin|[]]. vm_compute in Hin. discriminate.
  - vm_compute. discriminate.
  - vm_compute. reflexivity.
Qed.

(** ** The policy decision *)

Lemma getConfig_spec w : MfaAuthModel.getConfig w = (Return (configOf w), w).
Proof.
  unfold MfaAuthModel.getConfig, configOf.
  now destruct (PluginModel w) as [[config|]|].
Qed.

Lemma inGracePeriod_spec user w :
  exists b, MfaAuthModel.inGracePeriod user w = (Return b, w)
            /\ (b = true <-> graceActive user w).
Proof.
  unfold MfaAuthModel.inGracePeriod, graceActive.
  destruct (mfa user) as [m|].
  - destruct (gracePeriodUntil m) as [until|] eqn:Hg.
    + exists (now w <? until)%Z. split; [reflexivity|].
      rewrite Z.ltb_lt. split.
      * intros Hlt. now exists m, until.
      * intros (m' & until' & Hm & Hu & Hlt). injection Hm as <-.
        rewrite Hg in Hu. now injection Hu as <-.
    + exists false. split; [reflexivity|]. split; [discriminate|].
      intros (m' & until' & Hm & Hu & _). injection Hm as <-. congruence.
  - exists false. split; [reflexivity|]. split; [discriminate|].
    intros (m' & until' & Hm & _). discriminate.
Qed.

Lemma includes_In arr x : includes arr x = true <-> In x arr.
Proof.
  unfold includes. rewrite existsb_exists. split.
  - intros (y & Hy & Heq). apply bool_decide_eq_true in Heq. now subst.
  - intros Hx. exists x. split; [exact Hx | now apply bool_decide_eq_true].
Qed.

Lemma hasRequiredRole_spec user config :
  some (fun role => includes (requiredRoles config) role)
       (default [js "user"] (roles user)) = true
  <-> rolesIntersect user config.
Proof.
  unfold some, rolesIntersect. rewrite existsb_exists.
  split; intros (role & Hr & Hi); exists role; split; try exact Hr;
    now apply includes_In.
Qed.

(** C2. [isMfaRequired] has no effect and decides in this order: an
    enabled user is required with reason 'enabled'; otherwise under policy
    'required' the answer is 'grace-period' (not required) while the grace
    period runs and 'policy-required' after; under 'required-for-roles'
    the same grace check applies when the roles intersect the required
    ones, with reason 'role-required' when enforced, and 'optional' when
    they do not; every other policy value gives 'optional'. *)
Theorem isMfaRequired_decision_order (user : User) (w : World) :
  exists r,
    MfaAuthModel.isMfaRequired user w = (Return r, w)
    /\ let config := configOf w in
       let answer b reason := r = {| MfaAuthModel.required := b; MfaAuthModel.reason := reason |} in
       (MfaAuthModel.mfaEnabled user = true -> answer true MfaAuthModel.Enabled)
       /\ (MfaAuthModel.mfaEnabled user = false ->
           (mfaPolicy config = js "required" ->
              (graceActive user w -> answer false MfaAuthModel.GracePeriod)
              /\ (~ graceActive user w -> answer true MfaAuthModel.PolicyRequired))
           /\ (mfaPolicy config = js "required-for-roles" ->
              (rolesIntersect user config ->
                 (graceActive user w -> answer false MfaAuthModel.GracePeriod)
                 /\ (~ graceActive user w -> answer true MfaAuthModel.RoleRequired))
              /\ (~ rolesIntersect user config -> answer false MfaAuthModel.Optional)
              /\ (answer true MfaAuthModel.RoleRequired
                  <-> rolesIntersect user config /\ ~ graceActive user w))
           /\ (mfaPolicy config <> js "required" ->
               mfaPolicy config <> js "required-for-roles" ->
               answer false MfaAuthModel.Optional)).
Proof.
  unfold MfaAuthModel.isMfaRequired, bind. rewrite getConfig_spec.
  set (config := configOf w).
  destruct (inGracePeriod_spec user w) as (grace & Hgrace & Hactive).
  assert (js "required" <> js "required-for-roles") as Hdiff by discriminate.
  destruct (MfaAuthModel.mfaEnabled user) eqn:Hen.
  { eexists. split; [reflexivity|]. cbn zeta. split; [reflexivity|discriminate]. }
  destruct (decide (mfaPolicy config = js "required")) as [Hreq|Hreq].
  { rewrite bool_decide_eq_true_2 by exact Hreq. rewrite Hgrace.
    destruct grace; eexists; (split; [reflexivity|]); cbn zeta;
      (split; [discriminate|]); intros _; (split; [|split]); try congruence;
      intros _; split; intros Hg; try reflexivity; exfalso.
    - apply Hg. now apply Hactive.
    - apply Hactive in Hg. discriminate. }
  rewrite bool_decide_eq_false_2 by exact Hreq.
  destruct (decide (mfaPolicy config = js "required-for-roles")) as [Hrol|Hrol].
  { rewrite bool_decide_eq_true_2 by exact Hrol.
    pose proof (hasRequiredRole_spec user config) as Hroles.
    destruct (some _ _).
    - assert (rolesIntersect user config) as Hint by (now apply Hroles).
      rewrite Hgrace.
      destruct grace; eexists; (split; [reflexivity|]); cbn zeta;
        (split; [discriminate|]); intros _; (split; [|split]); try congruence;
        intros _; (split; [|split]).
      + intros _. split; intros Hg; [reflexivity|]. exfalso. apply Hg. now apply Hactive.
      + intros Hno. now destruct Hno.
      + split; [discriminate|]. intros [_ Hg]. exfalso. apply Hg. now apply Hactive.
      + intros _. split; intros Hg; [|reflexivity]. apply Hactive in Hg. discriminate.
      + intros Hno. now destruct Hno.
      + split; [|reflexivity]. intros _. split; [exact Hint|].
        intros Hg. apply Hactive in Hg. discriminate.
    - assert (~ rolesIntersect user config) as Hint.
      { intros Hi. apply Hroles in Hi. discriminate. }
      eexists; (split; [reflexivity|]); cbn zeta;
        (split; [discriminate|]); intros _; (split; [|split]); try congruence.
      intros _. split; [|split].
      + intros Hi. now destruct Hint.
      + reflexivity.
      + split; [discriminate|]. intros [Hi _]. now destruct Hint. }
  rewrite bool_decide_eq_false_2 by exact Hrol.
  eexists; (split; [reflexivity|]); cbn zeta;
    (split; [discriminate|]); intros _; (split; [|split]); congruence.
Qed.

Lemma isMfaRequired_decision_order_witness :
  MfaAuthModel.isMfaRequired bob world0
  = (Return {| MfaAuthModel.required := true;
               MfaAuthModel.reason := MfaAuthModel.RoleRequired |}, world0)
  /\ MfaAuthModel.isMfaRequired alice world0
     = (Return {| MfaAuthModel.required := true;
                  MfaAuthModel.reason := MfaAuthModel.Enabled |}, world0).
Proof.
  split.
  - destruct (isMfaRequired_decision_order bob world0) as (r & -> & _ & Hoff).
    destruct (Hoff eq_refl) as (_ & Hroles & _).
    destruct (Hroles eq_refl) as (Hint & _).
    assert (rolesIntersect bob (configOf world0)) as Hi.
    { exists (js "root"). split; left; reflexivity. }
    destruct (Hint Hi) as [_ Hnograce]. rewrite Hnograce; [reflexivity|].
    intros (m & until & Hm & _). discriminate Hm.
  - destruct (isMfaRequired_decision_order alice world0) as (r & -> & Hon & _).
    now rewrite (Hon eq_refl).
Defined.

(** ** Lockout *)

Lemma ceilDiv_spec a b :
  (0 < b)%Z ->
  (b * (MfaAuthModel.ceilDiv a b - 1) < a <= b * MfaAuthModel.ceilDiv a b)%Z.
Proof. intros Hb. unfold MfaAuthModel.ceilDiv. lia. Qed.

(** C9. [isLocked] only reads: the world, and so the stored [lockedUntil],
    is left as it was. It reports locked exactly when [lockedUntil] is set
    and later than now, with the remaining minutes rounded up and absent
    when not locked; a [lockedUntil] in the past reads as unlocked. *)
Theorem isLocked_lazy_expiry (user : option User) (w : World) :
  exists r,
    MfaAuthModel.isLocked user w = (Return r, w)
    /\ (MfaAuthModel.locked r = true
        <-> exists until,
              MfaAuthModel.lockedUntilOf user = Some until /\ (now w < until)%Z)
    /\ (forall until,
          MfaAuthModel.lockedUntilOf user = Some until -> (now w < until)%Z ->
          exists m, MfaAuthModel.remainingMinutes r = Some m
                    /\ (60000 * (m - 1) < until - now w <= 60000 * m)%Z)
    /\ (MfaAuthModel.locked r = false -> MfaAuthModel.remainingMinutes r = None)
    /\ (forall until,
          MfaAuthModel.lockedUntilOf user = Some until -> (until <= now w)%Z ->
          MfaAuthModel.locked r = false).
Proof.
  unfold MfaAuthModel.isLocked.
  destruct (MfaAuthModel.lockedUntilOf user) as [lockDate|].
  - monad_simpl. destruct (Z.leb_spec lockDate (now w)) as [Hpast|Hfuture];
      eexists; (split; [reflexivity|]); cbn [MfaAuthModel.locked MfaAuthModel.remainingMinutes].
    + split; [|split; [|split]].
      * split; [discriminate|]. intros (until & Hu & Hlt). injection Hu as <-. lia.
      * intros lim Hu Hlt. injection Hu as <-. lia.
      * reflexivity.
      * reflexivity.
    + split; [|split; [|split]].
      * split; [|reflexivity]. intros _. now exists lockDate.
      * intros lim Hu Hlt. injection Hu as <-. eexists. split; [reflexivity|].
        apply ceilDiv_spec. lia.
      * discriminate.
      * intros lim Hu Hle. injection Hu as <-. lia.
  - eexists. split; [reflexivity|]. cbn.
    split; [|split; [|split]]; try discriminate; try reflexivity.
    split; [discriminate|]. intros (until & Hu & _). discriminate.
Qed.

Lemma isLocked_lazy_expiry_witness :
  (exists r, MfaAuthModel.isLocked (Some aliceLocked) world0 = (Return r, world0)
             /\ MfaAuthModel.locked r = true
             /\ exists m, MfaAuthModel.remainingMinutes r = Some m
                          /\ (60000 * (m - 1) < 90000 <= 60000 * m)%Z)
  /\ (exists r, MfaAuthModel.isLocked (Some aliceLocked) (atTime 1700000690000 world0)
                = (Return r, atTime 1700000690000 world0)
                /\ MfaAuthModel.locked r = false).
Proof.
  split.
  - destruct (isLocked_lazy_expiry (Some aliceLocked) world0)
      as (r & Hr & Hlocked & Hmin & _).
    exists r. split; [exact Hr|]. split.
    + apply Hlocked. exists 1700000690000%Z. split; [reflexivity | cbn; lia].
    + apply (Hmin 1700000690000%Z); [reflexivity | cbn; lia].
  - destruct (isLocked_lazy_expiry (Some aliceLocked) (atTime 1700000690000 world0))
      as (r & Hr & _ & _ & _ & Hpast).
    exists r. split; [exact Hr|].
    apply (Hpast 1700000690000%Z); [reflexivity | cbn; lia].
Defined.

Lemma storedMfa_atTime t w userId : storedMfa (atTime t w) userId = storedMfa w userId.
Proof. reflexivity. Qed.

Lemma configOf_atTime t w : configOf (atTime t w) = configOf w.
Proof. reflexivity. Qed.

Lemma configOf_ext w w' : PluginModel w' = PluginModel w -> configOf w' = configOf w.
Proof. unfold configOf. now intros ->. Qed.

(** One call of [recordFailure] on a stored profile. *)
Lemma recordFailure_step w userId m :
  storedMfa w userId = Some m ->
  let config := configOf w in
  let attempts := (failedAttempts m + 1)%Z in
  let lockTime := (now w + lockoutDuration config * 60 * 1000)%Z in
  exists r w' m',
    MfaAuthModel.recordFailure userId w = (Return r, w')
    /\ storedMfa w' userId = Some m'
    /\ configOf w' = config
    /\ MfaAuthModel.fr_attempts r = attempts
    /\ failedAttempts m' = attempts
    /\ ((maxFailedAttempts config <= attempts)%Z ->
        MfaAuthModel.fr_locked r = true
        /\ MfaAuthModel.fr_lockedUntil r = Some lockTime
        /\ lockedUntil m' = Some lockTime)
    /\ ((attempts < maxFailedAttempts config)%Z ->
        MfaAuthModel.fr_locked r = false
        /\ MfaAuthModel.fr_lockedUntil r = None
        /\ lockedUntil m' = lockedUntil m).
Proof.
  intros Hm config attempts lockTime.
  destruct (storedMfa_inv w userId m Hm) as (users & u & Hw & Hu & Hmfa).
  unfold MfaAuthModel.recordFailure. run_in Hw. rewrite getConfig_spec. run_in Hw.
  rewrite Hu. cbn [MfaAuthModel.failedAttemptsOf]. rewrite Hmfa.
  fold config attempts.
  destruct (Z.leb_spec (maxFailedAttempts config) attempts) as [Hmax|Hmax].
  - monad_simpl. fold lockTime. cbn [app].
    destruct (storedMfa_updateById w users u userId
                [set_failedAttempts attempts; set_lockedUntil (Some lockTime)] Hw Hu)
      as (w' & -> & Hstored & Hplugin & _).
    eexists _, w', _. split; [reflexivity|]. split; [exact Hstored|].
    split; [now apply configOf_ext|]. cbn. repeat split; try reflexivity; lia.
  - monad_simpl.
    destruct (storedMfa_updateById w users u userId
                [set_failedAttempts attempts] Hw Hu)
      as (w' & -> & Hstored & Hplugin & _).
    eexists _, w', _. split; [reflexivity|]. split; [exact Hstored|].
    split; [now apply configOf_ext|]. rewrite Hmfa. cbn.
    repeat split; try reflexivity; lia.
Qed.

(** One call of [recordSuccess] on a stored profile. *)
Lemma recordSuccess_step w userId m :
  storedMfa w userId = Some m ->
  exists w' m',
    MfaAuthModel.recordSuccess userId w = (Return tt, w')
    /\ storedMfa w' userId = Some m'
    /\ failedAttempts m' = 0%Z
    /\ lockedUntil m' = None
    /\ lastUsedAt m' = Some (now w).
Proof.
  intros Hm.
  destruct (storedMfa_inv w userId m Hm) as (users & u & Hw & Hu & Hmfa).
  unfold MfaAuthModel.recordSuccess. run_in Hw.
  destruct (storedMfa_updateById w users u userId
              [set_lastUsedAt (Some (now w)); set_failedAttempts 0; set_lockedUntil None]
              Hw Hu) as (w' & -> & Hstored & _).
  eexists w', _. split; [reflexivity|]. split; [exact Hstored|].
  cbn. repeat split.
Qed.

(** Consecutive failures below the threshold count up and do not lock. *)
Lemma recordFailures_below times : forall w userId m,
  storedMfa w userId = Some m ->
  (failedAttempts m + Z.of_nat (length times) < maxFailedAttempts (configOf w))%Z ->
  exists results w' m',
    recordFailures userId times w = (results, w')
    /\ storedMfa w' userId = Some m'
    /\ configOf w' = configOf w
    /\ failedAttempts m' = (failedAttempts m + Z.of_nat (length times))%Z
    /\ length results = length times
    /\ forall (i : nat) r, results !! i = Some r ->
         exists fr, r = Return fr /\ MfaAuthModel.fr_locked fr = false
                    /\ MfaAuthModel.fr_lockedUntil fr = None
                    /\ MfaAuthModel.fr_attempts fr = (failedAttempts m + Z.of_nat i + 1)%Z.
Proof.
  induction times as [|t rest IH]; intros w userId m Hm Hbelow.
  - exists [], w, m. cbn. repeat split; try lia; try exact Hm.
    intros i r Hi. discriminate Hi.
  - cbn [recordFailures].
    destruct (recordFailure_step (atTime t w) userId m Hm)
      as (r & w1 & m1 & -> & Hm1 & Hc1 & Hattempts & Hcount & _ & Hnolock).
    rewrite configOf_atTime in Hc1, Hnolock.
    cbn [length] in Hbelow.
    destruct (IH w1 userId m1 Hm1) as (rs & w2 & m2 & -> & Hm2 & Hc2 & Hcount2 & Hlen & Hrs).
    { rewrite Hc1, Hcount. lia. }
    exists (Return r :: rs), w2, m2. split; [reflexivity|]. split; [exact Hm2|].
    split; [congruence|]. split; [cbn [length]; lia|]. split; [cbn; lia|].
    intros [|i] r' Hi.
    + injection Hi as <-. exists r. destruct Hnolock as (? & ? & _); [lia|].
      repeat split; try assumption. lia.
    + destruct (Hrs i r' Hi) as (fr & -> & ? & ? & ?). exists fr.
      repeat split; try assumption. lia.
Qed.

Lemma recordFailures_snoc userId times t : forall w,
  recordFailures userId (times ++ [t]) w
  = let (rs, w1) := recordFailures userId times w in
    let (r, w2) := MfaAuthModel.recordFailure userId (atTime t w1) in
    (rs ++ [r], w2).
Proof.
  induction times as [|t0 rest IH]; intros w; cbn [recordFailures app].
  - now destruct (MfaAuthModel.recordFailure userId (atTime t w)).
  - destruct (MfaAuthModel.recordFailure userId (atTime t0 w)) as [r0 w0].
    rewrite IH. destruct (recordFailures userId rest w0) as [rs w1].
    now destruct (MfaAuthModel.recordFailure userId (atTime t w1)).
Qed.

(** C7. On a stored profile [recordFailure] counts one more attempt and
    stores the count; from the threshold [maxFailedAttempts] on it stores
    [lockedUntil = now + lockoutDuration] minutes and reports locked,
    below it it does not write [lockedUntil] and reports not locked.
    Hence, from a fresh profile, the last of exactly [maxFailedAttempts]
    consecutive calls reports locked while the earlier ones do not, and a
    success after fewer failures stores a count of 0. *)
Theorem recordFailure_locks_at_threshold :
  (forall w userId m,
      storedMfa w userId = Some m ->
      let config := configOf w in
      let attempts := (failedAttempts m + 1)%Z in
      let lockTime := (now w + lockoutDuration config * 60 * 1000)%Z in
      exists r w' m',
        MfaAuthModel.recordFailure userId w = (Return r, w')
        /\ storedMfa w' userId = Some m'
        /\ MfaAuthModel.fr_attempts r = attempts
        /\ failedAttempts m' = attempts
        /\ ((maxFailedAttempts config <= attempts)%Z ->
            MfaAuthModel.fr_locked r = true
            /\ MfaAuthModel.fr_lockedUntil r = Some lockTime
            /\ lockedUntil m' = Some lockTime)
        /\ ((attempts < maxFailedAttempts config)%Z ->
            MfaAuthModel.fr_locked r = false
            /\ MfaAuthModel.fr_lockedUntil r = None
            /\ lockedUntil m' = lockedUntil m))
  /\ (forall w userId m times t,
      storedMfa w userId = Some m ->
      failedAttempts m = 0%Z ->
      Z.of_nat (length (times ++ [t])) = maxFailedAttempts (configOf w) ->
      let lockTime := (t + lockoutDuration (configOf w) * 60 * 1000)%Z in
      exists earlier r w' m',
        recordFailures userId (times ++ [t]) w = (earlier ++ [Return r], w')
        /\ (forall e, In e earlier ->
              exists fr, e = Return fr /\ MfaAuthModel.fr_locked fr = false)
        /\ MfaAuthModel.fr_locked r = true
        /\ MfaAuthModel.fr_lockedUntil r = Some lockTime
        /\ MfaAuthModel.fr_attempts r = maxFailedAttempts (configOf w)
        /\ storedMfa w' userId = Some m'
        /\ lockedUntil m' = Some lockTime)
  /\ (forall w userId m times t,
      storedMfa w userId = Some m ->
      failedAttempts m = 0%Z ->
      (Z.of_nat (length times) < maxFailedAttempts (configOf w))%Z ->
      exists results w1 w2 m1 m2,
        recordFailures userId times w = (results, w1)
        /\ storedMfa w1 userId = Some m1
        /\ failedAttempts m1 = Z.of_nat (length times)
        /\ MfaAuthModel.recordSuccess userId (atTime t w1) = (Return tt, w2)
        /\ storedMfa w2 userId = Some m2
        /\ failedAttempts m2 = 0%Z
        /\ lockedUntil m2 = None).
Proof.
  split; [|split].
  - intros w userId m Hm config attempts lockTime.
    destruct (recordFailure_step w userId m Hm)
      as (r & w' & m' & Hr & Hm' & _ & Hrest).
    now exists r, w', m'.
  - intros w userId m times t Hm Hfresh Hlen lockTime.
    rewrite length_app in Hlen. cbn [length] in Hlen.
    destruct (recordFailures_below times w userId m Hm)
      as (rs & w1 & m1 & Hrs & Hm1 & Hc1 & Hcount1 & _ & Hearlier); [lia|].
    destruct (recordFailure_step (atTime t w1) userId m1 Hm1)
      as (r & w2 & m2 & Hr & Hm2 & _ & Hattempts & _ & Hlock & _).
    rewrite configOf_atTime, Hc1 in Hlock. cbn [now atTime] in Hlock.
    destruct Hlock as (Hl1 & Hl2 & Hl3); [lia|].
    exists rs, r, w2, m2. rewrite recordFailures_snoc, Hrs, Hr.
    split; [reflexivity|]. split.
    { intros e He. apply list_elem_of_In, list_elem_of_lookup in He as [i Hi].
      destruct (Hearlier i e Hi) as (fr & -> & Hfr & _). now exists fr. }
    repeat split; try assumption. lia.
  - intros w userId m times t Hm Hfresh Hlen.
    destruct (recordFailures_below times w userId m Hm)
      as (rs & w1 & m1 & Hrs & Hm1 & _ & Hcount1 & _); [lia|].
    destruct (recordSuccess_step (atTime t w1) userId m1 Hm1)
      as (w2 & m2 & Hs & Hm2 & Hzero & Hunlocked & _).
    exists rs, w1, w2, m1, m2. repeat split; try assumption. lia.
Qed.

Lemma recordFailure_locks_at_threshold_witness :
  let lockTime := (1700000605000 + 15 * 60 * 1000)%Z in
  (exists earlier r w' m',
     recordFailures (js "u1")
       ([1700000601000; 1700000602000; 1700000603000; 1700000604000]
        ++ [1700000605000])%Z world0
     = (earlier ++ [Return r], w')
     /\ (forall e, In e earlier ->
           exists fr, e = Return fr /\ MfaAuthModel.fr_locked fr = false)
     /\ MfaAuthModel.fr_locked r = true
     /\ MfaAuthModel.fr_lockedUntil r = Some lockTime
     /\ MfaAuthModel.fr_attempts r = 5%Z
     /\ storedMfa w' (js "u1") = Some m'
     /\ lockedUntil m' = Some lockTime)
  /\ (exists results w1 w2 m1 m2,
     recordFailures (js "u1") [1700000601000; 1700000602000]%Z world0 = (results, w1)
     /\ storedMfa w1 (js "u1") = Some m1
     /\ failedAttempts m1 = 2%Z
     /\ MfaAuthModel.recordSuccess (js "u1") (atTime 1700000603000 w1) = (Return tt, w2)
     /\ storedMfa w2 (js "u1") = Some m2
     /\ failedAttempts m2 = 0%Z
     /\ lockedUntil m2 = None).
Proof.
  destruct recordFailure_locks_at_threshold as (_ & Hconsecutive & Hreset).
  split.
  - apply (Hconsecutive world0 (js "u1") aliceMfa
             [1700000601000; 1700000602000; 1700000603000; 1700000604000]%Z
             1700000605000%Z); reflexivity.
  - apply (Hreset world0 (js "u1") aliceMfa
             [1700000601000; 1700000602000]%Z 1700000603000%Z); reflexivity.
Defined.

(** ** Disabling MFA *)

Section DisableFacts.
Context {H : Host}.

Lemma isMfaRequired_enabled user w :
  MfaAuthModel.mfaEnabled user = true ->
  MfaAuthModel.isMfaRequired user w
  = (Return {| MfaAuthModel.required := true;
               MfaAuthModel.reason := MfaAuthModel.Enabled |}, w).
Proof.
  intros Hen. unfold MfaAuthModel.isMfaRequired, bind.
  rewrite getConfig_spec, Hen. reflexivity.
Qed.

(** For an enabled user the policy check of [apiDisable] never applies:
    whatever the policy, the request passes on to the password check. *)
Lemma apiDisable_enabled req user password w users stored :
  MfaAuthController.req_user req = Some user ->
  MfaAuthController.body_password req = Some password -> password <> [] ->
  MfaAuthModel.mfaEnabled user = true ->
  UserModel w = Some users -> users !! _id user = Some stored ->
  if verifyPassword password (passwordHash user)
  then exists w' m',
         MfaAuthController.apiDisable req w
         = (Return MfaAuthController.DisableSucceeded, w')
         /\ storedMfa w' (_id user) = Some m'
         /\ enabled m' = false /\ secret m' = [] /\ backupCodes m' = []
  else MfaAuthController.apiDisable req w
       = (Return MfaAuthController.InvalidPassword, w).
Proof.
  intros Hu Hp Hne Hen Hw Hs.
  unfold MfaAuthController.apiDisable. rewrite Hu, Hp.
  destruct password as [|c password]; [congruence|].
  cbn [MfaAuthController.noCode falsy from_option]. unfold id.
  monad_simpl. rewrite (isMfaRequired_enabled user w Hen).
  cbn [MfaAuthModel.required MfaAuthModel.reason andb negb].
  rewrite bool_decide_eq_true_2 by reflexivity. cbn [negb andb].
  run_in Hw.
  destruct (verifyPassword (c :: password) (passwordHash user)); cbn [negb];
    [|reflexivity].
  unfold MfaAuthModel.disableMfa. run_in Hw.
  destruct (storedMfa_updateById w users stored (_id user)
              [set_enabled false; set_secret []; set_backupCodes [];
               set_enrolledAt None; set_failedAttempts 0; set_lockedUntil None]
              Hw Hs) as (w' & -> & Hstored & _).
  eexists w', _. split; [reflexivity|]. split; [exact Hstored|].
  cbn. repeat split.
Qed.

End DisableFacts.

(** C1 (what the code does). A user with [mfa.enabled = true] is never
    answered [PolicyForbidsDisable], under any policy: with the right
    password [apiDisable] succeeds and clears the stored profile. *)
Theorem apiDisable_ignores_policy_for_enabled_user (H : Host) req user password w users stored :
  MfaAuthController.req_user req = Some user ->
  MfaAuthController.body_password req = Some password -> password <> [] ->
  MfaAuthModel.mfaEnabled user = true ->
  UserModel w = Some users -> users !! _id user = Some stored ->
  verifyPassword password (passwordHash user) = true ->
  exists w' m',
    MfaAuthController.apiDisable req w
    = (Return MfaAuthController.DisableSucceeded, w')
    /\ MfaAuthController.DisableSucceeded <> MfaAuthController.PolicyForbidsDisable
    /\ storedMfa w' (_id user) = Some m'
    /\ enabled m' = false /\ secret m' = [] /\ backupCodes m' = [].
Proof.
  intros Hu Hp Hne Hen Hw Hs Hv.
  pose proof (apiDisable_enabled req user password w users stored Hu Hp Hne Hen Hw Hs)
    as Hrun.
  rewrite Hv in Hrun. destruct Hrun as (w' & m' & Hr & Hm & He & Hsec & Hcodes).
  exists w', m'. repeat split; try assumption. discriminate.
Qed.

(** The failing input: policy 'required-for-roles' with required role 'root',
    Alice holds that role and has MFA enabled; the policy requires MFA of
    her, and her request to disable it succeeds. *)
Lemma apiDisable_ignores_policy_for_enabled_user_witness :
  mfaPolicy (configOf world0) = js "required-for-roles"
  /\ rolesIntersect alice (configOf world0)
  /\ MfaAuthModel.mfaEnabled alice = true
  /\ exists w' m',
       @MfaAuthController.apiDisable standInHost aliceDisables world0
       = (Return MfaAuthController.DisableSucceeded, w')
       /\ MfaAuthController.DisableSucceeded <> MfaAuthController.PolicyForbidsDisable
       /\ storedMfa w' (js "u1") = Some m'
       /\ enabled m' = false /\ secret m' = [] /\ backupCodes m' = [].
Proof.
  split; [reflexivity|]. split; [|split; [reflexivity|]].
  { exists (js "root"). split; left; reflexivity. }
  apply (apiDisable_ignores_policy_for_enabled_user standInHost aliceDisables alice
           (js "correct horse") world0 {[ js "u1" := alice ]} alice);
    try reflexivity. discriminate.
Defined.

(** ** The verification step at login *)

Section StepFacts.
Context {C : NodeCrypto} {H : Host}.

Lemma isLocked_unlocked user w :
  (forall lim, MfaAuthModel.lockedUntilOf (Some user) = Some lim -> (lim <= now w)%Z) ->
  exists r, MfaAuthModel.isLocked (Some user) w = (Return r, w)
            /\ MfaAuthModel.locked r = false.
Proof.
  intros Hun. unfold MfaAuthModel.isLocked.
  destruct (MfaAuthModel.lockedUntilOf (Some user)) as [lockDate|].
  - specialize (Hun lockDate eq_refl). monad_simpl.
    destruct (Z.leb_spec lockDate (now w)); [|lia].
    eexists. split; reflexivity.
  - eexists. split; reflexivity.
Qed.

Lemma useBackupCode_not_found w users userId code :
  UserModel w = Some users ->
  MfaAuthModel.verifyBackupCode code (storedBackupCodes w userId) = Return (-1)%Z ->
  MfaAuthModel.useBackupCode userId code w = (Return false, w).
Proof.
  intros Hw Hv. unfold storedBackupCodes in Hv. rewrite Hw in Hv.
  unfold MfaAuthModel.useBackupCode. run_in Hw. now rewrite Hv.
Qed.


(** The path of a step that carries a code for an unlocked user, up to
    the choice between the two kinds of code. *)
Lemma onAuthValidateStep_unlocked context w user code :
  MfaAuthController.step context = js "mfa"
  \/ MfaAuthController.step context = js "mfa-backup" ->
  MfaAuthController.stepData context = Some {| MfaAuthController.code := Some code |} ->
  code <> [] ->
  MfaAuthController.user context = Some user ->
  (forall lim, MfaAuthModel.lockedUntilOf (Some user) = Some lim -> (lim <= now w)%Z) ->
  MfaAuthController.onAuthValidateStep context w
  = tryCatch
      (if bool_decide (MfaAuthController.step context = js "mfa-backup") then
         let cleanCode := toUpperCase (removeWhiteSpaceAndDashes code) in
         let! isValid := MfaAuthModel.useBackupCode
                           (MfaAuthController.pending_userId
                              (MfaAuthController.pending context)) cleanCode in
         if isValid then
           let! _ := MfaAuthModel.recordSuccess (_id user) in
           ret (MfaAuthController.accept context)
         else
           let! _ := MfaAuthModel.recordFailure (_id user) in
           ret (MfaAuthController.reject context MfaAuthController.InvalidBackupCode)
       else
         let! secret := MfaAuthModel.getDecryptedSecret user in
         if falsy secret
         then ret (MfaAuthController.reject context MfaAuthController.MfaNotConfigured)
         else
           let cleanCode := removeWhiteSpace code in
           let! date := Date_now in
           let isValid := authenticator_verify date cleanCode secret in
           if isValid then
             let! _ := MfaAuthModel.recordSuccess (_id user) in
             ret (MfaAuthController.accept context)
           else
             let! _ := MfaAuthModel.recordFailure (_id user) in
             ret (MfaAuthController.reject context MfaAuthController.InvalidMfaCode))
      (fun _ => ret (MfaAuthController.reject context
                       MfaAuthController.MfaVerificationFailed)) w.
Proof.
  intros Hstep Hdata Hne Huser Hun. unfold MfaAuthController.onAuthValidateStep.
  assert (negb (bool_decide (MfaAuthController.step context = js "mfa"))
          && negb (bool_decide (MfaAuthController.step context = js "mfa-backup"))
          = false) as ->.
  { destruct Hstep as [-> | ->]; reflexivity. }
  rewrite Hdata, Huser. cbn [MfaAuthController.code MfaAuthController.noCode].
  destruct code as [|c code]; [congruence|]. cbn [falsy from_option]. unfold id.
  destruct (isLocked_unlocked user w Hun) as (r & Hr & Hlocked).
  unfold tryCatch at 1 2. unfold bind at 1 5. rewrite Hr, Hlocked. reflexivity.
Qed.

End StepFacts.


Lemma aliceSecret_decrypts :
  @MfaAuthModel.getDecryptedSecret standInCrypto alice world0
  = (Return (js "JBSWY3DPEHPK3PXP"), world0).
Proof. vm_compute. reflexivity. Qed.



(** * Part III: the rest of the code *)

(** ** Normalising codes *)

Lemma toUpperCaseUnit_idemp u : toUpperCaseUnit (toUpperCaseUnit u) = toUpperCaseUnit u.
Proof.
  unfold toUpperCaseUnit. destruct (Utf8.between 97 122 u) eqn:E; [|now rewrite E].
  unfold Utf8.between in E. apply andb_prop in E as [E1 E2].
  apply N.leb_le in E1, E2. rewrite between_false; [reflexivity | lia].
Qed.

Lemma toUpperCase_idemp s : toUpperCase (toUpperCase s) = toUpperCase s.
Proof.
  unfold toUpperCase. rewrite map_map. apply map_ext. apply toUpperCaseUnit_idemp.
Qed.

Lemma toUpperCaseUnit_dash u : toUpperCaseUnit u = dash <-> u = dash.
Proof. unfold toUpperCaseUnit, Utf8.between, dash. split_cmp; cbn; lia. Qed.

Lemma removeDashes_toUpperCase s :
  removeDashes (toUpperCase s) = toUpperCase (removeDashes s).
Proof.
  unfold removeDashes, toUpperCase. induction s as [|u s IH]; [reflexivity|].
  cbn [map]. destruct (decide (u = dash)) as [Hu|Hu].
  - rewrite !filter_cons_False; [exact IH | now intros Hne | ].
    intros Hne. apply Hne. now apply toUpperCaseUnit_dash.
  - rewrite !filter_cons_True; [cbn [map]; now rewrite IH | exact Hu |].
    intros Hd. apply Hu. now apply toUpperCaseUnit_dash.
Qed.

Lemma removeDashes_removeWhiteSpaceAndDashes s :
  removeDashes (removeWhiteSpaceAndDashes s) = removeWhiteSpaceAndDashes s.
Proof.
  unfold removeDashes, removeWhiteSpaceAndDashes.
  induction s as [|u s IH]; [reflexivity|].
  destruct (decide (isWhiteSpace u = false /\ u <> dash)) as [Hk|Hk].
  - rewrite (filter_cons_True _ u s Hk).
    rewrite filter_cons_True by tauto. now rewrite IH.
  - now rewrite (filter_cons_False _ u s Hk).
Qed.

Lemma isWhiteSpace_letter u : 65 <= u <= 122 -> isWhiteSpace u = false.
Proof.
  intros Hu. unfold isWhiteSpace, Utf8.between.
  repeat match goal with
  | |- context [N.leb ?a ?b] => destruct (N.leb_spec a b); try lia
  | |- context [N.eqb ?a ?b] => destruct (N.eqb_spec a b); try lia
  end; reflexivity.
Qed.

Lemma sameLetter_not_whitespace u v :
  sameLetter u v -> isWhiteSpace v = false -> isWhiteSpace u = false.
Proof.
  intros [->|[[Hu ->]|[Hv ->]]] Hw; [exact Hw| |];
    apply isWhiteSpace_letter; lia.
Qed.

Lemma typedAs_normalized typed code :
  typedAs typed code ->
  toUpperCase (removeWhiteSpaceAndDashes typed) = toUpperCase (removeDashes code).
Proof.
  unfold removeWhiteSpaceAndDashes, removeDashes.
  induction 1 as [|u typed code Hu _ IH|typed code _ IH|typed code _ IH
                  |u v typed code Huv Hv _ IH].
  - reflexivity.
  - rewrite filter_cons_False; [exact IH|]. intros [Hn _]. congruence.
  - rewrite filter_cons_False; [exact IH|]. now intros [_ Hn].
  - rewrite (filter_cons_False _ dash); [exact IH|]. now intros Hn.
  - pose proof (sameLetter_not_whitespace u v Huv Hv) as Hwu.
    destruct (decide (u = dash)) as [Hud|Hud].
    + pose proof (proj1 (sameLetter_dash u v Huv) Hud) as Hvd. subst u v.
      rewrite filter_cons_False by (now intros [_ Hn]).
      rewrite (filter_cons_False _ dash) by (now intros Hn). exact IH.
    + assert (v <> dash) as Hvd by (now rewrite <- (sameLetter_dash u v Huv)).
      rewrite filter_cons_True by (now split).
      rewrite (filter_cons_True _ v) by exact Hvd.
      cbn [toUpperCase map]. f_equal; [now apply sameLetter_toUpperCase | exact IH].
Qed.

(** What the backup step hashes for a typed code is the hash of the code. *)
Lemma typedAs_hashBackupCode typed code :
  typedAs typed code ->
  MfaAuthModel.hashBackupCode (toUpperCase (removeWhiteSpaceAndDashes typed))
  = MfaAuthModel.hashBackupCode code.
Proof.
  intros Ht. unfold MfaAuthModel.hashBackupCode.
  rewrite removeDashes_toUpperCase, toUpperCase_idemp,
    removeDashes_removeWhiteSpaceAndDashes.
  now rewrite (typedAs_normalized typed code Ht).
Qed.

(** ** Generating backup codes *)

Lemma hex_digit_upper n : n < 16 -> isUpperHexDigit (toUpperCaseUnit (Hex.digit n)).
Proof.
  intros Hn. unfold isUpperHexDigit, toUpperCaseUnit, Hex.digit, Utf8.between.
  destruct (N.ltb_spec n 10); split_cmp; cbn; lia.
Qed.

Lemma randomPart_format entropy pos :
  let part := toUpperCase (Hex.encode (MfaAuthModel.randomBytes entropy pos 2)) in
  length part = 4%nat /\ Forall isUpperHexDigit part.
Proof.
  cbn [toUpperCase Hex.encode MfaAuthModel.randomBytes flat_map map seq
       Hex.of_byte app length].
  pose proof (to_N_lt_256 (entropy pos)). pose proof (to_N_lt_256 (entropy (S pos))).
  split; [reflexivity|].
  repeat (apply List.Forall_cons; [apply hex_digit_upper; lia|]).
  apply List.Forall_nil.
Qed.

Lemma generateBackupCodesFrom_spec entropy n : forall i,
  let result := MfaAuthModel.generateBackupCodesFrom entropy i n in
  length result.1 = n
  /\ result.2 = map MfaAuthModel.hashBackupCode result.1
  /\ Forall isBackupCodeFormat result.1.
Proof.
  induction n as [|n IH]; intros i.
  - cbn [MfaAuthModel.generateBackupCodesFrom fst snd map length].
    repeat split. apply List.Forall_nil.
  - cbn [MfaAuthModel.generateBackupCodesFrom]. specialize (IH (S i)).
    destruct (MfaAuthModel.generateBackupCodesFrom entropy (S i) n) as [codes hashes].
    cbn [fst snd] in *. destruct IH as (Hlen & Hhashes & Hformat).
    split; [cbn [length]; now rewrite Hlen|].
    split; [cbn [map]; now rewrite Hhashes|].
    apply List.Forall_cons; [|exact Hformat].
    destruct (randomPart_format entropy (4 * i)) as [Hl1 Hf1].
    destruct (randomPart_format entropy (4 * i + 2)) as [Hl2 Hf2].
    eexists _, _. split; [reflexivity|]. repeat split; assumption.
Qed.

Lemma generateBackupCodes_spec (entropy : nat -> byte) (count : Z) :
  let result := MfaAuthModel.generateBackupCodes entropy count in
  length result.1 = Z.to_nat count
  /\ result.2 = map MfaAuthModel.hashBackupCode result.1
  /\ Forall isBackupCodeFormat result.1.
Proof.
  unfold MfaAuthModel.generateBackupCodes.
  apply (generateBackupCodesFrom_spec entropy (Z.to_nat count) 0).
Qed.

Lemma hashes_wellformed (codes : list jsstring) :
  Forall (fun h => byteLength h = 64%nat) (map MfaAuthModel.hashBackupCode codes).
Proof.
  apply Forall_map, Forall_forall. intros code _. apply hashBackupCode_byteLength.
Qed.

(** X1. [generateBackupCodes(count)] returns [count] codes (none for a
    count below 1), every one of the form XXXX-XXXX in upper-case
    hexadecimal digits, and beside them, in the same order, the hash of
    each code, every hash 64 bytes long. *)
Theorem generateBackupCodes_format (entropy : nat -> byte) (count : Z) :
  let result := MfaAuthModel.generateBackupCodes entropy count in
  length result.1 = Z.to_nat count
  /\ result.2 = map MfaAuthModel.hashBackupCode result.1
  /\ Forall isBackupCodeFormat result.1
  /\ Forall (fun h => byteLength h = 64%nat) result.2.
Proof.
  intros result.
  destruct (generateBackupCodes_spec entropy count) as (Hlen & Hhashes & Hformat).
  fold result in Hlen, Hhashes, Hformat.
  repeat split; try assumption. rewrite Hhashes. apply hashes_wellformed.
Qed.

(** X2. Every code [generateBackupCodes] returned is found among the
    hashes it returned, however the user types it (lower case, without
    the dash, with spaces): at the first index holding its hash, which is
    its own index when the hashes are pairwise distinct. *)
Theorem generateBackupCodes_verify (entropy : nat -> byte) (count : Z)
    (i : nat) (code typed : jsstring) :
  let result := MfaAuthModel.generateBackupCodes entropy count in
  result.1 !! i = Some code ->
  typedAs typed code ->
  exists k : nat,
    (k <= i)%nat
    /\ MfaAuthModel.verifyBackupCode
         (toUpperCase (removeWhiteSpaceAndDashes typed)) result.2
       = Return (Z.of_nat k)
    /\ result.2 !! k = Some (MfaAuthModel.hashBackupCode code)
    /\ (NoDup result.2 -> k = i).
Proof.
  intros result Hi Htyped.
  destruct (generateBackupCodes_spec entropy count) as (_ & Hhashes & _).
  fold result in Hhashes.
  assert (Forall (fun h => byteLength h = 64%nat) result.2) as Hwf.
  { rewrite Hhashes. apply hashes_wellformed. }
  assert (result.2 !! i = Some (MfaAuthModel.hashBackupCode code)) as Hih.
  { rewrite Hhashes, list_lookup_fmap, Hi. reflexivity. }
  pose proof (typedAs_hashBackupCode typed code Htyped) as Hsame.
  destruct (verifyBackupCode_wellformed
              (toUpperCase (removeWhiteSpaceAndDashes typed)) result.2 Hwf)
    as [[_ Hnot]|(k & Hv & Hk & Hfirst)]; rewrite Hsame in *.
  - exfalso. apply Hnot. apply list_elem_of_lookup. now exists i.
  - exists k. assert (k <= i)%nat as Hle.
    { destruct (decide (k <= i)%nat) as [|Hgt]; [assumption|].
      exfalso. apply (Hfirst i); [lia | exact Hih]. }
    repeat split; try assumption.
    intros Hnd. apply (NoDup_lookup _ _ _ _ Hnd Hk Hih).
Qed.

Ltac typedAs_steps :=
  repeat first
    [ apply typedAs_nil
    | apply typedAs_space; [reflexivity|]
    | apply typedAs_unit; [solve [unfold sameLetter; lia] | reflexivity |]
    | apply typedAs_no_dash
    | apply typedAs_dash ].

Lemma generateBackupCodes_verify_witness :
  let result := MfaAuthModel.generateBackupCodes someEntropy 3 in
  result.1 !! 1%nat = Some (js "9FC4-E90E")
  /\ exists k : nat,
       (k <= 1)%nat
       /\ MfaAuthModel.verifyBackupCode
            (toUpperCase (removeWhiteSpaceAndDashes (js " 9fc4 e90e"))) result.2
          = Return (Z.of_nat k)
       /\ result.2 !! k = Some (MfaAuthModel.hashBackupCode (js "9FC4-E90E"))
       /\ (NoDup result.2 -> k = 1%nat).
Proof.
  intros result.
  assert (result.1 !! 1%nat = Some (js "9FC4-E90E")) as Hcode
    by (vm_compute; reflexivity).
  split; [exact Hcode|].
  apply (generateBackupCodes_verify someEntropy 3 1 (js "9FC4-E90E") (js " 9fc4 e90e") Hcode).
  cbv [js list_ascii_of_string map N_of_ascii N_of_digits N.add N.mul].
  typedAs_steps.
Defined.

(** ** Displaying a backup code *)

Lemma isAlphaNumeric_range u :
  AuthMfaUtils.isAlphaNumeric u = true
  <-> (48 <= u <= 57 \/ 65 <= u <= 90 \/ 97 <= u <= 122).
Proof.
  unfold AuthMfaUtils.isAlphaNumeric, Utf8.between.
  split_cmp; cbn; split; intros; try lia; try discriminate; reflexivity.
Qed.

Lemma isAlphaNumeric_toUpperCaseUnit u :
  AuthMfaUtils.isAlphaNumeric u = true ->
  AuthMfaUtils.isAlphaNumeric (toUpperCaseUnit u) = true
  /\ toUpperCaseUnit (toUpperCaseUnit u) = toUpperCaseUnit u
  /\ toUpperCaseUnit u <> dash.
Proof.
  intros Hu. apply isAlphaNumeric_range in Hu.
  split; [|split; [apply toUpperCaseUnit_idemp|]].
  - apply isAlphaNumeric_range. unfold toUpperCaseUnit, Utf8.between.
    split_cmp; cbn; lia.
  - unfold toUpperCaseUnit, Utf8.between, dash. split_cmp; cbn; lia.
Qed.

(** The cleaned code of [formatBackupCode]: alphanumeric, upper case, no
    dash; cleaning it again changes nothing. *)
Lemma clean_fixed code :
  let clean := toUpperCase (filter (fun u => AuthMfaUtils.isAlphaNumeric u = true) code) in
  filter (fun u => AuthMfaUtils.isAlphaNumeric u = true) clean = clean
  /\ toUpperCase clean = clean
  /\ removeDashes clean = clean.
Proof.
  cbn zeta. unfold removeDashes, toUpperCase.
  induction code as [|u code (IH1 & IH2 & IH3)]; [now repeat split|].
  destruct (decide (AuthMfaUtils.isAlphaNumeric u = true)) as [Hu|Hu].
  - rewrite (filter_cons_True _ u code Hu). cbn [map].
    destruct (isAlphaNumeric_toUpperCaseUnit u Hu) as (Ha & Hi & Hd).
    rewrite !filter_cons_True by assumption. cbn [map].
    now rewrite IH1, IH2, IH3, Hi.
  - rewrite (filter_cons_False _ u code Hu). now repeat split.
Qed.

Lemma filter_take_drop_dash (clean : jsstring) :
  filter (fun u => AuthMfaUtils.isAlphaNumeric u = true) clean = clean ->
  filter (fun u => AuthMfaUtils.isAlphaNumeric u = true)
    (take 4 clean ++ dash :: drop 4 clean)
  = filter (fun u => AuthMfaUtils.isAlphaNumeric u = true) clean.
Proof.
  intros _. rewrite filter_app, filter_cons_False by (vm_compute; discriminate).
  now rewrite <- filter_app, take_drop.
Qed.

Lemma formatBackupCode_cases (code : jsstring) :
  let alnum := filter (fun u => AuthMfaUtils.isAlphaNumeric u = true) code in
  (length alnum <> 8%nat -> AuthMfaUtils.formatBackupCode code = code)
  /\ (length alnum = 8%nat ->
      AuthMfaUtils.formatBackupCode code
      = take 4 (toUpperCase alnum) ++ dash :: drop 4 (toUpperCase alnum)).
Proof.
  intros alnum.
  assert (length (toUpperCase alnum) = length alnum) as Hlen by apply length_map.
  unfold AuthMfaUtils.formatBackupCode. fold alnum. split; intros H8.
  - now rewrite bool_decide_eq_false_2 by congruence.
  - now rewrite bool_decide_eq_true_2 by congruence.
Qed.

(** X3. [formatBackupCode] leaves a code alone unless it has exactly 8
    letters and digits, and then displays these in upper case with a dash
    after the fourth; formatting twice is formatting once. *)
Theorem formatBackupCode_idempotent (code : jsstring) :
  let alnum := filter (fun u => AuthMfaUtils.isAlphaNumeric u = true) code in
  AuthMfaUtils.formatBackupCode (AuthMfaUtils.formatBackupCode code)
  = AuthMfaUtils.formatBackupCode code
  /\ (length alnum <> 8%nat -> AuthMfaUtils.formatBackupCode code = code)
  /\ (length alnum = 8%nat ->
      AuthMfaUtils.formatBackupCode code
      = take 4 (toUpperCase alnum) ++ dash :: drop 4 (toUpperCase alnum)
      /\ length (AuthMfaUtils.formatBackupCode code) = 9%nat).
Proof.
  intros alnum.
  assert (length (toUpperCase alnum) = length alnum) as Hlen by apply length_map.
  destruct (clean_fixed code) as (Hf & Hu & _). fold alnum in Hf, Hu.
  destruct (formatBackupCode_cases code) as [Hother Height]. fold alnum in Hother, Height.
  destruct (decide (length alnum = 8%nat)) as [H8|H8].
  - pose proof (Height H8) as Hfmt.
    split; [|split; [congruence|]].
    + rewrite Hfmt.
      destruct (formatBackupCode_cases
                  (take 4 (toUpperCase alnum) ++ dash :: drop 4 (toUpperCase alnum)))
        as [_ Hagain].
      cbn zeta in Hagain.
      rewrite (filter_take_drop_dash _ Hf), Hf, Hu in Hagain.
      apply Hagain. congruence.
    + intros _. split; [exact Hfmt|]. rewrite Hfmt, length_app. cbn [length].
      rewrite length_take, length_drop. lia.
  - pose proof (Hother H8) as Hfmt.
    split; [now rewrite !Hfmt|]. split; [now intros _ | congruence].
Qed.

Lemma filter_alnum_format a b :
  Forall isUpperHexDigit a -> Forall isUpperHexDigit b ->
  toUpperCase (filter (fun u => AuthMfaUtils.isAlphaNumeric u = true) (a ++ dash :: b))
  = a ++ b.
Proof.
  intros Ha Hb.
  assert (forall l, Forall isUpperHexDigit l ->
            toUpperCase (filter (fun u => AuthMfaUtils.isAlphaNumeric u = true) l) = l) as Hfix.
  { induction 1 as [|u l Hu _ IH]; [reflexivity|].
    rewrite filter_cons_True by (apply isAlphaNumeric_range; unfold isUpperHexDigit in Hu; lia).
    cbn [toUpperCase map]. f_equal; [|exact IH].
    unfold toUpperCaseUnit. rewrite between_false; [reflexivity|].
    unfold isUpperHexDigit in Hu. lia. }
  rewrite filter_app, filter_cons_False by (vm_compute; discriminate).
  unfold toUpperCase. rewrite map_app. fold (toUpperCase (filter (fun u => AuthMfaUtils.isAlphaNumeric u = true) a)).
  fold (toUpperCase (filter (fun u => AuthMfaUtils.isAlphaNumeric u = true) b)).
  now rewrite !Hfix.
Qed.

Lemma removeDashes_alnum code :
  isAlphaNumericOrDash code ->
  removeDashes code = filter (fun u => AuthMfaUtils.isAlphaNumeric u = true) code.
Proof.
  unfold removeDashes. induction 1 as [|u code Hu _ IH]; [reflexivity|].
  destruct Hu as [Hu| ->].
  - rewrite (filter_cons_True _ u code Hu), filter_cons_True; [now rewrite IH|].
    apply isAlphaNumeric_range in Hu. unfold dash. lia.
  - rewrite filter_cons_False by (now intros Hn).
    rewrite filter_cons_False by (vm_compute; discriminate). exact IH.
Qed.

(** X4. Displaying does not change what the server hashes: a generated
    code is displayed as it is, and for every code made of ASCII letters,
    digits and dashes the formatted code has the hash of the code. *)
Theorem formatBackupCode_keeps_hash (code : jsstring) :
  (isBackupCodeFormat code -> AuthMfaUtils.formatBackupCode code = code)
  /\ (isAlphaNumericOrDash code ->
      MfaAuthModel.hashBackupCode (AuthMfaUtils.formatBackupCode code)
      = MfaAuthModel.hashBackupCode code).
Proof.
  split.
  - intros (a & b & -> & Ha & Hb & Hfa & Hfb).
    unfold AuthMfaUtils.formatBackupCode. rewrite (filter_alnum_format a b Hfa Hfb).
    rewrite bool_decide_eq_true_2 by (rewrite length_app; lia).
    rewrite take_app_length', drop_app_length' by lia. reflexivity.
  - intros Hcode.
    destruct (formatBackupCode_cases code) as (Hother & Height).
    destruct (decide (length (filter (fun u => AuthMfaUtils.isAlphaNumeric u = true) code) = 8%nat))
      as [H8|H8]; [|now rewrite (Hother H8)].
    rewrite (Height H8).
    destruct (clean_fixed code) as (_ & Hu & Hd).
    unfold MfaAuthModel.hashBackupCode.
    assert (removeDashes (take 4 (toUpperCase (filter (fun u => AuthMfaUtils.isAlphaNumeric u = true) code))
                          ++ dash :: drop 4 (toUpperCase (filter (fun u => AuthMfaUtils.isAlphaNumeric u = true) code)))
            = toUpperCase (filter (fun u => AuthMfaUtils.isAlphaNumeric u = true) code)) as ->.
    { unfold removeDashes in *. rewrite filter_app, filter_cons_False by (now intros Hn).
      now rewrite <- filter_app, take_drop. }
    now rewrite Hu, (removeDashes_alnum code Hcode).
Qed.

Lemma formatBackupCode_keeps_hash_witness :
  AuthMfaUtils.formatBackupCode (js "9FC4-E90E") = js "9FC4-E90E"
  /\ MfaAuthModel.hashBackupCode (AuthMfaUtils.formatBackupCode (js "9fc4e90e"))
     = MfaAuthModel.hashBackupCode (js "9fc4e90e").
Proof.
  split.
  - apply (formatBackupCode_keeps_hash (js "9FC4-E90E")).
    exists (js "9FC4"), (js "E90E"). split; [reflexivity|]. split; [reflexivity|].
    split; [reflexivity|].
    cbv [js list_ascii_of_string map N_of_ascii N_of_digits N.add N.mul].
    split; repeat (apply List.Forall_cons; [unfold isUpperHexDigit; lia|]);
      apply List.Forall_nil.
  - apply (formatBackupCode_keeps_hash (js "9fc4e90e")).
    unfold isAlphaNumericOrDash.
    cbv [js list_ascii_of_string map N_of_ascii N_of_digits N.add N.mul].
    repeat (apply List.Forall_cons; [left; reflexivity|]). apply List.Forall_nil.
Defined.

(** ** What the operations leave alone *)

Lemma sameExceptMfaOf_refl userId w : sameExceptMfaOf userId w w.
Proof.
  unfold sameExceptMfaOf. repeat split; try tauto.
  intros u Hu. exists u. now repeat split.
Qed.

Lemma updateById_run w users userId updates :
  UserModel w = Some users ->
  updateById userId updates w
  = (Return tt, setUsers (alter (applyUpdates updates) userId users) w).
Proof. intros Hw. unfold updateById. now rewrite Hw. Qed.

Lemma updateById_frame w users userId updates :
  UserModel w = Some users ->
  sameExceptMfaOf userId w (setUsers (alter (applyUpdates updates) userId users) w).
Proof.
  intros Hw. unfold sameExceptMfaOf, storedUser, setUsers. cbn. rewrite Hw.
  repeat split; try discriminate.
  - intros other Hne. now rewrite lookup_alter_ne.
  - intros Hnone. now rewrite lookup_alter_eq, Hnone.
  - intros u Hu. rewrite lookup_alter_eq, Hu. cbn. eexists. split; [reflexivity|].
    now repeat split.
Qed.

(** Reduce an operation in a world without a store, or with the store
    [Hw : UserModel w = Some users]. *)
Ltac run_without Hw :=
  repeat progress
    (monad_simpl; rewrite ?Hw; rewrite ?bool_decide_eq_true_2 by reflexivity).

Lemma recordSuccess_frame userId w :
  sameExceptMfaOf userId w (MfaAuthModel.recordSuccess userId w).2.
Proof.
  unfold MfaAuthModel.recordSuccess. destruct (UserModel w) as [users|] eqn:Hw.
  - run_in Hw. rewrite (updateById_run w users) by exact Hw. cbn [snd].
    now apply updateById_frame.
  - run_without Hw. apply sameExceptMfaOf_refl.
Qed.

Lemma recordFailure_frame userId w :
  sameExceptMfaOf userId w (MfaAuthModel.recordFailure userId w).2.
Proof.
  unfold MfaAuthModel.recordFailure. destruct (UserModel w) as [users|] eqn:Hw.
  - run_in Hw. rewrite getConfig_spec. run_in Hw.
    destruct (_ <=? _)%Z; run_in Hw; rewrite (updateById_run w users) by exact Hw;
      cbn [snd]; now apply updateById_frame.
  - run_without Hw. apply sameExceptMfaOf_refl.
Qed.

Lemma useBackupCode_frame userId code w :
  sameExceptMfaOf userId w (MfaAuthModel.useBackupCode userId code w).2.
Proof.
  unfold MfaAuthModel.useBackupCode. destruct (UserModel w) as [users|] eqn:Hw.
  - run_in Hw. destruct (MfaAuthModel.verifyBackupCode _ _) as [index|e];
      [|apply sameExceptMfaOf_refl].
    destruct (index =? -1)%Z; [apply sameExceptMfaOf_refl|].
    rewrite (updateById_run w users) by exact Hw. cbn [snd].
    now apply updateById_frame.
  - run_without Hw. apply sameExceptMfaOf_refl.
Qed.

Lemma disableMfa_frame userId w :
  sameExceptMfaOf userId w (MfaAuthModel.disableMfa userId w).2.
Proof.
  unfold MfaAuthModel.disableMfa. destruct (UserModel w) as [users|] eqn:Hw.
  - run_in Hw. rewrite (updateById_run w users) by exact Hw. cbn [snd].
    now apply updateById_frame.
  - run_without Hw. apply sameExceptMfaOf_refl.
Qed.

Lemma enableMfa_frame (C : NodeCrypto) iv entropy userId secret w :
  sameExceptMfaOf userId w (MfaAuthModel.enableMfa iv entropy userId secret w).2.
Proof.
  unfold MfaAuthModel.enableMfa. destruct (UserModel w) as [users|] eqn:Hw.
  - run_in Hw. rewrite getConfig_spec. run_in Hw.
    destruct (MfaAuthModel.generateBackupCodes _ _) as [codes hashes].
    run_in Hw. rewrite (updateById_run w users) by exact Hw. cbn [snd].
    now apply updateById_frame.
  - run_without Hw. apply sameExceptMfaOf_refl.
Qed.

Lemma regenerateBackupCodes_frame entropy userId w :
  sameExceptMfaOf userId w (MfaAuthModel.regenerateBackupCodes entropy userId w).2.
Proof.
  unfold MfaAuthModel.regenerateBackupCodes. destruct (UserModel w) as [users|] eqn:Hw.
  - run_in Hw. rewrite getConfig_spec. run_in Hw.
    destruct (MfaAuthModel.generateBackupCodes _ _) as [codes hashes].
    run_in Hw. rewrite (updateById_run w users) by exact Hw. cbn [snd].
    now apply updateById_frame.
  - run_without Hw. apply sameExceptMfaOf_refl.
Qed.

(** X5. Every operation of the model that writes to the store writes the
    [mfa] sub-document of the user it is called for and nothing else:
    the other users, the other fields of that user, the configuration
    and the clock are as before, and no user appears or disappears. *)
Theorem model_writes_only_mfa_of_user (C : NodeCrypto) (userId : jsstring) (w : World) :
  sameExceptMfaOf userId w (MfaAuthModel.recordSuccess userId w).2
  /\ sameExceptMfaOf userId w (MfaAuthModel.recordFailure userId w).2
  /\ (forall code,
        sameExceptMfaOf userId w (MfaAuthModel.useBackupCode userId code w).2)
  /\ sameExceptMfaOf userId w (MfaAuthModel.disableMfa userId w).2
  /\ (forall iv entropy secret,
        sameExceptMfaOf userId w
          (MfaAuthModel.enableMfa iv entropy userId secret w).2)
  /\ (forall entropy,
        sameExceptMfaOf userId w
          (MfaAuthModel.regenerateBackupCodes entropy userId w).2).
Proof.
  split; [apply recordSuccess_frame|]. split; [apply recordFailure_frame|].
  split; [intros code; apply useBackupCode_frame|].
  split; [apply disableMfa_frame|].
  split; [intros iv entropy secret; apply enableMfa_frame|].
  intros entropy. apply regenerateBackupCodes_frame.
Qed.

(** ** What the operations store *)

Lemma disableMfa_effect w userId m :
  storedMfa w userId = Some m ->
  exists w' m',
    MfaAuthModel.disableMfa userId w = (Return true, w')
    /\ storedMfa w' userId = Some m'
    /\ configOf w' = configOf w
    /\ m' = {| enabled := false; method := method m; secret := [];
               backupCodes := []; enrolledAt := None;
               lastUsedAt := lastUsedAt m; failedAttempts := 0;
               lockedUntil := None; gracePeriodUntil := gracePeriodUntil m |}.
Proof.
  intros Hm. destruct (storedMfa_inv w userId m Hm) as (users & u & Hw & Hu & Hmfa).
  unfold MfaAuthModel.disableMfa. run_in Hw.
  destruct (storedMfa_updateById w users u userId
              [set_enabled false; set_secret []; set_backupCodes [];
               set_enrolledAt None; set_failedAttempts 0; set_lockedUntil None]
              Hw Hu) as (w' & -> & Hstored & Hplugin & _).
  eexists w', _. split; [reflexivity|]. split; [exact Hstored|].
  split; [now apply configOf_ext|]. now rewrite Hmfa.
Qed.

Lemma enableMfa_effect (C : NodeCrypto) iv entropy w userId m secret :
  storedMfa w userId = Some m ->
  let generated := MfaAuthModel.generateBackupCodes entropy (backupCodeCount (configOf w)) in
  exists w' m',
    MfaAuthModel.enableMfa iv entropy userId secret w
    = (Return {| MfaAuthModel.er_success := true;
                 MfaAuthModel.er_backupCodes := generated.1 |}, w')
    /\ storedMfa w' userId = Some m'
    /\ configOf w' = configOf w /\ sessionSecret w' = sessionSecret w
    /\ now w' = now w
    /\ m' = {| enabled := true; method := js "totp";
               secret := MfaAuthModel.encrypt (sessionSecret w) iv secret;
               backupCodes := generated.2; enrolledAt := Some (now w);
               lastUsedAt := lastUsedAt m; failedAttempts := 0;
               lockedUntil := None; gracePeriodUntil := gracePeriodUntil m |}.
Proof.
  intros Hm generated.
  destruct (storedMfa_inv w userId m Hm) as (users & u & Hw & Hu & Hmfa).
  unfold MfaAuthModel.enableMfa. run_in Hw. rewrite getConfig_spec. run_in Hw.
  fold generated. destruct generated as [codes hashes]. run_in Hw.
  destruct (storedMfa_updateById w users u userId
              [set_enabled true; set_method (js "totp");
               set_secret (MfaAuthModel.encrypt (sessionSecret w) iv secret);
               set_backupCodes hashes; set_enrolledAt (Some (now w));
               set_failedAttempts 0; set_lockedUntil None]
              Hw Hu) as (w' & -> & Hstored & Hplugin & Hsecret & Hnow).
  eexists w', _. split; [reflexivity|]. split; [exact Hstored|].
  split; [now apply configOf_ext|]. split; [exact Hsecret|]. split; [exact Hnow|].
  now rewrite Hmfa.
Qed.

Lemma regenerateBackupCodes_effect entropy w userId m :
  storedMfa w userId = Some m ->
  let generated := MfaAuthModel.generateBackupCodes entropy (backupCodeCount (configOf w)) in
  exists w' m',
    MfaAuthModel.regenerateBackupCodes entropy userId w = (Return generated.1, w')
    /\ storedMfa w' userId = Some m'
    /\ configOf w' = configOf w /\ sessionSecret w' = sessionSecret w
    /\ m' = {| enabled := enabled m; method := method m; secret := secret m;
               backupCodes := generated.2; enrolledAt := enrolledAt m;
               lastUsedAt := lastUsedAt m; failedAttempts := failedAttempts m;
               lockedUntil := lockedUntil m;
               gracePeriodUntil := gracePeriodUntil m |}.
Proof.
  intros Hm generated.
  destruct (storedMfa_inv w userId m Hm) as (users & u & Hw & Hu & Hmfa).
  unfold MfaAuthModel.regenerateBackupCodes. run_in Hw. rewrite getConfig_spec.
  run_in Hw. fold generated. destruct generated as [codes hashes]. run_in Hw.
  destruct (storedMfa_updateById w users u userId [set_backupCodes hashes] Hw Hu)
    as (w' & -> & Hstored & Hplugin & Hsecret & _).
  eexists w', _. split; [reflexivity|]. split; [exact Hstored|].
  split; [now apply configOf_ext|]. split; [exact Hsecret|]. now rewrite Hmfa.
Qed.

(** The three outcomes of [useBackupCode] on a stored profile. *)
Lemma useBackupCode_effect w userId code m :
  storedMfa w userId = Some m ->
  (MfaAuthModel.verifyBackupCode code (backupCodes m) = Return (-1)%Z
   /\ MfaAuthModel.useBackupCode userId code w = (Return false, w))
  \/ (exists e,
        MfaAuthModel.verifyBackupCode code (backupCodes m) = Throw e
        /\ MfaAuthModel.useBackupCode userId code w = (Throw e, w))
  \/ (exists index w' m',
        MfaAuthModel.verifyBackupCode code (backupCodes m) = Return index
        /\ index <> (-1)%Z
        /\ MfaAuthModel.useBackupCode userId code w = (Return true, w')
        /\ storedMfa w' userId = Some m'
        /\ configOf w' = configOf w /\ sessionSecret w' = sessionSecret w
        /\ now w' = now w
        /\ m' = {| enabled := enabled m; method := method m; secret := secret m;
                   backupCodes := delete (Z.to_nat index) (backupCodes m);
                   enrolledAt := enrolledAt m; lastUsedAt := Some (now w);
                   failedAttempts := 0; lockedUntil := None;
                   gracePeriodUntil := gracePeriodUntil m |}).
Proof.
  intros Hm. destruct (storedMfa_inv w userId m Hm) as (users & u & Hw & Hu & Hmfa).
  unfold MfaAuthModel.useBackupCode. run_in Hw. rewrite Hu.
  cbn [MfaAuthModel.backupCodesOf]. rewrite Hmfa.
  destruct (MfaAuthModel.verifyBackupCode code (backupCodes m)) as [index|e].
  - destruct (Z.eqb_spec index (-1)) as [->|Hne]; [now left|].
    right; right.
    destruct (storedMfa_updateById w users u userId
                [set_backupCodes (delete (Z.to_nat index) (backupCodes m));
                 set_lastUsedAt (Some (now w)); set_failedAttempts 0;
                 set_lockedUntil None] Hw Hu)
      as (w' & -> & Hstored & Hplugin & Hsecret & Hnow).
    eexists index, w', _. split; [reflexivity|]. split; [exact Hne|].
    split; [reflexivity|]. split; [exact Hstored|].
    split; [now apply configOf_ext|]. split; [exact Hsecret|]. split; [exact Hnow|].
    now rewrite Hmfa.
  - right; left. now exists e.
Qed.

(** X6. A stored profile whose failure counter is not negative and whose
    lock, if any, stands with the counter at or above [maxFailedAttempts]
    is still such a profile after any operation of the model, the
    configuration being the same. *)
Theorem lockConsistent_preserved (C : NodeCrypto) (userId : jsstring) (w : World) (m : Mfa) :
  storedMfa w userId = Some m ->
  lockConsistent (configOf w) m ->
  let kept (w' : World) :=
    exists m', storedMfa w' userId = Some m' /\ lockConsistent (configOf w') m' in
  kept (MfaAuthModel.recordSuccess userId w).2
  /\ kept (MfaAuthModel.recordFailure userId w).2
  /\ (forall code, kept (MfaAuthModel.useBackupCode userId code w).2)
  /\ kept (MfaAuthModel.disableMfa userId w).2
  /\ (forall iv entropy secret,
        kept (MfaAuthModel.enableMfa iv entropy userId secret w).2)
  /\ (forall entropy, kept (MfaAuthModel.regenerateBackupCodes entropy userId w).2).
Proof.
  intros Hm [Hcount Hlock] kept. unfold kept, lockConsistent.
  assert (forall config m', failedAttempts m' = 0%Z -> lockedUntil m' = None ->
            (0 <= failedAttempts m')%Z
            /\ (lockedUntil m' <> None -> (maxFailedAttempts config <= failedAttempts m')%Z))
    as Hreset.
  { intros config m' -> ->. split; [lia | congruence]. }
  split; [|split; [|split; [|split; [|split]]]].
  - destruct (recordSuccess_step w userId m Hm) as (w' & m' & -> & Hm' & Hz & Hn & _).
    exists m'. split; [exact Hm' | now apply Hreset].
  - destruct (recordFailure_step w userId m Hm)
      as (r & w' & m' & -> & Hm' & Hc & _ & Hattempts & Hlocked & Hfree).
    exists m'. split; [exact Hm'|]. cbn [snd]. rewrite Hc, Hattempts.
    split; [lia|]. intros Hset.
    destruct (Z.le_gt_cases (maxFailedAttempts (configOf w)) (failedAttempts m + 1))
      as [Hle|Hgt]; [exact Hle|].
    destruct (Hfree ltac:(lia)) as (_ & _ & Hsame). rewrite Hsame in Hset.
    specialize (Hlock Hset). lia.
  - intros code.
    destruct (useBackupCode_effect w userId code m Hm)
      as [[_ ->]|[(e & _ & ->)|(index & w' & m' & _ & _ & -> & Hm' & Hc & _ & _ & ->)]].
    + exists m. now repeat split.
    + exists m. now repeat split.
    + eexists. split; [exact Hm'|]. now apply Hreset.
  - destruct (disableMfa_effect w userId m Hm) as (w' & m' & -> & Hm' & _ & ->).
    eexists. split; [exact Hm'|]. now apply Hreset.
  - intros iv entropy secret.
    destruct (enableMfa_effect C iv entropy w userId m secret Hm)
      as (w' & m' & -> & Hm' & _ & _ & _ & ->).
    eexists. split; [exact Hm'|]. now apply Hreset.
  - intros entropy.
    destruct (regenerateBackupCodes_effect entropy w userId m Hm)
      as (w' & m' & -> & Hm' & Hc & _ & ->).
    eexists. split; [exact Hm'|]. cbn [snd]. rewrite Hc. now split.
Qed.

Lemma lockConsistent_preserved_witness :
  lockConsistent (configOf world0) aliceMfa
  /\ exists m',
       storedMfa (MfaAuthModel.recordFailure (js "u1") world0).2 (js "u1") = Some m'
       /\ lockConsistent (configOf (MfaAuthModel.recordFailure (js "u1") world0).2) m'.
Proof.
  assert (lockConsistent (configOf world0) aliceMfa) as Hinv.
  { split; [cbn; lia | intros Hn; now destruct Hn]. }
  split; [exact Hinv|].
  destruct (lockConsistent_preserved standInCrypto (js "u1") world0 aliceMfa eq_refl Hinv)
    as (_ & Hfailure & _).
  exact Hfailure.
Defined.

(** ** The status of a user *)



(** ** The login hooks *)

Lemma isLocked_run user w :
  exists r,
    MfaAuthModel.isLocked user w = (Return r, w)
    /\ (MfaAuthModel.locked r = true ->
        exists minutes, MfaAuthModel.remainingMinutes r = Some minutes /\ (1 <= minutes)%Z)
    /\ (MfaAuthModel.locked r = false -> MfaAuthModel.remainingMinutes r = None).
Proof.
  unfold MfaAuthModel.isLocked.
  destruct (MfaAuthModel.lockedUntilOf user) as [lockDate|]; monad_simpl.
  - destruct (Z.leb_spec lockDate (now w)) as [Hpast|Hfuture].
    + eexists. split; [reflexivity|]. cbn [MfaAuthModel.locked MfaAuthModel.remainingMinutes].
      split; [discriminate|reflexivity].
    + eexists. split; [reflexivity|]. cbn [MfaAuthModel.locked MfaAuthModel.remainingMinutes].
      split; [|discriminate]. intros _. eexists. split; [reflexivity|].
      pose proof (ceilDiv_spec (lockDate - now w) 60000 ltac:(lia)). lia.
  - eexists. split; [reflexivity|]. cbn [MfaAuthModel.locked MfaAuthModel.remainingMinutes].
    split; [discriminate|reflexivity].
Qed.

(** X8. [onAuthGetSteps] changes nothing in the store and asks for the
    step 'mfa' exactly for a user with MFA enabled, whatever the policy:
    it appends that one step, priority 100, behind the steps already
    required, flagged locked (with at least one minute to wait) exactly
    when the user is locked; for every other user the context is
    returned as it came. *)
Theorem onAuthGetSteps_enabled_users_only
    (context : MfaAuthController.StepsContext) (w : World) :
  exists context',
    MfaAuthController.onAuthGetSteps context w = (Return context', w)
    /\ MfaAuthController.sc_user context' = MfaAuthController.sc_user context
    /\ (forall user,
          MfaAuthController.sc_user context = Some user ->
          MfaAuthModel.mfaEnabled user = true ->
          exists data r,
            MfaAuthController.requiredSteps context'
            = MfaAuthController.requiredSteps context
              ++ [{| MfaAuthController.rs_step := js "mfa";
                     MfaAuthController.rs_priority := 100;
                     MfaAuthController.rs_data := Some data |}]
            /\ MfaAuthModel.isLocked (Some user) w = (Return r, w)
            /\ MfaAuthController.sd_isLocked data = MfaAuthModel.locked r
            /\ (MfaAuthModel.locked r = true ->
                (1 <= MfaAuthController.lockoutMinutes data)%Z)
            /\ (MfaAuthModel.locked r = false ->
                MfaAuthController.lockoutMinutes data = 0%Z))
    /\ ((forall user, MfaAuthController.sc_user context = Some user ->
                      MfaAuthModel.mfaEnabled user = false) ->
        context' = context).
Proof.
  unfold MfaAuthController.onAuthGetSteps.
  destruct (MfaAuthController.sc_user context) as [user|] eqn:Huser.
  - destruct (MfaAuthModel.mfaEnabled user) eqn:Hen.
    + destruct (isLocked_run (Some user) w) as (r & Hrun & Hlocked & Hfree).
      unfold tryCatch, bind. rewrite Hrun. unfold ret.
      eexists. split; [reflexivity|].
      cbn [MfaAuthController.sc_user MfaAuthController.requiredSteps].
      split; [reflexivity|].
      split; [|intros Hoff; specialize (Hoff user eq_refl); congruence].
      intros user' Hu' _. injection Hu' as <-.
      eexists _, r. split; [reflexivity|]. split; [exact Hrun|].
      cbn [MfaAuthController.sd_isLocked MfaAuthController.lockoutMinutes].
      split; [reflexivity|]. split; intros Hl.
      * destruct (Hlocked Hl) as (minutes & -> & Hmin). exact Hmin.
      * rewrite (Hfree Hl). reflexivity.
    + exists context. split; [reflexivity|]. split; [exact Huser|].
      split; [|reflexivity]. intros user' Hu' Hen'. injection Hu' as <-. congruence.
  - exists context. split; [reflexivity|]. split; [exact Huser|].
    split; [|reflexivity]. intros user' Hu'. discriminate.
Qed.

Lemma onAuthGetSteps_enabled_users_only_witness :
  let context := {| MfaAuthController.sc_user := Some aliceLocked;
                    MfaAuthController.requiredSteps := [] |} in
  exists context' data r,
    MfaAuthController.onAuthGetSteps context world0 = (Return context', world0)
    /\ MfaAuthController.requiredSteps context'
       = [{| MfaAuthController.rs_step := js "mfa";
             MfaAuthController.rs_priority := 100;
             MfaAuthController.rs_data := Some data |}]
    /\ MfaAuthModel.isLocked (Some aliceLocked) world0 = (Return r, world0)
    /\ MfaAuthController.sd_isLocked data = MfaAuthModel.locked r
    /\ (MfaAuthModel.locked r = true -> (1 <= MfaAuthController.lockoutMinutes data)%Z)
    /\ (MfaAuthModel.locked r = false -> MfaAuthController.lockoutMinutes data = 0%Z).
Proof.
  intros context.
  destruct (onAuthGetSteps_enabled_users_only context world0)
    as (context' & Hrun & _ & Hon & _).
  destruct (Hon aliceLocked eq_refl eq_refl) as (data & r & Hsteps & Hrest).
  exists context', data, r. split; [exact Hrun|]. split; [exact Hsteps | exact Hrest].
Defined.

Lemma isMfaRequired_not_enabled user w :
  MfaAuthModel.mfaEnabled user = false ->
  exists r,
    MfaAuthModel.isMfaRequired user w = (Return r, w)
    /\ let config := configOf w in
       let enforced :=
         mfaPolicy config = js "required"
         \/ (mfaPolicy config = js "required-for-roles" /\ rolesIntersect user config) in
       (enforced -> graceActive user w ->
        r = {| MfaAuthModel.required := false; MfaAuthModel.reason := MfaAuthModel.GracePeriod |})
       /\ (mfaPolicy config = js "required" -> ~ graceActive user w ->
           r = {| MfaAuthModel.required := true; MfaAuthModel.reason := MfaAuthModel.PolicyRequired |})
       /\ (mfaPolicy config = js "required-for-roles" -> rolesIntersect user config ->
           ~ graceActive user w ->
           r = {| MfaAuthModel.required := true; MfaAuthModel.reason := MfaAuthModel.RoleRequired |})
       /\ (~ enforced ->
           r = {| MfaAuthModel.required := false; MfaAuthModel.reason := MfaAuthModel.Optional |}).
Proof.
  intros Hen. unfold MfaAuthModel.isMfaRequired, bind. rewrite getConfig_spec, Hen.
  set (config := configOf w).
  destruct (inGracePeriod_spec user w) as (grace & Hgrace & Hactive).
  assert (js "required" <> js "required-for-roles") as Hdiff by discriminate.
  pose proof (hasRequiredRole_spec user config) as Hroles.
  assert (grace = true -> graceActive user w) as Hyes by (intros ->; now apply Hactive).
  assert (grace = false -> ~ graceActive user w) as Hno.
  { intros -> Hg. apply Hactive in Hg. discriminate. }
  clear Hactive.
  destruct (decide (mfaPolicy config = js "required")) as [Hreq|Hreq].
  { rewrite bool_decide_eq_true_2 by exact Hreq. rewrite Hgrace.
    destruct grace; eexists; (split; [reflexivity|]); cbn zeta;
      [specialize (Hyes eq_refl); clear Hno | specialize (Hno eq_refl); clear Hyes];
      repeat split; intros; try reflexivity; exfalso; intuition congruence. }
  rewrite bool_decide_eq_false_2 by exact Hreq.
  destruct (decide (mfaPolicy config = js "required-for-roles")) as [Hrol|Hrol].
  { rewrite bool_decide_eq_true_2 by exact Hrol.
    destruct (some _ _).
    - assert (rolesIntersect user config) as Hint by (now apply Hroles).
      clear Hroles. rewrite Hgrace.
      destruct grace; eexists; (split; [reflexivity|]); cbn zeta;
        [specialize (Hyes eq_refl); clear Hno | specialize (Hno eq_refl); clear Hyes];
        repeat split; intros; try reflexivity; exfalso; intuition congruence.
    - assert (~ rolesIntersect user config) as Hint.
      { intros Hi. apply Hroles in Hi. discriminate. }
      clear Hroles Hyes Hno.
      eexists; (split; [reflexivity|]); cbn zeta;
        repeat split; intros; try reflexivity; exfalso; intuition congruence. }
  rewrite bool_decide_eq_false_2 by exact Hrol. clear Hroles Hyes Hno.
  eexists; (split; [reflexivity|]); cbn zeta;
    repeat split; intros; try reflexivity; exfalso; intuition congruence.
Qed.

(** X9. [onAuthGetWarnings] changes nothing in the store and never
    throws; it keeps the user and the warnings already there. A user
    with MFA enabled, and a request without a user, get the context back
    as it came. A user without MFA gets exactly one more warning: the
    'required' one under the policy 'required', the 'required for your
    role' one under 'required-for-roles' when a role matches, neither
    while the grace period runs, and the 'recommended' one in every
    other case. *)
Theorem onAuthGetWarnings_by_policy
    (context : MfaAuthController.WarningsContext) (w : World) :
  exists context',
    MfaAuthController.onAuthGetWarnings context w = (Return context', w)
    /\ MfaAuthController.wc_user context' = MfaAuthController.wc_user context
    /\ (MfaAuthController.wc_user context = None -> context' = context)
    /\ (forall user,
          MfaAuthController.wc_user context = Some user ->
          let config := configOf w in
          let enforced :=
            mfaPolicy config = js "required"
            \/ (mfaPolicy config = js "required-for-roles" /\ rolesIntersect user config) in
          let warned warning :=
            MfaAuthController.warnings context'
            = MfaAuthController.warnings context ++ [warning] in
          (MfaAuthModel.mfaEnabled user = true -> context' = context)
          /\ (MfaAuthModel.mfaEnabled user = false ->
              (enforced -> graceActive user w -> context' = context)
              /\ (mfaPolicy config = js "required" -> ~ graceActive user w ->
                  warned MfaAuthController.warnRequiredByPolicy)
              /\ (mfaPolicy config = js "required-for-roles" ->
                  rolesIntersect user config -> ~ graceActive user w ->
                  warned MfaAuthController.warnRequiredForRole)
              /\ (~ enforced -> warned MfaAuthController.warnRecommended))).
Proof.
  unfold MfaAuthController.onAuthGetWarnings.
  destruct (MfaAuthController.wc_user context) as [user|] eqn:Huser.
  - destruct (MfaAuthModel.mfaEnabled user) eqn:Hen; cbn [negb].
    + exists context. split; [reflexivity|]. split; [exact Huser|].
      split; [discriminate|]. intros user' Hu'. injection Hu' as <-.
      cbn zeta. split; [reflexivity|]. congruence.
    + destruct (isMfaRequired_not_enabled user w Hen)
        as (r & Hrun & Hgrace & Hpolicy & Hrole & Hoptional).
      unfold tryCatch, bind. rewrite Hrun.
      assert (js "required" <> js "required-for-roles") as Hdiff by discriminate.
      destruct (inGracePeriod_spec user w) as (grace & _ & Hactive).
      pose proof (hasRequiredRole_spec user (configOf w)) as Hroles.
      assert (grace = true -> graceActive user w) as Hyes by (intros ->; now apply Hactive).
      assert (grace = false -> ~ graceActive user w) as Hno.
      { intros -> Hg. apply Hactive in Hg. discriminate. }
      clear Hactive.
      assert (forall b, (b = true <-> rolesIntersect user (configOf w)) ->
              (b = true -> rolesIntersect user (configOf w))
              /\ (b = false -> ~ rolesIntersect user (configOf w))) as Hsplit.
      { intros b Hb. split; [apply Hb|]. intros -> Hi. apply Hb in Hi. discriminate. }
      apply Hsplit in Hroles as [Hin Hout]. clear Hsplit.
      destruct (decide (mfaPolicy (configOf w) = js "required")) as [Hreq|Hreq];
        [|destruct (decide (mfaPolicy (configOf w) = js "required-for-roles")) as [Hrol|Hrol];
          [destruct (some _ _);
           [specialize (Hin eq_refl); clear Hout | specialize (Hout eq_refl); clear Hin]|]];
        try (destruct grace;
             [specialize (Hyes eq_refl); clear Hno | specialize (Hno eq_refl); clear Hyes]).
      all: first [ rewrite Hgrace by tauto
                 | rewrite Hpolicy by tauto
                 | rewrite Hrole by tauto
                 | rewrite Hoptional by tauto ].
      all: cbn [MfaAuthModel.required MfaAuthModel.reason].
      all: try rewrite bool_decide_eq_true_2 by reflexivity.
      all: try rewrite bool_decide_eq_false_2 by discriminate.
      all: eexists; (split; [reflexivity|]).
      all: split; [first [reflexivity | exact Huser]|].
      all: split; [discriminate|].
      all: intros user' Hu'; injection Hu' as <-; cbn zeta.
      all: split; [congruence|]; intros _.
      all: cbn [MfaAuthController.warnings].
      all: repeat split; intros; try reflexivity; exfalso; tauto || congruence.
  - exists context. split; [reflexivity|]. split; [exact Huser|].
    split; [reflexivity|]. discriminate.
Qed.

Lemma onAuthGetWarnings_by_policy_witness :
  let context := {| MfaAuthController.wc_user := Some bob;
                    MfaAuthController.warnings := [] |} in
  exists context',
    MfaAuthController.onAuthGetWarnings context world0 = (Return context', world0)
    /\ MfaAuthController.warnings context' = [MfaAuthController.warnRequiredForRole].
Proof.
  intros context.
  destruct (onAuthGetWarnings_by_policy context world0)
    as (context' & Hrun & _ & _ & Huser).
  destruct (Huser bob eq_refl) as (_ & Hoff).
  destruct (Hoff eq_refl) as (_ & _ & Hrole & _).
  exists context'. split; [exact Hrun|]. apply Hrole.
  - vm_compute. reflexivity.
  - exists (js "root"). split; [left; reflexivity|]. vm_compute. left. reflexivity.
  - intros (m & lim & Hm & _). discriminate.
Defined.

(** ** The verification step, continued *)

(** X10. While the lock of a user runs, [onAuthValidateStep] turns down
    every step that carries a code, TOTP or backup, whatever the code:
    the error is 'Account is temporarily locked' with the minutes left,
    rounded up and at least 1, and the store is as before: the code is
    not looked at and no attempt is counted. *)
Theorem onAuthValidateStep_locked_rejects_any_code (C : NodeCrypto) (H : Host)
    (context : MfaAuthController.Context) (w : World) (user : User)
    (code : jsstring) (lockDate : Z) :
  MfaAuthController.step context = js "mfa"
  \/ MfaAuthController.step context = js "mfa-backup" ->
  MfaAuthController.stepData context = Some {| MfaAuthController.code := Some code |} ->
  code <> [] ->
  MfaAuthController.user context = Some user ->
  MfaAuthModel.lockedUntilOf (Some user) = Some lockDate ->
  (now w < lockDate)%Z ->
  exists minutes,
    MfaAuthController.onAuthValidateStep context w
    = (Return (MfaAuthController.reject context
                 (MfaAuthController.AccountLocked (Some minutes))), w)
    /\ (1 <= minutes)%Z
    /\ (lockDate - now w <= minutes * 60000 < lockDate - now w + 60000)%Z.
Proof.
  intros Hstep Hdata Hne Huser Hlock Hfuture.
  unfold MfaAuthController.onAuthValidateStep.
  assert (negb (bool_decide (MfaAuthController.step context = js "mfa"))
          && negb (bool_decide (MfaAuthController.step context = js "mfa-backup"))
          = false) as ->.
  { destruct Hstep as [-> | ->]; reflexivity. }
  rewrite Hdata, Huser. cbn [MfaAuthController.code MfaAuthController.noCode].
  destruct code as [|c code]; [congruence|]. cbn [falsy from_option]. unfold id.
  unfold MfaAuthModel.isLocked. rewrite Hlock. monad_simpl.
  destruct (Z.leb_spec lockDate (now w)) as [Hpast|_]; [lia|].
  cbn [MfaAuthModel.locked MfaAuthModel.remainingMinutes].
  eexists. split; [reflexivity|].
  pose proof (ceilDiv_spec (lockDate - now w) 60000 ltac:(lia)). lia.
Qed.

Lemma onAuthValidateStep_locked_rejects_any_code_witness :
  let context := totpStep aliceLocked (Some (js "JBSWY3DPEHPK3PXP")) in
  exists minutes,
    @MfaAuthController.onAuthValidateStep standInCrypto standInHost context world0
    = (Return (MfaAuthController.reject context
                 (MfaAuthController.AccountLocked (Some minutes))), world0)
    /\ (1 <= minutes)%Z
    /\ (1700000690000 - now world0 <= minutes * 60000
        < 1700000690000 - now world0 + 60000)%Z.
Proof.
  intros context.
  apply (onAuthValidateStep_locked_rejects_any_code standInCrypto standInHost
           context world0 aliceLocked (js "JBSWY3DPEHPK3PXP") 1700000690000);
    first [discriminate | reflexivity | left; reflexivity ].
Defined.

Lemma recordSuccess_effect w userId m :
  storedMfa w userId = Some m ->
  exists w',
    MfaAuthModel.recordSuccess userId w = (Return tt, w')
    /\ storedMfa w' userId
       = Some {| enabled := enabled m; method := method m; secret := secret m;
                 backupCodes := backupCodes m; enrolledAt := enrolledAt m;
                 lastUsedAt := Some (now w); failedAttempts := 0;
                 lockedUntil := None; gracePeriodUntil := gracePeriodUntil m |}
    /\ configOf w' = configOf w /\ sessionSecret w' = sessionSecret w
    /\ now w' = now w.
Proof.
  intros Hm.
  destruct (storedMfa_inv w userId m Hm) as (users & u & Hw & Hu & Hmfa).
  unfold MfaAuthModel.recordSuccess. run_in Hw.
  destruct (storedMfa_updateById w users u userId
              [set_lastUsedAt (Some (now w)); set_failedAttempts 0; set_lockedUntil None]
              Hw Hu) as (w' & -> & Hstored & Hplugin & Hsecret & Hnow).
  exists w'. split; [reflexivity|]. split; [|split; [now apply configOf_ext|split; assumption]].
  rewrite Hstored, Hmfa. reflexivity.
Qed.

(** X11. A TOTP step of an unlocked user with a code the authenticator
    accepts for the decrypted stored secret is accepted, and the stored
    profile afterwards has [failedAttempts] 0, no lock and [lastUsedAt]
    now; the secret, the backup codes and everything outside that
    profile are as before. *)
Theorem onAuthValidateStep_accepts_valid_totp (C : NodeCrypto) (H : Host)
    (context : MfaAuthController.Context) (w : World) (user : User)
    (code totpSecret : jsstring) (m : Mfa) :
  MfaAuthController.step context = js "mfa" ->
  MfaAuthController.stepData context = Some {| MfaAuthController.code := Some code |} ->
  code <> [] ->
  MfaAuthController.user context = Some user ->
  (forall lim, MfaAuthModel.lockedUntilOf (Some user) = Some lim -> (lim <= now w)%Z) ->
  storedMfa w (_id user) = Some m ->
  MfaAuthModel.getDecryptedSecret user w = (Return totpSecret, w) ->
  totpSecret <> [] ->
  authenticator_verify (now w) (removeWhiteSpace code) totpSecret = true ->
  exists w',
    MfaAuthController.onAuthValidateStep context w
    = (Return (MfaAuthController.accept context), w')
    /\ storedMfa w' (_id user)
       = Some {| enabled := enabled m; method := method m; secret := secret m;
                 backupCodes := backupCodes m; enrolledAt := enrolledAt m;
                 lastUsedAt := Some (now w); failedAttempts := 0;
                 lockedUntil := None; gracePeriodUntil := gracePeriodUntil m |}
    /\ sameExceptMfaOf (_id user) w w'.
Proof.
  intros Hstep Hdata Hne Huser Hun Hm Hsec Hsne Hgood.
  rewrite (onAuthValidateStep_unlocked context w user code) by auto.
  rewrite Hstep. rewrite bool_decide_eq_false_2 by discriminate.
  destruct (recordSuccess_effect w (_id user) m Hm) as (w' & Hr & Hm' & _).
  pose proof (recordSuccess_frame (_id user) w) as Hframe. rewrite Hr in Hframe.
  exists w'. split; [|split; [exact Hm'|exact Hframe]].
  unfold tryCatch, bind at 1. rewrite Hsec.
  destruct totpSecret as [|s totpSecret]; [congruence|]. cbn [falsy].
  monad_simpl. rewrite Hgood, Hr. reflexivity.
Qed.

Lemma onAuthValidateStep_accepts_valid_totp_witness :
  let context := totpStep alice (Some (js "JBSWY3 DPEHPK3PXP")) in
  exists w',
    @MfaAuthController.onAuthValidateStep standInCrypto standInHost context world0
    = (Return (MfaAuthController.accept context), w')
    /\ storedMfa w' (js "u1")
       = Some {| enabled := true; method := js "totp"; secret := aliceSecret;
                 backupCodes := aliceCodes; enrolledAt := Some 1700000000000%Z;
                 lastUsedAt := Some (now world0); failedAttempts := 0;
                 lockedUntil := None; gracePeriodUntil := None |}
    /\ sameExceptMfaOf (js "u1") world0 w'.
Proof.
  intros context.
  apply (onAuthValidateStep_accepts_valid_totp standInCrypto standInHost context world0
           alice (js "JBSWY3 DPEHPK3PXP") (js "JBSWY3DPEHPK3PXP") aliceMfa);
    first [discriminate | exact aliceSecret_decrypts | vm_compute; reflexivity].
Defined.

(** X12. A backup-code step of an unlocked user whose typed code (in
    any case, with or without dashes and spaces) is one of the stored
    codes is accepted: the first stored hash of the code is removed, the
    counter and the lock are reset. When the stored hashes are pairwise
    distinct the same step sent again is rejected as
    'Invalid or already used backup code' and counted. *)
Theorem onAuthValidateStep_accepts_backup_code_once (C : NodeCrypto) (H : Host)
    (context : MfaAuthController.Context) (w : World) (user : User)
    (typed code : jsstring) (m : Mfa) :
  MfaAuthController.step context = js "mfa-backup" ->
  MfaAuthController.stepData context = Some {| MfaAuthController.code := Some typed |} ->
  typed <> [] ->
  MfaAuthController.user context = Some user ->
  MfaAuthController.pending_userId (MfaAuthController.pending context) = _id user ->
  (forall lim, MfaAuthModel.lockedUntilOf (Some user) = Some lim -> (lim <= now w)%Z) ->
  storedMfa w (_id user) = Some m ->
  Forall (fun h => byteLength h = 64%nat) (backupCodes m) ->
  typedAs typed code ->
  MfaAuthModel.hashBackupCode code ∈ backupCodes m ->
  exists (k : nat) (w' : World),
    MfaAuthController.onAuthValidateStep context w
    = (Return (MfaAuthController.accept context), w')
    /\ backupCodes m !! k = Some (MfaAuthModel.hashBackupCode code)
    /\ (forall j, (j < k)%nat ->
          backupCodes m !! j <> Some (MfaAuthModel.hashBackupCode code))
    /\ storedMfa w' (_id user)
       = Some {| enabled := enabled m; method := method m; secret := secret m;
                 backupCodes := delete k (backupCodes m);
                 enrolledAt := enrolledAt m;
                 lastUsedAt := Some (now w); failedAttempts := 0;
                 lockedUntil := None; gracePeriodUntil := gracePeriodUntil m |}
    /\ (NoDup (backupCodes m) ->
        exists w'',
          MfaAuthController.onAuthValidateStep context w'
          = (Return (MfaAuthController.reject context
                       MfaAuthController.InvalidBackupCode), w'')
          /\ (failedAttempts <$> storedMfa w'' (_id user)) = Some 1%Z).
Proof.
  intros Hstep Hdata Hne Huser Hpending Hun Hm Hwf Htyped Hin.
  set (clean := toUpperCase (removeWhiteSpaceAndDashes typed)).
  assert (MfaAuthModel.hashBackupCode clean = MfaAuthModel.hashBackupCode code) as Hhash
    by now apply typedAs_hashBackupCode.
  destruct (verifyBackupCode_wellformed clean (backupCodes m) Hwf)
    as [[_ Hnot] | (k & Hverify & Hk & Hfirst)].
  { rewrite Hhash in Hnot. contradiction. }
  rewrite Hhash in Hk, Hfirst.
  destruct (useBackupCode_effect w (_id user) clean m Hm)
    as [[Hnone _] | [(e & Hthrow & _) | (index & w1 & m1 & Hv & _ & Huse & Hm1 & Hcfg1 & _ & Hnow1 & Heq1)]];
    [rewrite Hverify in Hnone; injection Hnone; lia | congruence |].
  assert (index = Z.of_nat k) as -> by congruence.
  rewrite Nat2Z.id in Heq1.
  destruct (recordSuccess_effect w1 (_id user) m1 Hm1) as (w' & Hsuccess & Hm' & Hcfg' & _ & Hnow').
  rewrite Heq1, Hnow1 in Hm'.
  cbn [enabled method secret backupCodes enrolledAt gracePeriodUntil] in Hm'.
  exists k, w'. split; [|split; [exact Hk|split; [exact Hfirst|split]]].
  - rewrite (onAuthValidateStep_unlocked context w user typed) by auto.
    rewrite Hstep. rewrite bool_decide_eq_true_2 by reflexivity.
    cbn zeta. fold clean. rewrite Hpending.
    unfold tryCatch, bind at 1. rewrite Huse. cbn iota beta.
    unfold bind, ret. rewrite Hsuccess. reflexivity.
  - exact Hm'.
  - intros Hnd.
    pose proof (not_elem_of_delete_NoDup (backupCodes m) k _ Hnd Hk) as Hgone.
    assert (Forall (fun h => byteLength h = 64%nat) (delete k (backupCodes m))) as Hwf'
      by now apply Forall_delete.
    destruct (verifyBackupCode_wellformed clean (delete k (backupCodes m)) Hwf')
      as [[Hminus _] | (k' & _ & Hk' & _)].
    2:{ rewrite Hhash in Hk'. apply list_elem_of_lookup_2 in Hk'. contradiction. }
    destruct (storedMfa_inv w' (_id user) _ Hm') as (users' & u' & Hw' & Hu' & Hmfa').
    destruct (recordFailure_step w' (_id user) _ Hm')
      as (r & w'' & m'' & Hr & Hm'' & _ & _ & Hcount & _).
    exists w''. split.
    + assert (forall lim, MfaAuthModel.lockedUntilOf (Some user) = Some lim ->
                          (lim <= now w')%Z) as Hun'.
      { intros lim Hl. rewrite Hnow', Hnow1. now apply Hun. }
      rewrite (onAuthValidateStep_unlocked context w' user typed) by auto.
      rewrite Hstep. rewrite bool_decide_eq_true_2 by reflexivity.
      cbn zeta. fold clean. rewrite Hpending.
      unfold tryCatch, bind at 1.
      rewrite (useBackupCode_not_found w' users' (_id user) clean Hw').
      * cbn iota beta. unfold bind, ret. rewrite Hr. reflexivity.
      * unfold storedBackupCodes. rewrite Hw', Hu'.
        cbn [MfaAuthModel.backupCodesOf]. rewrite Hmfa'. exact Hminus.
    + rewrite Hm''. cbn [fmap option_fmap option_map]. f_equal. rewrite Hcount.
      reflexivity.
Qed.

Lemma onAuthValidateStep_accepts_backup_code_once_witness :
  let context := backupStep alice (Some (js "a1b2 c3d4")) in
  exists (k : nat) (w' : World),
    @MfaAuthController.onAuthValidateStep standInCrypto standInHost context world0
    = (Return (MfaAuthController.accept context), w')
    /\ aliceCodes !! k = Some (MfaAuthModel.hashBackupCode (js "A1B2-C3D4"))
    /\ (backupCodes <$> storedMfa w' (js "u1")) = Some (delete k aliceCodes)
    /\ exists w'',
         @MfaAuthController.onAuthValidateStep standInCrypto standInHost context w'
         = (Return (MfaAuthController.reject context
                      MfaAuthController.InvalidBackupCode), w'')
         /\ (failedAttempts <$> storedMfa w'' (js "u1")) = Some 1%Z.
Proof.
  intros context.
  assert (typedAs (js "a1b2 c3d4") (js "A1B2-C3D4")) as Htyped.
  { cbv [js list_ascii_of_string map N_of_ascii N_of_digits N.add N.mul].
    typedAs_steps. }
  assert (MfaAuthModel.hashBackupCode (js "A1B2-C3D4") ∈ backupCodes aliceMfa) as Hin.
  { apply list_elem_of_further, list_elem_of_here. }
  assert (forall lim, MfaAuthModel.lockedUntilOf (Some alice) = Some lim ->
                      (lim <= now world0)%Z) as Hun by discriminate.
  assert (storedMfa world0 (_id alice) = Some aliceMfa) as Hm by (vm_compute; reflexivity).
  destruct (onAuthValidateStep_accepts_backup_code_once standInCrypto standInHost
              context world0 alice (js "a1b2 c3d4") (js "A1B2-C3D4") aliceMfa
              eq_refl eq_refl ltac:(discriminate) eq_refl eq_refl Hun Hm
              aliceCodes_wellformed Htyped Hin)
    as (k & w' & Hrun & Hk & _ & Hm' & Hagain).
  exists k, w'. split; [exact Hrun|]. split; [exact Hk|].
  split; [change (js "u1") with (_id alice); rewrite Hm'; reflexivity|].
  exact (Hagain aliceCodes_NoDup).
Defined.

(** X13. The counter survives the end of a lock. For a stored user
    whose lock is over and whose counter stands at or above
    [maxFailedAttempts] (as after the failures that locked them), the
    first wrong TOTP code is rejected and locks the account again, for
    [lockoutDuration] minutes from now. *)
Theorem onAuthValidateStep_relocks_after_expiry (C : NodeCrypto) (H : Host)
    (context : MfaAuthController.Context) (w : World) (user : User)
    (code totpSecret : jsstring) (m : Mfa) (lockDate : Z) :
  MfaAuthController.step context = js "mfa" ->
  MfaAuthController.stepData context = Some {| MfaAuthController.code := Some code |} ->
  code <> [] ->
  MfaAuthController.user context = Some user ->
  mfa user = Some m ->
  storedMfa w (_id user) = Some m ->
  lockConsistent (configOf w) m ->
  lockedUntil m = Some lockDate ->
  (lockDate <= now w)%Z ->
  MfaAuthModel.getDecryptedSecret user w = (Return totpSecret, w) ->
  totpSecret <> [] ->
  authenticator_verify (now w) (removeWhiteSpace code) totpSecret = false ->
  exists w' m',
    MfaAuthController.onAuthValidateStep context w
    = (Return (MfaAuthController.reject context MfaAuthController.InvalidMfaCode), w')
    /\ storedMfa w' (_id user) = Some m'
    /\ failedAttempts m' = (failedAttempts m + 1)%Z
    /\ lockedUntil m'
       = Some (now w + lockoutDuration (configOf w) * 60 * 1000)%Z.
Proof.
  intros Hstep Hdata Hne Huser Hmfa Hm [Hcount Hthreshold] Hlock Hpast Hsec Hsne Hbad.
  assert (forall lim, MfaAuthModel.lockedUntilOf (Some user) = Some lim ->
                      (lim <= now w)%Z) as Hun.
  { unfold MfaAuthModel.lockedUntilOf. rewrite Hmfa, Hlock. intros lim [= <-]. exact Hpast. }
  rewrite (onAuthValidateStep_unlocked context w user code) by auto.
  rewrite Hstep. rewrite bool_decide_eq_false_2 by discriminate.
  destruct (recordFailure_step w (_id user) m Hm)
    as (r & w' & m' & Hr & Hm' & _ & _ & Hattempts & Hlocks & _).
  destruct Hlocks as (_ & _ & Hlocked).
  { assert (maxFailedAttempts (configOf w) <= failedAttempts m)%Z
      by (apply Hthreshold; congruence). lia. }
  exists w', m'. split; [|repeat split; assumption].
  unfold tryCatch, bind at 1. rewrite Hsec.
  destruct totpSecret as [|s totpSecret]; [congruence|]. cbn [falsy].
  monad_simpl. rewrite Hbad, Hr. reflexivity.
Qed.

Lemma onAuthValidateStep_relocks_after_expiry_witness :
  let context := totpStep aliceExpired (Some (js "000000")) in
  (exists r, MfaAuthModel.isLocked (Some aliceExpired) worldExpired
             = (Return r, worldExpired) /\ MfaAuthModel.locked r = false)
  /\ exists w' m',
       @MfaAuthController.onAuthValidateStep standInCrypto standInHost context worldExpired
       = (Return (MfaAuthController.reject context MfaAuthController.InvalidMfaCode), w')
       /\ storedMfa w' (js "u1") = Some m'
       /\ failedAttempts m' = 6%Z
       /\ lockedUntil m' = Some 1700001500000%Z.
Proof.
  intros context. split.
  { eexists. split; reflexivity. }
  assert (@MfaAuthModel.getDecryptedSecret standInCrypto aliceExpired worldExpired
          = (Return (js "JBSWY3DPEHPK3PXP"), worldExpired)) as Hsec
    by (vm_compute; reflexivity).
  assert (lockConsistent (configOf worldExpired) aliceExpiredMfa) as Hconsistent.
  { split; [vm_compute; discriminate|]. intros _. vm_compute. discriminate. }
  apply (onAuthValidateStep_relocks_after_expiry standInCrypto standInHost context
           worldExpired aliceExpired (js "000000") (js "JBSWY3DPEHPK3PXP")
           aliceExpiredMfa 1700000500000
           eq_refl eq_refl ltac:(discriminate) eq_refl eq_refl
           ltac:(vm_compute; reflexivity) Hconsistent eq_refl
           ltac:(vm_compute; discriminate) Hsec ltac:(discriminate)
           ltac:(vm_compute; reflexivity)).
Defined.

(** ** The other API endpoints *)

Lemma isMfaRequired_run user w :
  exists r, MfaAuthModel.isMfaRequired user w = (Return r, w).
Proof.
  destruct (MfaAuthModel.mfaEnabled user) eqn:Hen.
  - eexists. now apply isMfaRequired_enabled.
  - destruct (isMfaRequired_not_enabled user w Hen) as (r & Hr & _). now exists r.
Qed.

(** X14. [apiDisable] always answers, and writes to the store only when
    it answers 'MFA disabled successfully': every other answer leaves the
    store as it was. A success means the request carried a password that
    [verifyPassword] accepts for the password hash of the requesting
    user; then only the [mfa] profile of that user changed, and the
    stored user has MFA off and no backup codes. *)
Theorem apiDisable_writes_only_with_password (H : Host)
    (req : MfaAuthController.Request) (w : World) :
  exists response w',
    MfaAuthController.apiDisable req w = (Return response, w')
    /\ (response <> MfaAuthController.DisableSucceeded -> w' = w)
    /\ (response = MfaAuthController.DisableSucceeded ->
        exists user password,
          MfaAuthController.req_user req = Some user
          /\ MfaAuthController.body_password req = Some password
          /\ verifyPassword password (passwordHash user) = true
          /\ sameExceptMfaOf (_id user) w w'
          /\ forall u, storedUser w' (_id user) = Some u ->
                       MfaAuthModel.mfaEnabled u = false
                       /\ MfaAuthModel.backupCodesOf (Some u) = []).
Proof.
  unfold MfaAuthController.apiDisable.
  destruct (MfaAuthController.req_user req) as [user|] eqn:Huser.
  2:{ eexists _, w. split; [reflexivity|]. split; [reflexivity|discriminate]. }
  destruct (MfaAuthController.body_password req) as [password|] eqn:Hpassword;
    cbn [MfaAuthController.noCode].
  2:{ eexists _, w. split; [reflexivity|]. split; [reflexivity|discriminate]. }
  destruct (falsy password) eqn:Hfalsy.
  { eexists _, w. split; [reflexivity|]. split; [reflexivity|discriminate]. }
  destruct (isMfaRequired_run user w) as (r & Hr).
  unfold tryCatch, bind at 1. rewrite Hr.
  destruct (_ && _).
  { eexists _, w. split; [reflexivity|]. split; [reflexivity|discriminate]. }
  cbn [from_option]. unfold id.
  destruct (UserModel w) as [users|] eqn:Hw.
  2:{ run_without Hw. eexists _, w. split; [reflexivity|]. split; [reflexivity|discriminate]. }
  run_in Hw.
  destruct (verifyPassword password (passwordHash user)) eqn:Hverify; cbn [negb].
  2:{ eexists _, w. split; [reflexivity|]. split; [reflexivity|discriminate]. }
  unfold MfaAuthModel.disableMfa. run_in Hw.
  rewrite (updateById_run w users) by exact Hw.
  eexists _, _. split; [reflexivity|]. split; [congruence|]. intros _.
  exists user, password. split; [reflexivity|]. split; [reflexivity|].
  split; [exact Hverify|]. split; [now apply updateById_frame|].
  intros u Hu. unfold storedUser, setUsers in Hu. cbn [UserModel] in Hu.
  rewrite lookup_alter_eq in Hu.
  destruct (users !! _id user) as [u0|]; [|discriminate].
  injection Hu as <-. split; reflexivity.
Qed.

(** X15. [apiSetup] never writes to the store and always answers. With
    an error answer the session is as before; a user with MFA enabled
    gets 400 'MFA is already enabled'. With a success the secret shown
    is the generated one and is the pending secret of the session, the
    issuer is the configured [issuerName] or 'jPulse' when that is
    empty, the URI is built for the e-mail address, or the user name
    without one, and the QR code is the image of that URI. *)
Theorem apiSetup_pending_secret (E : MfaAuthController.EnrollmentHost)
    (generated : jsstring) (req : MfaAuthController.SetupRequest) (w : World) :
  exists response session,
    MfaAuthController.apiSetup generated req w = (Return (response, session), w)
    /\ ((exists status error, response = MfaAuthController.SetupError status error) ->
        session = MfaAuthController.su_session req)
    /\ (forall user, MfaAuthController.su_user req = Some user ->
          MfaAuthModel.mfaEnabled user = true ->
          response = MfaAuthController.SetupError 400 "MFA is already enabled")
    /\ (forall shown qrCode otpauth issuer,
          response = MfaAuthController.SetupData shown qrCode otpauth issuer ->
          shown = generated
          /\ session = {| MfaAuthController.mfaPendingSecret := Some generated |}
          /\ issuer = (if falsy (issuerName (configOf w)) then js "jPulse"
                       else issuerName (configOf w))
          /\ MfaAuthController.toDataURL otpauth = Return qrCode
          /\ exists user,
               MfaAuthController.su_user req = Some user
               /\ MfaAuthModel.mfaEnabled user = false
               /\ otpauth
                  = MfaAuthController.keyuri
                      (MfaAuthController.orElse (MfaAuthController.su_email req)
                         (username user))
                      issuer generated).
Proof.
  unfold MfaAuthController.apiSetup.
  destruct (MfaAuthController.su_user req) as [user|] eqn:Huser.
  2:{ eexists _, _. split; [reflexivity|]. split; [reflexivity|].
      split; [discriminate|]. discriminate. }
  destruct (MfaAuthModel.mfaEnabled user) eqn:Hen.
  { eexists _, _. split; [reflexivity|]. split; [reflexivity|].
    split; [reflexivity|]. discriminate. }
  unfold tryCatch, bind at 1. rewrite getConfig_spec.
  unfold bind, lift, ret. cbn [MfaAuthController.orElse].
  destruct (MfaAuthController.toDataURL _) as [qr|e] eqn:Hqr.
  - eexists _, _. split; [reflexivity|]. split.
    { intros (status & error & Hbad). discriminate. }
    split.
    { intros user' [= <-] Hen'. congruence. }
    intros shown qrCode otpauth issuer [= <- <- <- <-].
    split; [reflexivity|]. split; [reflexivity|]. split; [reflexivity|].
    split; [exact Hqr|]. exists user. repeat split. exact Hen.
  - eexists _, _. split; [reflexivity|]. split; [reflexivity|].
    split; [|discriminate]. intros user' [= <-] Hen'. congruence.
Qed.

Lemma enableMfa_run (C : NodeCrypto) iv entropy w users userId plain :
  UserModel w = Some users ->
  let generated := MfaAuthModel.generateBackupCodes entropy (backupCodeCount (configOf w)) in
  MfaAuthModel.enableMfa iv entropy userId plain w
  = (Return {| MfaAuthModel.er_success := true;
               MfaAuthModel.er_backupCodes := generated.1 |},
     setUsers
       (alter (applyUpdates
                 [set_enabled true; set_method (js "totp");
                  set_secret (MfaAuthModel.encrypt (sessionSecret w) iv plain);
                  set_backupCodes generated.2; set_enrolledAt (Some (now w));
                  set_failedAttempts 0; set_lockedUntil None]) userId users) w).
Proof.
  intros Hw generated.
  unfold MfaAuthModel.enableMfa. run_in Hw. rewrite getConfig_spec. run_in Hw.
  fold generated. destruct generated as [codes hashes]. run_in Hw.
  rewrite (updateById_run w users) by exact Hw. reflexivity.
Qed.

Lemma enableMfa_without_store (C : NodeCrypto) iv entropy w userId plain :
  UserModel w = None ->
  MfaAuthModel.enableMfa iv entropy userId plain w = (Throw Error, w).
Proof.
  intros Hw. unfold MfaAuthModel.enableMfa. run_without Hw. reflexivity.
Qed.

(** What [updateById] stores for a user that exists. *)
Lemma storedMfa_after_updateById w users u userId updates :
  UserModel w = Some users -> users !! userId = Some u ->
  storedMfa (setUsers (alter (applyUpdates updates) userId users) w) userId
  = Some (fold_left applyUpdate updates (default defaultMfa (mfa u))).
Proof.
  intros Hw Hu.
  destruct (storedMfa_updateById w users u userId updates Hw Hu) as (w' & Hrun & Hstored & _).
  rewrite (updateById_run w users) in Hrun by exact Hw. injection Hrun as <-.
  exact Hstored.
Qed.

(** X16. [apiVerifySetup] always answers. With an error answer neither
    the session nor the store changed. It answers with backup codes only
    for a signed-in user whose code the authenticator accepts for the
    non-empty pending secret of the session; then the pending secret is
    gone from the session, only the [mfa] profile of that user changed,
    and for a stored user it is enabled, holds the encrypted pending
    secret and the hashes of the [backupCodeCount] codes returned, is
    enrolled now, and has no failures and no lock. *)
Theorem apiVerifySetup_enables_only_with_valid_code (C : NodeCrypto) (H : Host)
    (iv : buffer) (entropy : nat -> byte)
    (req : MfaAuthController.VerifySetupRequest) (w : World) :
  exists response session w',
    MfaAuthController.apiVerifySetup iv entropy req w = (Return (response, session), w')
    /\ ((exists status error, response = MfaAuthController.CodesError status error) ->
        session = MfaAuthController.vs_session req /\ w' = w)
    /\ (forall codes,
          response = MfaAuthController.CodesData codes ->
          exists user code pendingSecret,
            MfaAuthController.vs_user req = Some user
            /\ MfaAuthController.vs_code req = Some code
            /\ MfaAuthController.mfaPendingSecret (MfaAuthController.vs_session req)
               = Some pendingSecret
            /\ pendingSecret <> []
            /\ authenticator_verify (now w) (removeWhiteSpace code) pendingSecret = true
            /\ session = {| MfaAuthController.mfaPendingSecret := None |}
            /\ sameExceptMfaOf (_id user) w w'
            /\ length codes = Z.to_nat (backupCodeCount (configOf w))
            /\ forall u, storedUser w (_id user) = Some u ->
                 exists m',
                   storedMfa w' (_id user) = Some m'
                   /\ enabled m' = true
                   /\ secret m' = MfaAuthModel.encrypt (sessionSecret w) iv pendingSecret
                   /\ backupCodes m' = map MfaAuthModel.hashBackupCode codes
                   /\ enrolledAt m' = Some (now w)
                   /\ failedAttempts m' = 0%Z /\ lockedUntil m' = None).
Proof.
  unfold MfaAuthController.apiVerifySetup.
  destruct (MfaAuthController.vs_user req) as [user|] eqn:Huser.
  2:{ eexists _, _, w. split; [reflexivity|]. split; [split; reflexivity|discriminate]. }
  destruct (MfaAuthController.vs_code req) as [code|] eqn:Hcode;
    cbn [MfaAuthController.noCode].
  2:{ eexists _, _, w. split; [reflexivity|]. split; [split; reflexivity|discriminate]. }
  destruct (falsy code) eqn:Hfalsy.
  { eexists _, _, w. split; [reflexivity|]. split; [split; reflexivity|discriminate]. }
  destruct (MfaAuthController.mfaPendingSecret (MfaAuthController.vs_session req))
    as [pendingSecret|] eqn:Hpending.
  2:{ eexists _, _, w. split; [reflexivity|]. split; [split; reflexivity|discriminate]. }
  destruct pendingSecret as [|p pendingSecret']; cbn [falsy].
  { eexists _, _, w. split; [reflexivity|]. split; [split; reflexivity|discriminate]. }
  set (pendingSecret := p :: pendingSecret') in *.
  cbn [from_option]. unfold id. monad_simpl.
  destruct (authenticator_verify (now w) (removeWhiteSpace code) pendingSecret) eqn:Hvalid;
    cbn [negb].
  2:{ eexists _, _, w. split; [reflexivity|]. split; [split; reflexivity|discriminate]. }
  destruct (UserModel w) as [users|] eqn:Hw.
  2:{ rewrite (enableMfa_without_store C iv entropy w (_id user) pendingSecret Hw).
      eexists _, _, w. split; [reflexivity|]. split; [split; reflexivity|discriminate]. }
  rewrite (enableMfa_run C iv entropy w users (_id user) pendingSecret Hw).
  cbn [MfaAuthModel.er_backupCodes].
  destruct (generateBackupCodes_spec entropy (backupCodeCount (configOf w)))
    as (Hlength & Hhashes & _).
  cbn zeta in Hlength, Hhashes.
  set (generated := MfaAuthModel.generateBackupCodes entropy (backupCodeCount (configOf w))) in *.
  eexists _, _, _. split; [reflexivity|]. split.
  { intros (status & error & Hbad). discriminate. }
  intros codes [= <-]. exists user, code, pendingSecret.
  split; [reflexivity|]. split; [reflexivity|]. split; [reflexivity|].
  split; [discriminate|]. split; [exact Hvalid|]. split; [reflexivity|].
  split; [now apply updateById_frame|]. split; [exact Hlength|].
  intros u Hu. unfold storedUser in Hu. rewrite Hw in Hu.
  eexists. split; [now apply (storedMfa_after_updateById w users u)|].
  cbn. repeat split. exact Hhashes.
Qed.

Lemma regenerateBackupCodes_run entropy w users userId :
  UserModel w = Some users ->
  let generated := MfaAuthModel.generateBackupCodes entropy (backupCodeCount (configOf w)) in
  MfaAuthModel.regenerateBackupCodes entropy userId w
  = (Return generated.1,
     setUsers (alter (applyUpdates [set_backupCodes generated.2]) userId users) w).
Proof.
  intros Hw generated.
  unfold MfaAuthModel.regenerateBackupCodes. run_in Hw. rewrite getConfig_spec.
  run_in Hw. fold generated. destruct generated as [codes hashes]. run_in Hw.
  rewrite (updateById_run w users) by exact Hw. reflexivity.
Qed.

(** X17. [apiBackupCodes] always answers; an error answer leaves the
    store as it was, and a user without MFA enabled gets 400
    'MFA is not enabled'. A success is for a user with MFA enabled: it
    returns [backupCodeCount] codes of the form XXXX-XXXX, only the
    [mfa] profile of that user changed, and in a stored profile only the
    backup code hashes, which are now the hashes of the codes
    returned. *)
Theorem apiBackupCodes_replaces_hashes_only (entropy : nat -> byte)
    (requester : option User) (w : World) :
  exists response w',
    MfaAuthController.apiBackupCodes entropy requester w = (Return response, w')
    /\ ((exists status error, response = MfaAuthController.CodesError status error) ->
        w' = w)
    /\ (forall user, requester = Some user -> MfaAuthModel.mfaEnabled user = false ->
          response = MfaAuthController.CodesError 400 "MFA is not enabled")
    /\ (forall codes,
          response = MfaAuthController.CodesData codes ->
          exists user,
            requester = Some user
            /\ MfaAuthModel.mfaEnabled user = true
            /\ length codes = Z.to_nat (backupCodeCount (configOf w))
            /\ Forall isBackupCodeFormat codes
            /\ sameExceptMfaOf (_id user) w w'
            /\ forall m, storedMfa w (_id user) = Some m ->
                 storedMfa w' (_id user)
                 = Some {| enabled := enabled m; method := method m; secret := secret m;
                           backupCodes := map MfaAuthModel.hashBackupCode codes;
                           enrolledAt := enrolledAt m; lastUsedAt := lastUsedAt m;
                           failedAttempts := failedAttempts m;
                           lockedUntil := lockedUntil m;
                           gracePeriodUntil := gracePeriodUntil m |}).
Proof.
  unfold MfaAuthController.apiBackupCodes.
  destruct requester as [user|].
  2:{ eexists _, w. split; [reflexivity|]. split; [reflexivity|].
      split; discriminate. }
  destruct (MfaAuthModel.mfaEnabled user) eqn:Hen; cbn [negb].
  2:{ eexists _, w. split; [reflexivity|]. split; [reflexivity|].
      split; [reflexivity|discriminate]. }
  destruct (UserModel w) as [users|] eqn:Hw.
  2:{ unfold MfaAuthModel.regenerateBackupCodes. run_without Hw.
      eexists _, w. split; [reflexivity|]. split; [reflexivity|].
      split; [|discriminate]. intros user' [= <-]. congruence. }
  unfold tryCatch at 1. unfold bind at 1.
  rewrite (regenerateBackupCodes_run entropy w users (_id user) Hw).
  destruct (generateBackupCodes_spec entropy (backupCodeCount (configOf w)))
    as (Hlength & Hhashes & Hformat).
  cbn zeta in Hlength, Hhashes, Hformat.
  set (generated := MfaAuthModel.generateBackupCodes entropy (backupCodeCount (configOf w))) in *.
  eexists _, _. split; [reflexivity|]. split.
  { intros (status & error & Hbad). discriminate. }
  split.
  { intros user' [= <-]. congruence. }
  intros codes [= <-]. exists user. split; [reflexivity|]. split; [exact Hen|].
  split; [exact Hlength|]. split; [exact Hformat|].
  split; [now apply updateById_frame|].
  intros m Hm. destruct (storedMfa_inv w (_id user) m Hm) as (users' & u & Hw' & Hu & Hmfa).
  assert (users' = users) as -> by congruence.
  unfold storedMfa, setUsers. cbn [UserModel]. rewrite lookup_alter_eq, Hu.
  cbn. rewrite Hmfa, Hhashes. reflexivity.
Qed.

(** ** Enrollment, then login *)

(** X18. Enrollment, then login. After [enableMfa] for a stored user
    with a non-empty well-formed secret (the cryptographic primitives
    meeting their contract, the IV 16 bytes long) the stored user has MFA
    enabled and [getDecryptedSecret] gives the secret back; a TOTP step
    of that user is accepted exactly when the authenticator accepts the
    code for the secret that was enrolled. *)
Theorem enableMfa_then_login (C : NodeCrypto) (CC : NodeCryptoContract C) (H : Host)
    (iv : buffer) (entropy : nat -> byte) (w : World) (u : User)
    (plain : jsstring) :
  storedUser w (_id u) = Some u ->
  length iv = 16%nat ->
  plain <> [] ->
  Utf8.isWellFormed plain = true ->
  exists result w' u',
    MfaAuthModel.enableMfa iv entropy (_id u) plain w = (Return result, w')
    /\ storedUser w' (_id u) = Some u'
    /\ _id u' = _id u
    /\ MfaAuthModel.mfaEnabled u' = true
    /\ MfaAuthModel.getDecryptedSecret u' w' = (Return plain, w')
    /\ (forall context code,
        MfaAuthController.step context = js "mfa" ->
        MfaAuthController.stepData context
        = Some {| MfaAuthController.code := Some code |} ->
        code <> [] ->
        MfaAuthController.user context = Some u' ->
        exists w'',
          MfaAuthController.onAuthValidateStep context w'
          = (Return (if authenticator_verify (now w) (removeWhiteSpace code) plain
                     then MfaAuthController.accept context
                     else MfaAuthController.reject context
                            MfaAuthController.InvalidMfaCode), w'')).
Proof.
  intros Hu Hiv Hne Hwf. unfold storedUser in Hu.
  destruct (UserModel w) as [users|] eqn:Hw; [|discriminate].
  rewrite (enableMfa_run C iv entropy w users (_id u) plain Hw).
  set (generated := MfaAuthModel.generateBackupCodes entropy (backupCodeCount (configOf w))).
  set (updates := [set_enabled true; set_method (js "totp");
                   set_secret (MfaAuthModel.encrypt (sessionSecret w) iv plain);
                   set_backupCodes generated.2; set_enrolledAt (Some (now w));
                   set_failedAttempts 0; set_lockedUntil None]).
  set (w' := setUsers (alter (applyUpdates updates) (_id u) users) w).
  assert (storedUser w' (_id u) = Some (applyUpdates updates u)) as Hu'.
  { unfold storedUser, w', setUsers. cbn [UserModel]. rewrite lookup_alter_eq, Hu.
    reflexivity. }
  assert (mfa (applyUpdates updates u)
          = Some {| enabled := true; method := js "totp";
                    secret := MfaAuthModel.encrypt (sessionSecret w) iv plain;
                    backupCodes := generated.2; enrolledAt := Some (now w);
                    lastUsedAt := lastUsedAt (default defaultMfa (mfa u));
                    failedAttempts := 0; lockedUntil := None;
                    gracePeriodUntil := gracePeriodUntil (default defaultMfa (mfa u)) |})
    as Hmfa' by reflexivity.
  assert (MfaAuthModel.encrypt (sessionSecret w) iv plain <> []) as Hsealed.
  { unfold MfaAuthModel.encrypt. destruct plain; [congruence|]. cbn [falsy].
    apply base64_encode_nonempty. destruct iv; [discriminate|]. discriminate. }
  assert (MfaAuthModel.getDecryptedSecret (applyUpdates updates u) w' = (Return plain, w'))
    as Hsecret.
  { unfold MfaAuthModel.getDecryptedSecret. rewrite Hmfa'. cbn [secret].
    destruct (MfaAuthModel.encrypt (sessionSecret w) iv plain) eqn:Hblob; [congruence|].
    cbn [falsy]. rewrite <- Hblob. change (sessionSecret w') with (sessionSecret w).
    rewrite decrypt_encrypt_utf8 by assumption. now rewrite utf8_decode_encode. }
  eexists _, w', _. split; [reflexivity|]. split; [exact Hu'|]. split; [reflexivity|].
  split; [unfold MfaAuthModel.mfaEnabled; now rewrite Hmfa'|]. split; [exact Hsecret|].
  intros context code Hstep Hdata Hcode Huser.
  assert (forall lim, MfaAuthModel.lockedUntilOf (Some (applyUpdates updates u)) = Some lim ->
                      (lim <= now w')%Z) as Hun.
  { unfold MfaAuthModel.lockedUntilOf. rewrite Hmfa'. discriminate. }
  rewrite (onAuthValidateStep_unlocked context w' (applyUpdates updates u) code) by auto.
  rewrite Hstep. rewrite bool_decide_eq_false_2 by discriminate.
  unfold tryCatch, bind at 1. rewrite Hsecret.
  destruct plain as [|c plain']; [congruence|]. cbn [falsy].
  set (plain := c :: plain') in *. monad_simpl. change (now w') with (now w).
  assert (UserModel w' = Some (alter (applyUpdates updates) (_id u) users)) as Hw'
    by reflexivity.
  destruct (authenticator_verify (now w) (removeWhiteSpace code) plain).
  - unfold MfaAuthModel.recordSuccess. run_in Hw'.
    rewrite (updateById_run w' _ _ _ Hw'). eexists. reflexivity.
  - destruct (recordFailure_step w' (_id u) _ ltac:(unfold storedMfa; rewrite Hw', lookup_alter_eq, Hu; exact Hmfa'))
      as (r & w'' & m'' & Hr & _).
    change (_id (applyUpdates updates u)) with (_id u). rewrite Hr.
    eexists. reflexivity.
Qed.

Lemma enableMfa_then_login_witness :
  let plain := js "GEZDGNBVGY3TQOJQ" in
  exists result w' u',
    @MfaAuthModel.enableMfa standInCrypto (repeat x20 16) someEntropy (js "u2") plain worldBob
    = (Return result, w')
    /\ storedUser w' (js "u2") = Some u'
    /\ MfaAuthModel.mfaEnabled u' = true
    /\ @MfaAuthModel.getDecryptedSecret standInCrypto u' w' = (Return plain, w')
    /\ exists w'',
         @MfaAuthController.onAuthValidateStep standInCrypto standInHost
           (totpStep u' (Some (js "GEZDGN BVGY3T QOJQ"))) w'
         = (Return (MfaAuthController.accept
                      (totpStep u' (Some (js "GEZDGN BVGY3T QOJQ")))), w'').
Proof.
  intros plain.
  destruct (enableMfa_then_login standInCrypto standInCrypto_contract standInHost
              (repeat x20 16) someEntropy worldBob bob plain
              ltac:(vm_compute; reflexivity) eq_refl ltac:(discriminate)
              ltac:(vm_compute; reflexivity))
    as (result & w' & u' & Hrun & Hstored & Hid & Henabled & Hsecret & Hlogin).
  exists result, w', u'. split; [exact Hrun|]. split; [exact Hstored|].
  split; [exact Henabled|]. split; [exact Hsecret|].
  destruct (Hlogin (totpStep u' (Some (js "GEZDGN BVGY3T QOJQ")))
              (js "GEZDGN BVGY3T QOJQ") eq_refl eq_refl ltac:(discriminate) eq_refl)
    as (w'' & Hstep).
  exists w''. exact Hstep.
Defined.

(** X19. Enrollment, then a backup code. [enableMfa] for a stored user
    returns [backupCodeCount] codes and stores their hashes; each of the
    codes, however it is typed, is then accepted by [useBackupCode],
    which removes one hash, at or before the index of the code. *)
Theorem enableMfa_backup_codes_usable (C : NodeCrypto)
    (iv : buffer) (entropy : nat -> byte) (w : World) (u : User) (plain : jsstring) :
  storedUser w (_id u) = Some u ->
  exists codes w',
    MfaAuthModel.enableMfa iv entropy (_id u) plain w
    = (Return {| MfaAuthModel.er_success := true;
                 MfaAuthModel.er_backupCodes := codes |}, w')
    /\ length codes = Z.to_nat (backupCodeCount (configOf w))
    /\ storedBackupCodes w' (_id u) = map MfaAuthModel.hashBackupCode codes
    /\ (forall (i : nat) code typed,
          codes !! i = Some code ->
          typedAs typed code ->
          exists (k : nat) (w'' : World),
            (k <= i)%nat
            /\ MfaAuthModel.useBackupCode (_id u)
                 (toUpperCase (removeWhiteSpaceAndDashes typed)) w'
               = (Return true, w'')
            /\ storedBackupCodes w'' (_id u)
               = delete k (map MfaAuthModel.hashBackupCode codes)
            /\ S (length (storedBackupCodes w'' (_id u))) = length codes).
Proof.
  intros Hu. unfold storedUser in Hu.
  destruct (UserModel w) as [users|] eqn:Hw; [|discriminate].
  rewrite (enableMfa_run C iv entropy w users (_id u) plain Hw).
  destruct (generateBackupCodes_spec entropy (backupCodeCount (configOf w)))
    as (Hlength & Hhashes & _).
  cbn zeta in Hlength, Hhashes.
  set (generated := MfaAuthModel.generateBackupCodes entropy (backupCodeCount (configOf w))) in *.
  set (updates := [set_enabled true; set_method (js "totp");
                   set_secret (MfaAuthModel.encrypt (sessionSecret w) iv plain);
                   set_backupCodes generated.2; set_enrolledAt (Some (now w));
                   set_failedAttempts 0; set_lockedUntil None]).
  set (w' := setUsers (alter (applyUpdates updates) (_id u) users) w).
  pose proof (storedMfa_after_updateById w users u (_id u) updates Hw Hu) as Hm'.
  fold w' in Hm'.
  set (m' := fold_left applyUpdate updates (default defaultMfa (mfa u))) in *.
  assert (backupCodes m' = map MfaAuthModel.hashBackupCode generated.1) as Hcodes
    by (rewrite <- Hhashes; reflexivity).
  assert (forall w2 m2, storedMfa w2 (_id u) = Some m2 ->
                        storedBackupCodes w2 (_id u) = backupCodes m2) as Hread.
  { intros w2 m2 Hm2.
    destruct (storedMfa_inv w2 (_id u) m2 Hm2) as (users2 & u2 & Hw2 & Hu2 & Hmfa2).
    unfold storedBackupCodes. rewrite Hw2, Hu2. cbn [MfaAuthModel.backupCodesOf].
    now rewrite Hmfa2. }
  exists generated.1, w'. split; [reflexivity|]. split; [exact Hlength|].
  split; [now rewrite (Hread w' m' Hm')|].
  intros i code typed Hi Htyped.
  set (clean := toUpperCase (removeWhiteSpaceAndDashes typed)).
  assert (MfaAuthModel.hashBackupCode clean = MfaAuthModel.hashBackupCode code) as Hhash
    by now apply typedAs_hashBackupCode.
  assert (backupCodes m' !! i = Some (MfaAuthModel.hashBackupCode code)) as Hstored.
  { rewrite Hcodes, list_lookup_fmap, Hi. reflexivity. }
  destruct (verifyBackupCode_wellformed clean (backupCodes m'))
    as [[_ Hnot] | (k & Hverify & Hk & Hfirst)].
  { rewrite Hcodes. apply hashes_wellformed. }
  { rewrite Hhash in Hnot. apply list_elem_of_lookup_2 in Hstored. contradiction. }
  rewrite Hhash in Hk, Hfirst.
  destruct (useBackupCode_effect w' (_id u) clean m' Hm')
    as [[Hnone _] | [(e & Hthrow & _) | (index & w'' & m'' & Hv & _ & Huse & Hm'' & _ & _ & _ & Heq)]];
    [rewrite Hverify in Hnone; injection Hnone; lia | congruence |].
  assert (index = Z.of_nat k) as -> by congruence.
  rewrite Nat2Z.id in Heq.
  exists k, w''. split.
  { destruct (decide (k <= i)%nat) as [Hle|Hgt]; [exact Hle|].
    exfalso. apply (Hfirst i); [lia | exact Hstored]. }
  split; [exact Huse|].
  rewrite (Hread w'' m'' Hm''), Heq. cbn [backupCodes]. rewrite Hcodes.
  split; [reflexivity|].
  rewrite length_delete by (rewrite <- Hcodes; eauto).
  rewrite length_map.
  assert (i < length generated.1)%nat by (apply lookup_lt_is_Some; eauto). lia.
Qed.

Lemma enableMfa_backup_codes_usable_witness :
  exists codes w',
    @MfaAuthModel.enableMfa standInCrypto (repeat x20 16) someEntropy (js "u2")
      (js "GEZDGNBVGY3TQOJQ") worldBob
    = (Return {| MfaAuthModel.er_success := true;
                 MfaAuthModel.er_backupCodes := codes |}, w')
    /\ length codes = 10%nat
    /\ codes !! 1%nat = Some (js "9FC4-E90E")
    /\ exists (k : nat) (w'' : World),
         (k <= 1)%nat
         /\ MfaAuthModel.useBackupCode (js "u2")
              (toUpperCase (removeWhiteSpaceAndDashes (js "9fc4 e90e"))) w'
            = (Return true, w'')
         /\ S (length (storedBackupCodes w'' (js "u2"))) = length codes.
Proof.
  destruct (enableMfa_backup_codes_usable standInCrypto (repeat x20 16) someEntropy
              worldBob bob (js "GEZDGNBVGY3TQOJQ") ltac:(vm_compute; reflexivity))
    as (codes & w' & Hrun & Hlength & _ & Husable).
  assert (codes !! 1%nat = Some (js "9FC4-E90E")) as Hcode.
  { rewrite (enableMfa_run standInCrypto _ _ worldBob _ _ _ eq_refl) in Hrun.
    injection Hrun as <- _. vm_compute. reflexivity. }
  exists codes, w'. split; [exact Hrun|]. split; [exact Hlength|]. split; [exact Hcode|].
  assert (typedAs (js "9fc4 e90e") (js "9FC4-E90E")) as Htyped.
  { cbv [js list_ascii_of_string map N_of_ascii N_of_digits N.add N.mul].
    typedAs_steps. }
  destruct (Husable 1%nat (js "9FC4-E90E") (js "9fc4 e90e") Hcode Htyped)
    as (k & w'' & Hk & Huse & _ & Hleft).
  exists k, w''. split; [exact Hk|]. split; [exact Huse|exact Hleft].
Defined.
